(** * Match & Replace template plugin: translation, store, persistence, sync

    A shallow embedding of the plugin's front-end script (collection store,
    rule import, editor-to-host translation, sync loop) and of the backend's
    persistence getters, followed by the properties established about them.

    Conventions of the embedding.
    - A JavaScript string is a [string]: a sequence of code units below 256
      (ASCII and Latin-1).  [trim], the regular-expression class [\s] and
      [toLowerCase] are the JavaScript ones restricted to that range.
    - A value whose static type the code does not trust ([unknown], the
      result of [JSON.parse]) is a [json] value; [undefined] is [None].
    - A rejected promise or a thrown exception is [Threw]; functions that
      catch return ordinary values.
    - [Date.now()] / [Math.random()] identifiers are passed in as arguments.
    - Toasts are collected in a list, most recent last.  Console output is
      not modelled. *)

From Stdlib Require Import String Ascii List Bool Arith NArith ZArith Lia DecimalString.
Import ListNotations.
Set Warnings "-register-all".
Open Scope string_scope.
Open Scope bool_scope.

(* ------------------------------------------------------------------ *)
(** ** JavaScript strings *)

Module JS.

(** WhiteSpace and LineTerminator code units below 256: TAB, LF, VT, FF,
    CR, SP and NBSP.  [String.prototype.trim] and the class [\s] agree on
    this set. *)
Definition isWhiteSpace (c : ascii) : bool :=
  let n := N_of_ascii c in
  (((9 <=? n) && (n <=? 13)) || (n =? 32) || (n =? 160))%N.

(** Code-unit lowering: A-Z, and the Latin-1 capitals (192-222 but the
    multiplication sign 215). *)
Definition lowerChar (c : ascii) : ascii :=
  let n := N_of_ascii c in
  if (((65 <=? n) && (n <=? 90))
      || ((192 <=? n) && (n <=? 222) && negb (n =? 215)))%N
  then ascii_of_N (n + 32) else c.

Fixpoint toLowerCase (s : string) : string :=
  match s with
  | EmptyString => EmptyString
  | String c t => String (lowerChar c) (toLowerCase t)
  end.

Fixpoint trimStart (s : string) : string :=
  match s with
  | EmptyString => EmptyString
  | String c t => if isWhiteSpace c then trimStart t else s
  end.

Definition isEmpty (s : string) : bool :=
  match s with EmptyString => true | _ => false end.

Fixpoint trimEnd (s : string) : string :=
  match s with
  | EmptyString => EmptyString
  | String c t =>
      let t' := trimEnd t in
      if isWhiteSpace c && isEmpty t' then EmptyString else String c t'
  end.

Definition trim (s : string) : string := trimEnd (trimStart s).

(** [s.startsWith(p)] *)
Definition startsWith (s p : string) : bool := String.prefix p s.

(** [s.includes(p)] *)
Fixpoint includes (s p : string) : bool :=
  String.prefix p s
  || match s with
     | EmptyString => false
     | String _ t => includes t p
     end.

(** [s.trim().length === 0] *)
Definition blank (s : string) : bool := isEmpty (trim s).

Fixpoint allWhiteSpace (s : string) : bool :=
  match s with
  | EmptyString => true
  | String c t => isWhiteSpace c && allWhiteSpace t
  end.

End JS.

(* ------------------------------------------------------------------ *)
(** ** Helper functions of the front-end *)

Definition ensureGlobalPrefix (name : string) : string :=
  let trimmed := JS.trim name in
  let lower := JS.toLowerCase trimmed in
  if JS.startsWith lower "global" then trimmed
  else "Global " ++ trimmed.

Definition tilde : ascii := "~"%char.
Definition space : ascii := " "%char.

(** [s.replace(/~([^\s])/g, "~ $1")]: scanning left to right, a tilde
    followed by a non-blank code unit consumes both. *)
Fixpoint spaceAfterTilde (s : string) : string :=
  match s with
  | EmptyString => EmptyString
  | String c t =>
      match t with
      | String d u =>
          if Ascii.eqb c tilde && negb (JS.isWhiteSpace d)
          then String c (String space (String d (spaceAfterTilde u)))
          else String c (spaceAfterTilde t)
      | EmptyString => String c EmptyString
      end
  end.

(** [s.replace(/([^\s])~/g, "$1 ~")] *)
Fixpoint spaceBeforeTilde (s : string) : string :=
  match s with
  | EmptyString => EmptyString
  | String c t =>
      match t with
      | String d u =>
          if negb (JS.isWhiteSpace c) && Ascii.eqb d tilde
          then String c (String space (String d (spaceBeforeTilde u)))
          else String c (spaceBeforeTilde t)
      | EmptyString => String c EmptyString
      end
  end.

Definition normalizeHttpqlQuery (query : string) : string :=
  if JS.blank query then ""
  else
    let normalized := JS.trim query in
    let normalized := spaceAfterTilde normalized in
    let normalized := spaceBeforeTilde normalized in
    normalized.

(* ------------------------------------------------------------------ *)
(** ** Untyped values *)

(** A parsed JSON value.  Only the zero-ness of a number is ever observed,
    so numbers are integers here.  An object is its list of own
    properties; a property is read at its first occurrence. *)
Inductive json : Type :=
| JNull : json
| JBool : bool -> json
| JNum : Z -> json
| JStr : string -> json
| JArr : list json -> json
| JObj : list (string * json) -> json.

Module Json.

Fixpoint assoc (k : string) (l : list (string * json)) : option json :=
  match l with
  | [] => None
  | (k', v) :: t => if String.eqb k k' then Some v else assoc k t
  end.

(** [v.k] for one of the property names the code reads ([name], [kind],
    [operation], ...): only a plain object has them; reading them on
    another non-null value gives [undefined]. *)
Definition prop (v : json) (k : string) : option json :=
  match v with
  | JObj l => assoc k l
  | _ => None
  end.

(** ToBoolean *)
Definition truthy (v : option json) : bool :=
  match v with
  | None => false
  | Some JNull => false
  | Some (JBool b) => b
  | Some (JNum n) => negb (Z.eqb n 0)
  | Some (JStr s) => negb (JS.isEmpty s)
  | Some (JArr _) => true
  | Some (JObj _) => true
  end.

(** [v && typeof v === "object"] *)
Definition asObject (v : option json) : option json :=
  match v with
  | Some (JObj l) => Some (JObj l)
  | Some (JArr l) => Some (JArr l)
  | _ => None
  end.

(** [typeof v === "string" ? v : d] *)
Definition stringOr (v : option json) (d : string) : string :=
  match v with
  | Some (JStr s) => s
  | _ => d
  end.

(** [typeof v === "string"] *)
Definition isString (v : option json) : bool :=
  match v with
  | Some (JStr _) => true
  | _ => false
  end.

(** [a || b] *)
Definition orElse (a b : option json) : option json :=
  if truthy a then a else b.

(** [(o.__typename as string) || (o.kind as string) || ""]: the casts
    do nothing at run time, so the result need not be a string. *)
Definition discriminator (o : json) : json :=
  match orElse (orElse (prop o "__typename") (prop o "kind")) (Some (JStr "")) with
  | Some v => v
  | None => JStr ""
  end.

Definition isStr (s : string) (v : json) : bool :=
  match v with
  | JStr s' => String.eqb s s'
  | _ => false
  end.

(** The [includes] method of a value: substring search on a string,
    membership on an array; any other value has none, and calling it
    throws a TypeError ([None]). *)
Definition includesMethod (v : json) : option (string -> bool) :=
  match v with
  | JStr s => Some (JS.includes s)
  | JArr l => Some (fun p => existsb (isStr p) l)
  | _ => None
  end.

End Json.

(* ------------------------------------------------------------------ *)
(** ** Editor data model *)

(** A rule as the code handles it at run time.  The declared type makes
    [name], [section], [matcher] and [value] mandatory, but the code
    guards against their absence ([!r.section], [r.value ?? ""], ...), and
    rules come from unchecked sources (the flat import format, the
    persisted blob), so every field the code tests is optional here. *)
Module Rule.
Record t : Type := mk {
  id : string;
  name : option string;
  section : option string;
  matcher : option string;
  value : option string;
  active : bool;
  matcherType : option string;
  replacerType : option string;
  condition : option string;
  workflowId : option string
}.
End Rule.

Module Collection.
Record t : Type := mk {
  id : string;
  name : string;
  rules : list Rule.t
}.
End Collection.

(** A string in boolean position: [undefined] and [""] are falsy. *)
Definition truthyStr (s : option string) : bool :=
  match s with
  | Some s => negb (JS.isEmpty s)
  | None => false
  end.

(** [a || b] on strings *)
Definition strOr (a : option string) (b : string) : string :=
  match a with
  | Some s => if JS.isEmpty s then b else s
  | None => b
  end.

(** [a ?? b] *)
Definition nullish {A : Type} (a : option A) (b : A) : A :=
  match a with
  | Some x => x
  | None => b
  end.

Definition createDefaultCollection (now : string) : Collection.t :=
  Collection.mk now "Global Template" [].

(* ------------------------------------------------------------------ *)
(** ** Host-to-editor translation *)

(** The [if / else if] chain over the section discriminator; [inc] is the
    discriminator's [includes] method. *)
Definition sectionTypeOf (inc : string -> bool) : string :=
  if inc "RequestHeader" then "RequestHeader"
  else if inc "RequestBody" then "RequestBody"
  else if inc "RequestMethod" then "RequestMethod"
  else if inc "RequestPath" then "RequestPath"
  else if inc "RequestQuery" then "RequestQuery"
  else if inc "ResponseHeader" then "ResponseHeader"
  else if inc "ResponseBody" then "ResponseBody"
  else if inc "ResponseStatusCode" then "ResponseStatusCode"
  else "RequestHeader".

(** The inner chain over [matcherObj.raw]; the result is
    [(matcherType, matcher)], the initial values when no branch assigns. *)
Definition parseRawMatcher (raw : json) : option (string * string) :=
  match Json.includesMethod (Json.discriminator raw) with
  | None => None
  | Some inc =>
      Some
        (if inc "MatcherRawRegex" || inc "TamperMatcherRawRegex"
         then ("regex", Json.stringOr (Json.prop raw "regex") "")
         else if inc "MatcherRawValue" || inc "TamperMatcherRawValue"
         then ("string", Json.stringOr (Json.prop raw "value") "")
         else if inc "MatcherRawFull" || inc "TamperMatcherRawFull"
         then ("full", "")
         else ("regex", ""))
  end.

(** The chain over [operation.matcher]. *)
Definition parseMatcher (matcherObj : json) : option (string * string) :=
  match Json.includesMethod (Json.discriminator matcherObj) with
  | None => None
  | Some inc =>
      if inc "MatcherRegex" || inc "TamperMatcherRegex"
      then
        Some ("regex",
              match Json.prop matcherObj "regex" with
              | Some (JStr s) => s
              | _ => Json.stringOr (Json.prop matcherObj "name") ""
              end)
      else if inc "MatcherName" || inc "TamperMatcherName"
      then Some ("regex", Json.stringOr (Json.prop matcherObj "name") "")
      else if inc "MatcherRawValue" || inc "TamperMatcherRawValue"
      then Some ("string", Json.stringOr (Json.prop matcherObj "value") "")
      else if inc "MatcherRawFull" || inc "TamperMatcherRawFull"
      then Some ("full", "")
      else if inc "MatcherRaw" || inc "TamperMatcherRaw"
      then
        match Json.asObject (Json.prop matcherObj "raw") with
        | Some raw => parseRawMatcher raw
        | None => Some ("regex", "")
        end
      else
        match Json.prop matcherObj "regex" with
        | Some (JStr s) => Some ("regex", s)
        | _ =>
            match Json.prop matcherObj "name" with
            | Some (JStr s) => Some ("regex", s)
            | _ => Some ("regex", "")
            end
        end
  end.

(** The chain over [operation.replacer]; the result is
    [(replacerType, value, workflowId)]. *)
Definition parseReplacer (replacerObj : json)
  : option (string * string * option string) :=
  match Json.includesMethod (Json.discriminator replacerObj) with
  | None => None
  | Some inc =>
      Some
        (if inc "ReplacerTerm" || inc "TamperReplacerTerm"
         then ("term", Json.stringOr (Json.prop replacerObj "term") "", None)
         else if inc "ReplacerWorkflow" || inc "TamperReplacerWorkflow"
         then ("workflow", "",
               match Json.prop replacerObj "workflowId" with
               | Some (JStr s) => Some s
               | _ => None
               end)
         else ("term", "", None))
  end.

(** [v && typeof v === "string" && v.trim().length > 0] *)
Definition nonBlankString (v : option json) : option string :=
  match v with
  | Some (JStr s) => if JS.blank s then None else Some s
  | _ => None
  end.

Definition parseCondition (item : json) : string :=
  match nonBlankString (Json.prop item "condition") with
  | Some c => normalizeHttpqlQuery c
  | None =>
      match nonBlankString (Json.prop item "query") with
      | Some q => normalizeHttpqlQuery q
      | None => ""
      end
  end.

Definition parseActive (item : json) : bool :=
  match Json.prop item "active" with
  | Some (JBool b) => b
  | _ =>
      match Json.prop item "enabled" with
      | Some (JBool b) => b
      | _ =>
          match Json.prop item "enable" with
          | Some (JBool b) => b
          | _ =>
              match Json.prop item "isEnabled" with
              | Some (JBool b) => b
              | _ => true
              end
          end
      end
  end.

(** The locals assigned inside [if (item.section && typeof item.section
    === "object")]. *)
Record Parsed : Type := mkParsed {
  sectionType : string;
  pMatcherType : string;
  pMatcher : string;
  pReplacerType : string;
  pValue : string;
  pWorkflowId : option string
}.

Definition parseSection (item : json) : option Parsed :=
  match Json.asObject (Json.prop item "section") with
  | None => Some (mkParsed "RequestHeader" "regex" "" "term" "" None)
  | Some section =>
      match Json.includesMethod (Json.discriminator section) with
      | None => None
      | Some inc =>
          let sectionType := sectionTypeOf inc in
          match Json.asObject (Json.prop section "operation") with
          | None => Some (mkParsed sectionType "regex" "" "term" "" None)
          | Some operation =>
              match
                match Json.asObject (Json.prop operation "matcher") with
                | Some matcherObj => parseMatcher matcherObj
                | None => Some ("regex", "")
                end
              with
              | None => None
              | Some (matcherType, matcher) =>
                  match
                    match Json.asObject (Json.prop operation "replacer") with
                    | Some replacerObj => parseReplacer replacerObj
                    | None => Some ("term", "", None)
                    end
                  with
                  | None => None
                  | Some (replacerType, value, workflowId) =>
                      Some (mkParsed sectionType matcherType matcher
                                     replacerType value workflowId)
                  end
              end
          end
      end
  end.

(** [parseGraphQLRule]; [None] is [undefined], returned for an empty or
    missing name and from the [catch].  [freshId] stands for the generated
    [`${Date.now()}-${Math.random()...}`]. *)
Definition parseGraphQLRule (freshId : string) (item : json) : option Rule.t :=
  let name := Json.stringOr (Json.prop item "name") "" in
  if JS.isEmpty name then None
  else
    match parseSection item with
    | None => None
    | Some p =>
        let condition := parseCondition item in
        let active := parseActive item in
        Some (Rule.mk freshId (Some name) (Some (sectionType p))
                (Some (pMatcher p)) (Some (pValue p)) active
                (Some (pMatcherType p)) (Some (pReplacerType p))
                (Some condition) (pWorkflowId p))
    end.

(* ------------------------------------------------------------------ *)
(** ** Editor-to-host translation *)

(** What a [throw] or a rejected promise carries: an [Error] with its
    message, or some other value, with what [String()] makes of it. *)
Inductive thrown : Type :=
| JsError (message : string)
| NonError (text : string).

Inductive Outcome (A : Type) : Type :=
| Returned (a : A)
| Threw (e : thrown).
Arguments Returned {A} a.
Arguments Threw {A} e.

(** [a === b] for a possibly missing string [a] *)
Definition strictEq (a : option string) (b : string) : bool :=
  match a with
  | Some s => String.eqb s b
  | None => false
  end.

Definition buildMatcher (matcherType : option string) (matcherValue : string) : json :=
  let value := matcherValue in
  if strictEq matcherType "full" then
    JObj [("kind", JStr "MatcherRawFull")]
  else if strictEq matcherType "regex" then
    JObj [("kind", JStr "MatcherRawRegex"); ("regex", JStr value)]
  else if strictEq matcherType "string" then
    JObj [("kind", JStr "MatcherRawValue"); ("value", JStr value)]
  else
    JObj [("kind", JStr "MatcherRawRegex"); ("regex", JStr value)].

Definition buildReplacer (replacerType : option string) (termValue : string)
    (workflowId : option string) : json :=
  match workflowId with
  | Some w =>
      if strictEq replacerType "workflow" && negb (JS.blank w)
      then JObj [("kind", JStr "ReplacerWorkflow"); ("workflowId", JStr w)]
      else JObj [("kind", JStr "ReplacerTerm"); ("term", JStr termValue)]
  | None => JObj [("kind", JStr "ReplacerTerm"); ("term", JStr termValue)]
  end.

(** [r.matcher && r.matcher.trim().length > 0 ? r.matcher : ""] *)
Definition matcherValueOf (r : Rule.t) : string :=
  match Rule.matcher r with
  | Some m => if JS.blank m then "" else m
  | None => ""
  end.

Definition isRawMatcherType (matcherType : string) : bool :=
  String.eqb matcherType "regex" || String.eqb matcherType "string"
  || String.eqb matcherType "full".

Definition nameMatcher (matcherValue : string) : json :=
  JObj [("kind", JStr "MatcherName"); ("name", JStr matcherValue)].

Definition headerSection (sectionKind : string) (r : Rule.t)
    (matcherType : string) (replacer : json) : json :=
  let matcherValue := matcherValueOf r in
  if isRawMatcherType matcherType then
    let rawMatcher := buildMatcher (Some matcherType) (strOr (Some matcherValue) "") in
    JObj [("kind", JStr sectionKind);
          ("operation",
           JObj [("kind", JStr "OperationHeaderRaw");
                 ("matcher", rawMatcher);
                 ("replacer", replacer)])]
  else
    JObj [("kind", JStr sectionKind);
          ("operation",
           JObj [("kind", JStr "OperationHeaderUpdate");
                 ("matcher", nameMatcher matcherValue);
                 ("replacer", replacer)])].

(** [toSection].  The checks that [buildMatcher] and [buildReplacer]
    returned an object with a [kind] never fire (both always do) and are
    left out. *)
Definition toSection (r : Rule.t) : Outcome json :=
  if negb (truthyStr (Rule.section r)) then
    Threw (JsError ("Rule missing section: " ++ strOr (Rule.name r) (Rule.id r)))
  else
    let matcherType := nullish (Rule.matcherType r) "regex" in
    let replacerType := nullish (Rule.replacerType r) "term" in
    let replacer :=
      buildReplacer (Some replacerType) (nullish (Rule.value r) "") (Rule.workflowId r) in
    let section := Rule.section r in
    if strictEq section "RequestHeader" then
      Returned (headerSection "SectionRequestHeader" r matcherType replacer)
    else if strictEq section "RequestBody" then
      let rawMatcher := buildMatcher (Some matcherType) (strOr (Rule.matcher r) "") in
      Returned
        (JObj [("kind", JStr "SectionRequestBody");
               ("operation",
                JObj [("kind", JStr "OperationBodyRaw");
                      ("raw",
                       JObj [("matcher", rawMatcher);
                             ("replacer", replacer)])])])
    else if strictEq section "RequestMethod" then
      Returned
        (JObj [("kind", JStr "SectionRequestMethod");
               ("operation",
                JObj [("kind", JStr "OperationMethodUpdate");
                      ("replacer", replacer)])])
    else if strictEq section "RequestPath" then
      Returned
        (JObj [("kind", JStr "SectionRequestPath");
               ("operation",
                JObj [("kind", JStr "OperationPathUpdate");
                      ("matcher", nameMatcher (matcherValueOf r));
                      ("replacer", replacer)])])
    else if strictEq section "RequestQuery" then
      Returned
        (JObj [("kind", JStr "SectionRequestQuery");
               ("operation",
                JObj [("kind", JStr "OperationQueryUpdate");
                      ("matcher", nameMatcher (matcherValueOf r));
                      ("replacer", replacer)])])
    else if strictEq section "ResponseHeader" then
      Returned (headerSection "SectionResponseHeader" r matcherType replacer)
    else if strictEq section "ResponseBody" then
      let rawMatcher := buildMatcher (Some matcherType) (strOr (Rule.matcher r) "") in
      Returned
        (JObj [("kind", JStr "SectionResponseBody");
               ("operation",
                JObj [("kind", JStr "OperationBodyRaw");
                      ("matcher", rawMatcher);
                      ("replacer", replacer)])])
    else
      Returned
        (JObj [("kind", JStr "SectionResponseStatusCode");
               ("operation",
                JObj [("kind", JStr "OperationStatusCodeUpdate");
                      ("replacer", replacer)])]).

(* ------------------------------------------------------------------ *)
(** ** Collection store *)

(** The backend's result type *)
Inductive Result (A : Type) : Type :=
| Ok (value : A)
| Error (error : string).
Arguments Ok {A} value.
Arguments Error {A} error.

Record Toast : Type := mkToast {
  message : string;
  variant : string
}.

(** [error instanceof Error ? error.message : "Unknown error"] *)
Definition errorMessage (e : thrown) : string :=
  match e with
  | JsError m => m
  | NonError _ => "Unknown error"
  end.

Definition dquote : string := String (ascii_of_nat 34) EmptyString.

(** [`"${s}"`] *)
Definition quoted (s : string) : string := dquote ++ s ++ dquote.

Section Store.

(** The backend behind [sdk.backend]: a state [B], and two calls that
    resolve to a [Result] or reject. *)
Variable B : Type.
Variable saveCollections : list Collection.t -> B -> B * Outcome (Result unit).
Variable saveSelectedCollectionId : string -> B -> B * Outcome (Result unit).

(** The refs of the component that the store operations touch. *)
Record Store : Type := mkStore {
  collections : list Collection.t;
  selectedCollectionId : option string;
  newCollectionName : string;
  editingRuleId : option string;
  editingRuleName : option string;
  toasts : list Toast;
  backend : B
}.

Definition showToast (msg variant : string) (st : Store) : Store :=
  mkStore (collections st) (selectedCollectionId st) (newCollectionName st)
          (editingRuleId st) (editingRuleName st)
          (toasts st ++ [mkToast msg variant])%list (backend st).

Definition setBackend (b : B) (st : Store) : Store :=
  mkStore (collections st) (selectedCollectionId st) (newCollectionName st)
          (editingRuleId st) (editingRuleName st) (toasts st) b.

Definition setCollections (cs : list Collection.t) (st : Store) : Store :=
  mkStore cs (selectedCollectionId st) (newCollectionName st)
          (editingRuleId st) (editingRuleName st) (toasts st) (backend st).

Definition setSelected (sel : option string) (st : Store) : Store :=
  mkStore (collections st) sel (newCollectionName st)
          (editingRuleId st) (editingRuleName st) (toasts st) (backend st).

Definition setNewCollectionName (n : string) (st : Store) : Store :=
  mkStore (collections st) (selectedCollectionId st) n
          (editingRuleId st) (editingRuleName st) (toasts st) (backend st).

Definition setEditing (rid : option string) (n : option string) (st : Store) : Store :=
  mkStore (collections st) (selectedCollectionId st) (newCollectionName st)
          rid n (toasts st) (backend st).

(** [persist], with the SDK present. *)
Definition persist (st : Store) : Store :=
  let (b1, saveCollectionsResult) := saveCollections (collections st) (backend st) in
  let st := setBackend b1 st in
  match saveCollectionsResult with
  | Threw e => showToast ("Failed to save collections: " ++ errorMessage e) "error" st
  | Returned (Error err) => showToast ("Failed to save collections: " ++ err) "error" st
  | Returned (Ok _) =>
      match selectedCollectionId st with
      | Some sel =>
          if JS.isEmpty sel then st
          else
            let (b2, saveSelectedResult) := saveSelectedCollectionId sel b1 in
            let st := setBackend b2 st in
            match saveSelectedResult with
            | Threw e =>
                showToast ("Failed to save collections: " ++ errorMessage e) "error" st
            | Returned (Error err) =>
                showToast ("Failed to save selected collection: " ++ err) "error" st
            | Returned (Ok _) => st
            end
      | None => st
      end
  end.

(** [createCollection]; [freshId] is the generated identifier. *)
Definition createCollection (freshId : string) (st : Store) : Store :=
  if JS.blank (newCollectionName st) then
    showToast "Collection name is required" "error" st
  else
    let name := ensureGlobalPrefix (newCollectionName st) in
    let id := freshId in
    let st := setCollections (collections st ++ [Collection.mk id name []])%list st in
    let st := setSelected (Some id) st in
    let st := setNewCollectionName EmptyString st in
    let st := persist st in
    showToast ("Collection " ++ quoted name ++ " created") "success" st.

Definition hasId (collectionId : string) (c : Collection.t) : bool :=
  String.eqb (Collection.id c) collectionId.

(** [collections.value[0]?.id] *)
Definition firstId (cs : list Collection.t) : option string :=
  match cs with
  | c :: _ => Some (Collection.id c)
  | [] => None
  end.

Definition deleteCollection (collectionId : string) (st : Store) : Store :=
  if (List.length (collections st) <=? 1)%nat then
    showToast "Cannot delete the last collection" "error" st
  else
    match find (hasId collectionId) (collections st) with
    | Some collection =>
        let st :=
          setCollections
            (filter (fun c => negb (hasId collectionId c)) (collections st)) st in
        let st :=
          if strictEq (selectedCollectionId st) collectionId
          then setSelected (firstId (collections st)) st
          else st in
        let st := persist st in
        showToast ("Collection " ++ quoted (Collection.name collection) ++ " deleted")
                  "success" st
    | None => st
    end.

Definition switchCollection (collectionId : option string) (st : Store) : Store :=
  if truthyStr collectionId then persist (setSelected collectionId st) else st.

(** The selected collection object, as [collections.value.find((c) =>
    c.id === selectedCollectionId.value)] gives it, guarded by
    [if (selectedCollectionId.value)]. *)
Definition selectedCollection (st : Store) : option Collection.t :=
  match selectedCollectionId st with
  | Some sel =>
      if JS.isEmpty sel then None else find (hasId sel) (collections st)
  | None => None
  end.

(** In-place mutation of the first collection with the given id (the
    object [find] returned). *)
Fixpoint updateFirst (collectionId : string) (f : Collection.t -> Collection.t)
    (cs : list Collection.t) : list Collection.t :=
  match cs with
  | [] => []
  | c :: t =>
      if hasId collectionId c then f c :: t
      else c :: updateFirst collectionId f t
  end.

Definition setRules (rs : list Rule.t) (c : Collection.t) : Collection.t :=
  Collection.mk (Collection.id c) (Collection.name c) rs.

Definition ruleHasId (id : string) (r : Rule.t) : bool := String.eqb (Rule.id r) id.

Definition removeRule (id : string) (st : Store) : Store :=
  match selectedCollection st with
  | Some collection =>
      let rules := filter (fun r => negb (ruleHasId id r)) (Collection.rules collection) in
      persist
        (setCollections
           (updateFirst (Collection.id collection) (setRules rules) (collections st)) st)
  | None => st
  end.

(** Mutation of the first rule with the given id. *)
Fixpoint updateFirstRule (id : string) (f : Rule.t -> Rule.t) (rs : list Rule.t)
  : list Rule.t :=
  match rs with
  | [] => []
  | r :: t => if ruleHasId id r then f r :: t else r :: updateFirstRule id f t
  end.

Definition setActive (value : bool) (r : Rule.t) : Rule.t :=
  Rule.mk (Rule.id r) (Rule.name r) (Rule.section r) (Rule.matcher r) (Rule.value r)
          value (Rule.matcherType r) (Rule.replacerType r) (Rule.condition r)
          (Rule.workflowId r).

Definition setName (n : string) (r : Rule.t) : Rule.t :=
  Rule.mk (Rule.id r) (Some n) (Rule.section r) (Rule.matcher r) (Rule.value r)
          (Rule.active r) (Rule.matcherType r) (Rule.replacerType r) (Rule.condition r)
          (Rule.workflowId r).

Definition toggleActive (id : string) (value : bool) (st : Store) : Store :=
  match selectedCollection st with
  | Some collection =>
      match find (ruleHasId id) (Collection.rules collection) with
      | Some rule =>
          let rules := updateFirstRule id (setActive value) (Collection.rules collection) in
          persist
            (setCollections
               (updateFirst (Collection.id collection) (setRules rules) (collections st)) st)
      | None => st
      end
  | None => st
  end.

(** [editingRuleName.value = rule.name]: for a rule without name the
    editor text is [undefined]. *)
Definition startEditingName (rule : Rule.t) (st : Store) : Store :=
  setEditing (Some (Rule.id rule)) (Rule.name rule) st.

Definition cancelEditingName (st : Store) : Store :=
  setEditing None (Some EmptyString) st.

(** [saveRuleName].  With the rule found, [editingRuleName.value.trim()]
    is evaluated; on an [undefined] editor text it throws a TypeError, the
    handler rejects and the refs stay as they were. *)
Definition saveRuleName (ruleId : string) (st : Store) : Store :=
  match selectedCollection st with
  | Some collection =>
      match find (ruleHasId ruleId) (Collection.rules collection) with
      | Some _ =>
          match editingRuleName st with
          | None => st
          | Some text =>
              if negb (JS.blank text) then
                let rules :=
                  updateFirstRule ruleId (setName (JS.trim text))
                                  (Collection.rules collection) in
                let st :=
                  setCollections
                    (updateFirst (Collection.id collection) (setRules rules) (collections st))
                    st in
                let st := persist st in
                let st := setEditing None (Some EmptyString) st in
                showToast "Rule name updated" "success" st
              else cancelEditingName st
          end
      | None => cancelEditingName st
      end
  | None => st
  end.

(** The store mutation that ends an import ([importFromFile],
    [importProjectRule]): the rules are pushed onto the selected
    collection, the store is saved and [toast] is shown. *)
Definition addRules (imported : list Rule.t) (toast : string) (st : Store) : Store :=
  match selectedCollection st with
  | Some collection =>
      let rules := (Collection.rules collection ++ imported)%list in
      let st :=
        setCollections
          (updateFirst (Collection.id collection) (setRules rules) (collections st)) st in
      let st := persist st in
      showToast toast "success" st
  | None => st
  end.

(** The user-triggered store operations.  Creating a collection goes
    through the name input, which holds [rawName] when the handler runs. *)
Inductive StoreOp : Type :=
| OpCreateCollection (freshId : string) (rawName : string)
| OpDeleteCollection (collectionId : string)
| OpSwitchCollection (collectionId : option string)
| OpAddRules (imported : list Rule.t) (toast : string)
| OpRemoveRule (id : string)
| OpToggleActive (id : string) (value : bool)
| OpStartEditingName (rule : Rule.t)
| OpCancelEditingName
| OpSaveRuleName (ruleId : string).

Definition runOp (op : StoreOp) (st : Store) : Store :=
  match op with
  | OpCreateCollection freshId rawName =>
      createCollection freshId (setNewCollectionName rawName st)
  | OpDeleteCollection collectionId => deleteCollection collectionId st
  | OpSwitchCollection collectionId => switchCollection collectionId st
  | OpAddRules imported toast => addRules imported toast st
  | OpRemoveRule id => removeRule id st
  | OpToggleActive id value => toggleActive id value st
  | OpStartEditingName rule => startEditingName rule st
  | OpCancelEditingName => cancelEditingName st
  | OpSaveRuleName ruleId => saveRuleName ruleId st
  end.

End Store.

Arguments mkStore {B}.
Arguments collections {B}.
Arguments selectedCollectionId {B}.
Arguments newCollectionName {B}.
Arguments editingRuleId {B}.
Arguments editingRuleName {B}.
Arguments toasts {B}.
Arguments backend {B}.
Arguments showToast {B}.
Arguments setBackend {B}.
Arguments setCollections {B}.
Arguments setSelected {B}.
Arguments setNewCollectionName {B}.
Arguments setEditing {B}.
Arguments persist {B}.
Arguments createCollection {B}.
Arguments deleteCollection {B}.
Arguments switchCollection {B}.
Arguments selectedCollection {B}.
Arguments removeRule {B}.
Arguments toggleActive {B}.
Arguments startEditingName {B}.
Arguments cancelEditingName {B}.
Arguments saveRuleName {B}.
Arguments addRules {B}.
Arguments runOp {B}.

(* ------------------------------------------------------------------ *)
(** ** Persistence: the backend getters and [load] *)

(** A TypeError thrown by the engine.  Its message is the engine's own
    wording, which the program does not fix; the constant text stands in
    its place, and nothing is stated about a text that quotes it. *)
Definition TypeError : thrown := JsError "TypeError".

(** [error instanceof Error ? error.message : String(error)] *)
Definition errorText (e : thrown) : string :=
  match e with
  | JsError m => m
  | NonError s => s
  end.

Section Persistence.

(** The config table: reading the [value] of a key throws, finds no row
    ([None]) or finds the stored text. *)
Variable dbGet : string -> Outcome (option string).

(** [JSON.parse] *)
Variable JSON_parse : string -> Outcome json.

Definition getCollections : Result json :=
  match dbGet "global-match-replace-collections" with
  | Threw e => Error ("Failed to read collections: " ++ errorText e)
  | Returned None => Ok (JArr [])
  | Returned (Some value) =>
      match JSON_parse value with
      | Threw e => Error ("Failed to read collections: " ++ errorText e)
      | Returned collections => Ok collections
      end
  end.

Definition getSelectedCollectionId : Result (option string) :=
  match dbGet "global-match-replace-selected-collection" with
  | Threw e => Error ("Failed to read selected collection: " ++ errorText e)
  | Returned None => Ok None
  | Returned (Some value) => Ok (Some value)
  end.

End Persistence.

(** The object [createDefaultCollection()] returns, as an untyped value. *)
Definition defaultCollectionValue (now : string) : json :=
  JObj [("id", JStr now); ("name", JStr "Global Template"); ("rules", JArr [])].

(** What [load] leaves in [collections.value] and
    [selectedCollectionId.value].  The backend's value is adopted without
    any check, so both are untyped. *)
Record Loaded : Type := mkLoaded {
  loadedCollections : json;
  loadedSelected : option json
}.

Definition defaultLoaded (now : string) : Loaded :=
  mkLoaded (JArr [defaultCollectionValue now]) (Some (JStr now)).

Section Load.

(** [x > 0] for a value [x] that is a string, an array or an object
    (ToPrimitive and ToNumber are not modelled; such an [x] only arises
    as the [length] property of a stored object). *)
Variable gtZero : json -> bool.

(** [x > 0] *)
Definition positive (x : option json) : bool :=
  match x with
  | None => false
  | Some JNull => false
  | Some (JBool b) => b
  | Some (JNum n) => (0 <? n)%Z
  | Some v => gtZero v
  end.

(** [v.length > 0] *)
Definition lengthPositive (v : json) : Outcome bool :=
  match v with
  | JNull => Threw TypeError
  | JArr l => Returned (negb (Nat.eqb (List.length l) 0))
  | JStr s => Returned (negb (JS.isEmpty s))
  | JObj _ => Returned (positive (Json.prop v "length"))
  | JBool _ | JNum _ => Returned false
  end.

(** [v[0]] *)
Definition first (v : json) : option json :=
  match v with
  | JArr l => hd_error l
  | JStr (String c _) => Some (JStr (String c EmptyString))
  | JObj _ => Json.prop v "0"
  | _ => None
  end.

(** [c.id], which throws on [null] and [undefined] *)
Definition idOf (c : option json) : Outcome (option json) :=
  match c with
  | None | Some JNull => Threw TypeError
  | Some v => Returned (Json.prop v "id")
  end.

(** [l.find((c) => c.id === value)] on the elements of an array *)
Fixpoint findById (value : string) (l : list json) : Outcome (option json) :=
  match l with
  | [] => Returned None
  | c :: t =>
      match idOf (Some c) with
      | Threw e => Threw e
      | Returned i =>
          match i with
          | Some (JStr s) => if String.eqb s value then Returned (Some c) else findById value t
          | _ => findById value t
          end
      end
  end.

(** [v.find(...)]: only an array has the method. *)
Definition findIn (value : string) (v : json) : Outcome (option json) :=
  match v with
  | JArr l => findById value l
  | _ => Threw TypeError
  end.

Definition bind {A C : Type} (o : Outcome A) (k : A -> Outcome C) : Outcome C :=
  match o with
  | Returned a => k a
  | Threw e => Threw e
  end.

Notation "x <- o ;; k" := (bind o (fun x => k))
  (at level 61, o at next level, right associativity).

(** [if (collections.value.length > 0 && !selectedCollectionId.value)
    selectedCollectionId.value = collections.value[0].id] *)
Definition ensureSelected (collections : json) (selected : option json)
  : Outcome (option json) :=
  nonEmpty <- lengthPositive collections ;;
  if nonEmpty && negb (Json.truthy selected)
  then idOf (first collections)
  else Returned selected.

(** The body of the [try] in [load].  [collectionsResult] and
    [selectedResult] are what the two awaited backend calls give;
    [selected0] is [selectedCollectionId.value] on entry. *)
Definition loadBody (now : string)
    (collectionsResult : Outcome (Result json))
    (selectedResult : Outcome (Result (option string)))
    (selected0 : option json) : Outcome Loaded :=
  cr <- collectionsResult ;;
  collections <-
    match cr with
    | Ok value =>
        nonEmpty <- lengthPositive value ;;
        Returned (if nonEmpty then value else JArr [defaultCollectionValue now])
    | Error _ => Returned (JArr [defaultCollectionValue now])
    end ;;
  selected <- ensureSelected collections selected0 ;;
  sr <- selectedResult ;;
  selected <-
    match sr with
    | Ok (Some value) =>
        if negb (JS.blank value) then
          found <- findIn value collections ;;
          match found with
          | Some c => idOf (Some c)
          | None =>
              nonEmpty <- lengthPositive collections ;;
              if nonEmpty then idOf (first collections) else Returned selected
          end
        else Returned selected
    | _ => Returned selected
    end ;;
  selected <- ensureSelected collections selected ;;
  Returned (mkLoaded collections selected).

(** [load]: without the SDK, and on anything thrown in the body, the
    store is reset to one default collection. *)
Definition load (sdk : bool) (now : string)
    (collectionsResult : Outcome (Result json))
    (selectedResult : Outcome (Result (option string)))
    (selected0 : option json) : Loaded :=
  if negb sdk then defaultLoaded now
  else
    match loadBody now collectionsResult selectedResult selected0 with
    | Returned l => l
    | Threw _ => defaultLoaded now
    end.

End Load.

(** A stored collection with the fields of the data model. *)
Definition isRuleValue (v : json) : bool :=
  Json.isString (Json.prop v "id") && Json.isString (Json.prop v "name")
  && Json.isString (Json.prop v "section").

Definition isCollectionValue (v : json) : bool :=
  Json.isString (Json.prop v "id") && Json.isString (Json.prop v "name")
  && match Json.prop v "rules" with
     | Some (JArr rs) => forallb isRuleValue rs
     | _ => false
     end.

(* ------------------------------------------------------------------ *)
(** ** Sync *)

Module Workspace.
Record t : Type := mk {
  id : string;
  name : string
}.
End Workspace.

(** An entry of [sdk.matchReplace.getCollections()] *)
Module HostCollection.
Record t : Type := mk {
  id : string;
  name : string
}.
End HostCollection.

(** The argument of [sdk.matchReplace.createRule] *)
Record CreateRule : Type := mkCreateRule {
  collectionId : string;
  ruleName : string;
  query : string;
  ruleSection : json
}.

(** The calls the sync makes on the host, in the order it makes them. *)
Inductive HostCall : Type :=
| CallGetCurrentProject
| CallSwitch (projectId : string)
| CallSetCurrent (projectId : string)
| CallGetCollections
| CallDeleteCollection (id : string)
| CallCreateCollection (name : string)
| CallCreateRule (args : CreateRule)
| CallToggleRule (id : string) (active : bool).

(** Which of [switch] / [setCurrent] the object [sdk.projects] has. *)
Inductive ProjectsApi : Type :=
| HasSwitch
| HasSetCurrent
| HasNeither.

(** [`${n}`] for a count *)
Definition showNat (n : nat) : string := NilZero.string_of_uint (Nat.to_uint n).

(** [typeof v === "object" && "kind" in v], for a truthy [v] *)
Definition objectWithKind (v : option json) : bool :=
  match v with
  | Some (JObj l) =>
      match Json.assoc "kind" l with
      | Some _ => true
      | None => false
      end
  | _ => false
  end.

(** The structure checks the sync loop runs on the result of [toSection]
    before it creates the rule; [false] is a [continue]. *)
Definition validSection (section : json) : bool :=
  match Json.prop section "operation" with
  | None => false
  | Some operation =>
      match Json.prop section "kind" with
      | None => false
      | Some _ =>
          match Json.asObject (Some operation) with
          | None => false
          | Some _ =>
              if match Json.prop operation "kind" with
                 | Some k => Json.isStr "OperationBodyRaw" k
                 | None => false
                 end
              then
                if Json.truthy (Json.prop operation "raw") then
                  match Json.prop operation "raw" with
                  | Some raw =>
                      objectWithKind (Json.prop raw "matcher")
                      && objectWithKind (Json.prop raw "replacer")
                  | None => false
                  end
                else
                  match Json.prop operation "matcher", Json.prop operation "replacer" with
                  | Some matcher, Some replacer =>
                      objectWithKind (Some matcher) && objectWithKind (Some replacer)
                  | _, _ => false
                  end
              else
                match Json.prop operation "kind" with
                | Some _ => true
                | None => false
                end
          end
      end
  end.

Section Sync.

(** The host behind [sdk]: a state [H] and calls that resolve or
    reject. *)
Variable H : Type.
Variable getCurrentProject : H -> H * Outcome (Result (option Workspace.t)).
Variable projectsApi : ProjectsApi.
Variable switchProject : string -> H -> H * Outcome unit.
Variable setCurrentProject : string -> H -> H * Outcome unit.
Variable hostGetCollections : H -> H * Outcome (list HostCollection.t).
Variable hostDeleteCollection : string -> H -> H * Outcome unit.
Variable hostCreateCollection : string -> H -> H * Outcome string.
Variable hostCreateRule : CreateRule -> H -> H * Outcome string.
Variable hostToggleRule : string -> bool -> H -> H * Outcome unit.

(** The host, the calls made so far and the toasts shown so far. *)
Record SyncState : Type := mkSyncState {
  host : H;
  calls : list HostCall;
  syncToasts : list Toast
}.

(** One awaited call: the call is recorded and the host moves on. *)
Definition call {A : Type} (c : HostCall) (f : H -> H * Outcome A) (st : SyncState)
  : SyncState * Outcome A :=
  let (h, o) := f (host st) in
  (mkSyncState h (calls st ++ [c])%list (syncToasts st), o).

Definition syncToast (msg variant : string) (st : SyncState) : SyncState :=
  mkSyncState (host st) (calls st) (syncToasts st ++ [mkToast msg variant])%list.

(** [r.condition !== undefined && r.condition.trim().length > 0 ?
    r.condition : ""] *)
Definition queryOf (r : Rule.t) : string :=
  match Rule.condition r with
  | Some c => if JS.blank c then EmptyString else c
  | None => EmptyString
  end.

(** One turn of the loop over [collection.rules]: the state after it
    and whether [ruleCount] was incremented. *)
Definition syncRule (createdId : string) (r : Rule.t) (st : SyncState)
  : SyncState * bool :=
  if negb (truthyStr (Rule.section r)) || negb (truthyStr (Rule.name r)) then (st, false)
  else
    match toSection r with
    | Threw _ => (st, false)
    | Returned section =>
        if negb (validSection section) then (st, false)
        else
          let query := queryOf r in
          let args :=
            mkCreateRule createdId
              (strOr (Rule.name r) (nullish (Rule.section r) EmptyString))
              query section in
          match call (CallCreateRule args) (hostCreateRule args) st with
          | (st, Threw _) => (st, false)
          | (st, Returned ruleId) =>
              match call (CallToggleRule ruleId (Rule.active r))
                         (hostToggleRule ruleId (Rule.active r)) st with
              | (st, Threw _) => (st, false)
              | (st, Returned _) => (st, true)
              end
          end
    end.

(** The loop over [collection.rules], with its counter. *)
Fixpoint syncRules (createdId : string) (rules : list Rule.t) (st : SyncState)
    (ruleCount : nat) : SyncState * nat :=
  match rules with
  | [] => (st, ruleCount)
  | r :: rest =>
      let (st, counted) := syncRule createdId r st in
      syncRules createdId rest st (if counted then ruleCount + 1 else ruleCount)
  end.

(** The counters of the outer loop. *)
Record Totals : Type := mkTotals {
  totalCollectionsSynced : nat;
  totalRulesSynced : nat;
  failedCollections : list string
}.

Definition hasName (name : string) (c : HostCollection.t) : bool :=
  String.eqb (HostCollection.name c) name.

(** One turn of the loop over [collections.value]. *)
Definition syncCollection (existingCollections : list HostCollection.t)
    (collection : Collection.t) (acc : SyncState * Totals) : SyncState * Totals :=
  let (st, totals) := acc in
  if Nat.eqb (List.length (Collection.rules collection)) 0 then acc
  else
    let name := JS.trim (Collection.name collection) in
    if JS.isEmpty name then acc
    else
      let failed st :=
        (st, mkTotals (totalCollectionsSynced totals) (totalRulesSynced totals)
                      (failedCollections totals ++ [name])%list) in
      let existing := find (hasName name) existingCollections in
      let (st, deleted) :=
        match existing with
        | Some e =>
            call (CallDeleteCollection (HostCollection.id e))
                 (hostDeleteCollection (HostCollection.id e)) st
        | None => (st, Returned tt)
        end in
      match deleted with
      | Threw _ => failed st
      | Returned _ =>
          match call (CallCreateCollection name) (hostCreateCollection name) st with
          | (st, Threw _) => failed st
          | (st, Returned createdId) =>
              let (st, ruleCount) := syncRules createdId (Collection.rules collection) st 0 in
              (st, mkTotals (totalCollectionsSynced totals + 1)
                            (totalRulesSynced totals + ruleCount)
                            (failedCollections totals))
          end
      end.

Definition syncCollections (existingCollections : list HostCollection.t)
    (collections : list Collection.t) (acc : SyncState * Totals) : SyncState * Totals :=
  fold_left (fun acc c => syncCollection existingCollections c acc) collections acc.

Definition summary (totals : Totals) (workspaceName : string) (st : SyncState) : SyncState :=
  let counts :=
    "Synced " ++ showNat (totalCollectionsSynced totals) ++ " collection(s) with "
    ++ showNat (totalRulesSynced totals) ++ " rule(s)" in
  match failedCollections totals with
  | _ :: _ =>
      syncToast (counts ++ ". Failed: " ++ String.concat ", " (failedCollections totals))
                "warning" st
  | [] => syncToast (counts ++ " to " ++ quoted workspaceName) "success" st
  end.

Definition failSync (e : thrown) (st : SyncState) : SyncState :=
  syncToast ("Failed to sync collections: " ++ errorMessage e) "error" st.

(** The project switch at the start of the [try]. *)
Definition selectProject (w : Workspace.t) (st : SyncState) : SyncState * Outcome unit :=
  match call CallGetCurrentProject getCurrentProject st with
  | (st, Threw e) => (st, Threw e)
  | (st, Returned (Error _)) => (st, Returned tt)
  | (st, Returned (Ok current)) =>
      let currentId := option_map Workspace.id current in
      if negb (strictEq currentId (Workspace.id w))
         && negb (String.eqb (Workspace.id w) "current")
      then
        match projectsApi with
        | HasSwitch => call (CallSwitch (Workspace.id w)) (switchProject (Workspace.id w)) st
        | HasSetCurrent =>
            call (CallSetCurrent (Workspace.id w)) (setCurrentProject (Workspace.id w)) st
        | HasNeither => (st, Returned tt)
        end
      else (st, Returned tt)
  end.

Definition onSyncToSelected (collections : list Collection.t)
    (selectedWorkspace : option Workspace.t) (st : SyncState) : SyncState :=
  if Nat.eqb (List.length collections) 0 then
    syncToast "No collections to sync" "error" st
  else if negb (existsb (fun c => negb (Nat.eqb (List.length (Collection.rules c)) 0))
                        collections) then
    syncToast "At least one collection must have rules" "error" st
  else
    match selectedWorkspace with
    | None => syncToast "Please select a project" "error" st
    | Some w =>
        match selectProject w st with
        | (st, Threw e) => failSync e st
        | (st, Returned _) =>
            match call CallGetCollections hostGetCollections st with
            | (st, Threw e) => failSync e st
            | (st, Returned existingCollections) =>
                let (st, totals) :=
                  syncCollections existingCollections collections
                                  (st, mkTotals 0 0 []) in
                summary totals (Workspace.name w) st
            end
        end
    end.

End Sync.

Arguments mkSyncState {H}.
Arguments host {H}.
Arguments calls {H}.
Arguments syncToasts {H}.
Arguments call {H A}.
Arguments syncToast {H}.
Arguments syncRule {H}.
Arguments syncRules {H}.
Arguments syncCollection {H}.
Arguments syncCollections {H}.
Arguments summary {H}.
Arguments failSync {H}.
Arguments selectProject {H}.
Arguments onSyncToSelected {H}.

(* ------------------------------------------------------------------ *)
(** ** Specification-side notions *)

(** Case-insensitive prefix test, one code unit at a time. *)
Fixpoint prefixCI (p s : string) : bool :=
  match p with
  | EmptyString => true
  | String a p' =>
      match s with
      | EmptyString => false
      | String b s' => Ascii.eqb (JS.lowerChar a) (JS.lowerChar b) && prefixCI p' s'
      end
  end.

(** *** Shapes of a body operation *)

Definition hasProp (v : json) (k : string) : bool :=
  match Json.prop v k with
  | Some _ => true
  | None => false
  end.

Definition isOperationBodyRaw (section : json) : bool :=
  match Json.prop section "operation" with
  | Some operation =>
      match Json.prop operation "kind" with
      | Some k => Json.isStr "OperationBodyRaw" k
      | None => false
      end
  | None => false
  end.

(** An [OperationBodyRaw] whose matcher and replacer sit under [raw], with
    none of the two on the operation itself. *)
Definition rawWrapped (section : json) : bool :=
  isOperationBodyRaw section
  && match Json.prop section "operation" with
     | Some operation =>
         negb (hasProp operation "matcher") && negb (hasProp operation "replacer")
         && match Json.prop operation "raw" with
            | Some raw =>
                objectWithKind (Json.prop raw "matcher")
                && objectWithKind (Json.prop raw "replacer")
            | None => false
            end
     | None => false
     end.

(** An [OperationBodyRaw] whose matcher and replacer are fields of the
    operation, which has no [raw]. *)
Definition directSiblings (section : json) : bool :=
  isOperationBodyRaw section
  && match Json.prop section "operation" with
     | Some operation =>
         negb (hasProp operation "raw")
         && objectWithKind (Json.prop operation "matcher")
         && objectWithKind (Json.prop operation "replacer")
     | None => false
     end.

(** *** Host rules of the data model *)

Inductive SectionName : Type :=
| RequestHeader | RequestBody | RequestMethod | RequestPath | RequestQuery
| ResponseHeader | ResponseBody | ResponseStatusCode.

Inductive HostMatcher : Type :=
| MatcherRawRegex (regex : string)
| MatcherRawValue (value : string)
| MatcherRawFull
| MatcherName (name : string).

Inductive HostReplacer : Type :=
| ReplacerTerm (term : string)
| ReplacerWorkflow (workflowId : string).

(** A host rule: its name, the section it targets, the matcher of its
    operation when the operation has one, and its replacer. *)
Record HostRule : Type := mkHostRule {
  hostName : string;
  hostSection : SectionName;
  hostMatcher : option HostMatcher;
  hostReplacer : HostReplacer
}.

Definition isRawMatcher (m : HostMatcher) : bool :=
  match m with
  | MatcherName _ => false
  | _ => true
  end.

(** The combinations of the data model: header operations carry a raw
    matcher ([OperationHeaderRaw]) or a name matcher
    ([OperationHeaderUpdate]); body operations a raw matcher; path and
    query operations a name matcher; method and status-code operations
    none. *)
Definition enumerated (h : HostRule) : bool :=
  match hostSection h, hostMatcher h with
  | (RequestHeader | ResponseHeader), Some _ => true
  | (RequestBody | ResponseBody), Some m => isRawMatcher m
  | (RequestPath | RequestQuery), Some (MatcherName _) => true
  | (RequestMethod | ResponseStatusCode), None => true
  | _, _ => false
  end.

Definition matcherValue (m : HostMatcher) : json :=
  match m with
  | MatcherRawRegex regex => JObj [("kind", JStr "MatcherRawRegex"); ("regex", JStr regex)]
  | MatcherRawValue value => JObj [("kind", JStr "MatcherRawValue"); ("value", JStr value)]
  | MatcherRawFull => JObj [("kind", JStr "MatcherRawFull")]
  | MatcherName name => JObj [("kind", JStr "MatcherName"); ("name", JStr name)]
  end.

Definition replacerValue (p : HostReplacer) : json :=
  match p with
  | ReplacerTerm term => JObj [("kind", JStr "ReplacerTerm"); ("term", JStr term)]
  | ReplacerWorkflow w => JObj [("kind", JStr "ReplacerWorkflow"); ("workflowId", JStr w)]
  end.

Definition sectionKind (s : SectionName) : string :=
  match s with
  | RequestHeader => "SectionRequestHeader"
  | RequestBody => "SectionRequestBody"
  | RequestMethod => "SectionRequestMethod"
  | RequestPath => "SectionRequestPath"
  | RequestQuery => "SectionRequestQuery"
  | ResponseHeader => "SectionResponseHeader"
  | ResponseBody => "SectionResponseBody"
  | ResponseStatusCode => "SectionResponseStatusCode"
  end.

Definition operationKind (s : SectionName) (m : option HostMatcher) : string :=
  match s with
  | RequestHeader | ResponseHeader =>
      match m with
      | Some (MatcherName _) => "OperationHeaderUpdate"
      | _ => "OperationHeaderRaw"
      end
  | RequestBody | ResponseBody => "OperationBodyRaw"
  | RequestMethod => "OperationMethodUpdate"
  | RequestPath => "OperationPathUpdate"
  | RequestQuery => "OperationQueryUpdate"
  | ResponseStatusCode => "OperationStatusCodeUpdate"
  end.

(** The wire form of the section of a host rule, in the host's shape:
    matcher and replacer under [raw] for a request body, on the operation
    otherwise. *)
Definition hostSectionValue (h : HostRule) : json :=
  let fields :=
    (match hostMatcher h with
     | Some m => [("matcher", matcherValue m)]
     | None => []
     end ++ [("replacer", replacerValue (hostReplacer h))])%list in
  let kind := ("kind", JStr (operationKind (hostSection h) (hostMatcher h))) in
  JObj [("kind", JStr (sectionKind (hostSection h)));
        ("operation",
         match hostSection h with
         | RequestBody => JObj [kind; ("raw", JObj fields)]
         | _ => JObj (kind :: fields)
         end)].

Definition hostRuleValue (h : HostRule) : json :=
  JObj [("name", JStr (hostName h)); ("section", hostSectionValue h)].

(** Where the matcher and the replacer of a wire-form section are. *)
Definition operationPart (section : json) (k : string) : option json :=
  match Json.prop section "operation" with
  | Some operation =>
      match Json.prop operation "raw" with
      | Some raw => Json.prop raw k
      | None => Json.prop operation k
      end
  | None => None
  end.

Definition stringProp (v : json) (k : string) : option string :=
  match Json.prop v k with
  | Some (JStr s) => Some s
  | _ => None
  end.

Definition kindIs (v : json) (k : string) : bool :=
  match Json.prop v "kind" with
  | Some t => Json.isStr k t
  | None => false
  end.

(** The pattern a wire-form section matches with: the [regex], [value]
    or [name] of its matcher, none for [MatcherRawFull] and for an
    operation without matcher. *)
Definition resolvedPattern (section : json) : option string :=
  match operationPart section "matcher" with
  | Some m =>
      if kindIs m "MatcherRawRegex" then stringProp m "regex"
      else if kindIs m "MatcherRawValue" then stringProp m "value"
      else if kindIs m "MatcherName" then stringProp m "name"
      else None
  | None => None
  end.

Definition resolvedTerm (section : json) : option string :=
  match operationPart section "replacer" with
  | Some p => if kindIs p "ReplacerTerm" then stringProp p "term" else None
  | None => None
  end.

Definition resolvedWorkflowId (section : json) : option string :=
  match operationPart section "replacer" with
  | Some p => if kindIs p "ReplacerWorkflow" then stringProp p "workflowId" else None
  | None => None
  end.

(** Host to editor and back. *)
Definition roundTrip (freshId : string) (item : json) : option (Outcome json) :=
  option_map toSection (parseGraphQLRule freshId item).

(** The round trip of a host rule yields a section with the pattern, the
    term and the workflow of the original. *)
Definition roundTripPreserves (freshId : string) (h : HostRule) : Prop :=
  exists section,
    roundTrip freshId (hostRuleValue h) = Some (Returned section)
    /\ resolvedPattern section = resolvedPattern (hostSectionValue h)
    /\ resolvedTerm section = resolvedTerm (hostSectionValue h)
    /\ resolvedWorkflowId section = resolvedWorkflowId (hostSectionValue h).

Definition patternOf (m : option HostMatcher) : option string :=
  match m with
  | Some (MatcherRawRegex p) | Some (MatcherRawValue p) | Some (MatcherName p) => Some p
  | Some MatcherRawFull | None => None
  end.

(** [toSection] maps a blank pattern to the empty one in the header,
    path and query sections. *)
Definition keepsPattern (s : SectionName) (p : string) : bool :=
  match s with
  | RequestBody | ResponseBody => true
  | _ => JS.isEmpty p || negb (JS.blank p)
  end.

(** The host rules [parseGraphQLRule] and [toSection] are designed to
    carry through: a named rule, whose pattern is not blank where
    [toSection] trims it to nothing, and whose workflow reference is not
    blank.  Rules with a [MatcherRawRegex] matcher and request-body rules
    are left out. *)
Definition carried (h : HostRule) : bool :=
  negb (JS.isEmpty (hostName h))
  && match hostMatcher h with
     | Some (MatcherRawRegex _) => false
     | _ => true
     end
  && match hostSection h with
     | RequestBody => false
     | _ => true
     end
  && match patternOf (hostMatcher h) with
     | Some p => keepsPattern (hostSection h) p
     | None => true
     end
  && match hostReplacer h with
     | ReplacerTerm _ => true
     | ReplacerWorkflow w => negb (JS.blank w)
     end.

(** The header rule that replaces a space by a plus. *)
Definition blankPatternRule : HostRule :=
  mkHostRule "Encode spaces" RequestHeader (Some (MatcherRawValue " ")) (ReplacerTerm "+").

(** *** Inputs of [parseGraphQLRule] *)

(** The discriminator of an object is a string (possibly the default
    [""]). *)
Definition stringTag (o : json) : bool :=
  match Json.discriminator o with
  | JStr _ => true
  | _ => false
  end.

(** Every discriminator [parseGraphQLRule] can come to read on the item
    is a string: that of the section, of the matcher, of the matcher's
    [raw] and of the replacer, where these objects are present. *)
Definition tagsAreStrings (item : json) : bool :=
  match Json.asObject (Json.prop item "section") with
  | None => true
  | Some section =>
      stringTag section
      && match Json.asObject (Json.prop section "operation") with
         | None => true
         | Some operation =>
             match Json.asObject (Json.prop operation "matcher") with
             | None => true
             | Some matcherObj =>
                 stringTag matcherObj
                 && match Json.asObject (Json.prop matcherObj "raw") with
                    | None => true
                    | Some raw => stringTag raw
                    end
             end
             && match Json.asObject (Json.prop operation "replacer") with
                | None => true
                | Some replacerObj => stringTag replacerObj
                end
         end
  end.

Definition sectionNames : list string :=
  ["RequestHeader"; "RequestBody"; "RequestMethod"; "RequestPath"; "RequestQuery";
   "ResponseHeader"; "ResponseBody"; "ResponseStatusCode"].

(** The item has no section object, or the discriminator of its section
    contains none of the eight section names. *)
Definition sectionUnknown (item : json) : bool :=
  match Json.asObject (Json.prop item "section") with
  | None => true
  | Some section =>
      match Json.includesMethod (Json.discriminator section) with
      | Some inc => negb (existsb inc sectionNames)
      | None => false
      end
  end.

(** The item has no [section.operation.matcher] object. *)
Definition noMatcherObject (item : json) : bool :=
  match Json.asObject (Json.prop item "section") with
  | None => true
  | Some section =>
      match Json.asObject (Json.prop section "operation") with
      | None => true
      | Some operation =>
          match Json.asObject (Json.prop operation "matcher") with
          | None => true
          | Some _ => false
          end
      end
  end.

(** *** Store states *)

(** A backend that accepts every save. *)
Definition acceptCollections (cs : list Collection.t) (b : unit) : unit * Outcome (Result unit) :=
  (b, Returned (Ok tt)).

Definition acceptSelected (sel : string) (b : unit) : unit * Outcome (Result unit) :=
  (b, Returned (Ok tt)).

(** Two collections under one identifier, as a stored list adopted by
    [load] can hold them. *)
Definition twinStore : Store unit :=
  mkStore
    [Collection.mk "a" "Global One" []; Collection.mk "a" "Global Two" []]
    (Some "a") EmptyString None (Some EmptyString) [] tt.

Definition singleStore : Store unit :=
  mkStore [Collection.mk "a" "Global Template" []]
    (Some "a") EmptyString None (Some EmptyString) [] tt.

(** The identifiers of the collections of a store. *)
Definition collectionIds {B : Type} (st : Store B) : list string :=
  map Collection.id (collections st).

(** The identifier an operation introduces is not in use. *)
Definition freshFor {B : Type} (op : StoreOp) (st : Store B) : Prop :=
  match op with
  | OpCreateCollection freshId _ => ~ In freshId (collectionIds st)
  | _ => True
  end.

(** *** Stored values *)

(** A rule and a collection as untyped values, absent fields left out. *)
Definition optField (k : string) (v : option string) : list (string * json) :=
  match v with
  | Some s => [(k, JStr s)]
  | None => []
  end.

Definition ruleValue (r : Rule.t) : json :=
  JObj ([("id", JStr (Rule.id r))]
        ++ optField "name" (Rule.name r)
        ++ optField "section" (Rule.section r)
        ++ optField "matcher" (Rule.matcher r)
        ++ optField "value" (Rule.value r)
        ++ [("active", JBool (Rule.active r))]
        ++ optField "matcherType" (Rule.matcherType r)
        ++ optField "replacerType" (Rule.replacerType r)
        ++ optField "condition" (Rule.condition r)
        ++ optField "workflowId" (Rule.workflowId r))%list.

Definition collectionValue (c : Collection.t) : json :=
  JObj [("id", JStr (Collection.id c));
        ("name", JStr (Collection.name c));
        ("rules", JArr (map ruleValue (Collection.rules c)))].

(** Whether [load] takes over the backend's answer: it is [Ok] and its
    value has a positive [length]. *)
Definition adopted (gtZero : json -> bool) (collectionsResult : Outcome (Result json)) : bool :=
  match collectionsResult with
  | Returned (Ok value) =>
      match lengthPositive gtZero value with
      | Returned true => true
      | _ => false
      end
  | _ => false
  end.

(** A config table holding the text [[{}]] under the collections key and
    nothing else, and what [JSON.parse] makes of that text. *)
Definition tableWithEmptyObject (key : string) : Outcome (option string) :=
  if String.eqb key "global-match-replace-collections"
  then Returned (Some "[{}]") else Returned None.

Definition parseEmptyObjectList (text : string) : Outcome json :=
  if String.eqb text "[{}]" then Returned (JArr [JObj []])
  else Threw (JsError "SyntaxError").

(** *** Sync runs *)

(** A rule with a section and a name, which the sync loop does not skip
    at its first check. *)
Definition complete (r : Rule.t) : bool :=
  truthyStr (Rule.section r) && truthyStr (Rule.name r).

(** The [createRule] call the sync loop makes for a rule. *)
Definition createRuleCall (createdId : string) (r : Rule.t) : option HostCall :=
  match toSection r with
  | Returned section =>
      Some (CallCreateRule
              (mkCreateRule createdId
                 (strOr (Rule.name r) (nullish (Rule.section r) EmptyString))
                 (queryOf r) section))
  | Threw _ => None
  end.

(** A host call that resolves from every host state. *)
Definition alwaysResolves {H A : Type} (f : H -> H * Outcome A) : Prop :=
  forall h, exists h' a, f h = (h', Returned a).

(** A host without state on which every call resolves; created
    collections and rules get fixed identifiers. *)
Module QuietHost.
Definition getCurrentProject (h : unit) : unit * Outcome (Result (option Workspace.t)) :=
  (h, Returned (Ok (Some (Workspace.mk "p1" "Project")))).
Definition switchProject (id : string) (h : unit) : unit * Outcome unit := (h, Returned tt).
Definition getCollections (h : unit) : unit * Outcome (list HostCollection.t) :=
  (h, Returned [HostCollection.mk "c0" "Global Template"]).
Definition deleteCollection (id : string) (h : unit) : unit * Outcome unit := (h, Returned tt).
Definition createCollection (name : string) (h : unit) : unit * Outcome string :=
  (h, Returned "c1").
Definition createRule (args : CreateRule) (h : unit) : unit * Outcome string :=
  (h, Returned "r1").
Definition toggleRule (id : string) (active : bool) (h : unit) : unit * Outcome unit :=
  (h, Returned tt).
End QuietHost.

Definition headerRule (id : string) (section : option string) : Rule.t :=
  Rule.mk id (Some "Rule") section (Some "X-Debug") (Some "1") true
          (Some "regex") (Some "term") (Some EmptyString) None.

(** Five rules, the third of them without section. *)
Definition fiveRules : list Rule.t :=
  [headerRule "1" (Some "RequestHeader"); headerRule "2" (Some "RequestBody");
   headerRule "3" None;
   headerRule "4" (Some "ResponseBody"); headerRule "5" (Some "RequestPath")].

(** A sync of the given collections into the project ["Target"] on the
    quiet host. *)
Definition quietSync (collections : list Collection.t) : SyncState unit :=
  onSyncToSelected QuietHost.getCurrentProject HasSwitch QuietHost.switchProject
    QuietHost.switchProject QuietHost.getCollections QuietHost.deleteCollection
    QuietHost.createCollection QuietHost.createRule QuietHost.toggleRule
    collections (Some (Workspace.mk "p2" "Target")) (mkSyncState tt [] []).

(* ------------------------------------------------------------------ *)
(** ** Computed properties *)

(** [rules]: the rules of the selected collection.  The lookup has no
    truthiness guard, but no collection matches an undefined selection. *)
Definition rules {B : Type} (st : Store B) : list Rule.t :=
  match selectedCollectionId st with
  | Some sel =>
      match find (hasId sel) (collections st) with
      | Some collection => Collection.rules collection
      | None => []
      end
  | None => []
  end.

(** [canValidate], which enables the Sync button *)
Definition canValidate (collections : list Collection.t) : bool :=
  existsb (fun c => negb (Nat.eqb (List.length (Collection.rules c)) 0)
                    && negb (JS.blank (Collection.name c)))
          collections.

(* ------------------------------------------------------------------ *)
(** ** Import from files *)

(** [rule.__typename || (rule.section && typeof rule.section === "object"
    && "operation" in rule.section)] *)
Definition isHostShaped (rule : json) : bool :=
  Json.truthy (Json.prop rule "__typename")
  || match Json.asObject (Json.prop rule "section") with
     | Some section => hasProp section "operation"
     | None => false
     end.

(** The flat format: the four string fields are required, the rest is
    defaulted. *)
Definition importFlat (freshId : string) (rule : json) : option Rule.t :=
  match Json.prop rule "name", Json.prop rule "section",
        Json.prop rule "matcher", Json.prop rule "value" with
  | Some (JStr name), Some (JStr section), Some (JStr matcher), Some (JStr value) =>
      let normalizedCondition :=
        match nonBlankString (Json.prop rule "condition") with
        | Some c => normalizeHttpqlQuery c
        | None => EmptyString
        end in
      Some (Rule.mk freshId (Some name) (Some section) (Some matcher) (Some value)
              match Json.prop rule "active" with
              | Some (JBool b) => b
              | _ =>
                  match Json.prop rule "enabled" with
                  | Some (JBool b) => b
                  | _ => true
                  end
              end
              (Some (Json.stringOr (Json.prop rule "matcherType") "regex"))
              (Some (Json.stringOr (Json.prop rule "replacerType") "term"))
              (Some normalizedCondition)
              match Json.prop rule "workflowId" with
              | Some (JStr w) => Some w
              | _ => None
              end)
  | _, _, _, _ => None
  end.

(** The body of the loop over the items of a file: the rule the item
    contributes, if any.  [freshId] is the identifier generated for it. *)
Definition importItem (freshId : string) (item : json) : option Rule.t :=
  match item with
  | JObj _ | JArr _ =>
      if isHostShaped item then
        match parseGraphQLRule freshId item with
        | Some parsedRule => Some parsedRule
        | None => importFlat freshId item
        end
      else importFlat freshId item
  | _ => None
  end.

(** The loop over the items; item number [k] of the file draws the
    identifier [ids k]. *)
Fixpoint importItems (ids : nat -> string) (k : nat) (items : list json) : list Rule.t :=
  match items with
  | [] => []
  | item :: rest =>
      match importItem (ids k) item with
      | Some rule => rule :: importItems ids (S k) rest
      | None => importItems ids (S k) rest
      end
  end.

(** [Array.isArray(parsedData) ? parsedData : [parsedData]] *)
Definition itemsOf (parsedData : json) : list json :=
  match parsedData with
  | JArr items => items
  | _ => [parsedData]
  end.

Section ImportFiles.

(** [JSON.parse] *)
Variable JSON_parse : string -> Outcome json.

(** The loop over the selected files.  A file is what [file.text()]
    gives: its text, or a rejection.  The result is [allImportedRules]
    with [fileCount]; file number [f] draws its identifiers from [ids f]. *)
Fixpoint importFiles (ids : nat -> nat -> string) (f : nat) (files : list (Outcome string))
  : list Rule.t * nat :=
  match files with
  | [] => ([], 0)
  | file :: rest =>
      let (rules, fileCount) := importFiles ids (S f) rest in
      match file with
      | Threw _ => (rules, fileCount)
      | Returned text =>
          match JSON_parse text with
          | Threw _ => (rules, fileCount)
          | Returned parsedData =>
              ((importItems (ids f) 0 (itemsOf parsedData) ++ rules)%list, S fileCount)
          end
      end
  end.

Variable B : Type.
Variable saveCollections : list Collection.t -> B -> B * Outcome (Result unit).
Variable saveSelectedCollectionId : string -> B -> B * Outcome (Result unit).

(** [importFromFile].  [files] is [target.files].  The flag
    [isImportingFile] (false again when the handler ends) and the reset of
    the file input are not part of the store.  [persist] never rejects, so
    the "failed to save" toast of the inner [catch] cannot be shown. *)
Definition importFromFile (ids : nat -> nat -> string)
    (files : option (list (Outcome string))) (st : Store B) : Store B :=
  match files with
  | None | Some [] => st
  | Some files =>
      if negb (truthyStr (selectedCollectionId st)) then
        showToast "Please select a collection first" "error" st
      else
        let (allImportedRules, fileCount) := importFiles ids 0 files in
        if Nat.eqb (List.length allImportedRules) 0 then
          showToast "No valid rules found in selected files" "warning" st
        else
          let fileText := if Nat.eqb fileCount 1 then "file" else "files" in
          addRules saveCollections saveSelectedCollectionId allImportedRules
            ("Imported " ++ showNat (List.length allImportedRules) ++ " rule(s) from "
             ++ showNat fileCount ++ " " ++ fileText)
            st
  end.

End ImportFiles.

Arguments importFromFile _ {B}.

(* ------------------------------------------------------------------ *)
(** ** Import from the current project *)

(** A rule of [sdk.matchReplace.getRules()].  [id] and [name] are strings
    by the SDK's type; [props] holds what the code probes dynamically
    ([section], [query], [enabled], ...). *)
Module ProjectRule.
Record t : Type := mk {
  id : string;
  name : string;
  props : json
}.
End ProjectRule.

(** A collection of [sdk.matchReplace.getCollections()], as
    [loadProjectRules] reads it. *)
Module ProjectCollection.
Record t : Type := mk {
  name : string;
  ruleIds : option (list string)
}.
End ProjectCollection.

(** An entry of [availableProjectRules] *)
Module AvailableRule.
Record t : Type := mk {
  id : string;
  name : string;
  collectionName : string
}.
End AvailableRule.

(** Calling [v.includes]: a TypeError unless [v] is a string or an
    array. *)
Definition includesOf (v : json) : Outcome (string -> bool) :=
  match Json.includesMethod v with
  | Some inc => Returned inc
  | None => Threw TypeError
  end.

(** [(o.kind as string) || ""] *)
Definition kindOrEmpty (o : json) : json :=
  match Json.orElse (Json.prop o "kind") (Some (JStr EmptyString)) with
  | Some v => v
  | None => JStr EmptyString
  end.

(** The locals [matcherType], [matcher] and [replacerType], [value],
    [workflowId] as declared. *)
Definition initialMatcher : string * string := ("regex", EmptyString).
Definition initialReplacer : string * string * option string := ("term", EmptyString, None).

(** The chain over a matcher found under [raw]. *)
Definition rawMatcherChain (inc : string -> bool) (m : json) : string * string :=
  if inc "MatcherRawRegex" then ("regex", Json.stringOr (Json.prop m "regex") EmptyString)
  else if inc "MatcherRawValue" then ("string", Json.stringOr (Json.prop m "value") EmptyString)
  else if inc "MatcherRawFull" then ("full", EmptyString)
  else initialMatcher.

(** The chain over the matcher of a response-body operation. *)
Definition directMatcherChain (inc : string -> bool) (m : json) : string * string :=
  if inc "MatcherRawRegex" || inc "MatcherRegex"
  then ("regex", Json.stringOr (Json.prop m "regex") EmptyString)
  else if inc "MatcherRawValue" || inc "MatcherValue"
  then ("string", Json.stringOr (Json.prop m "value") EmptyString)
  else if inc "MatcherRawFull" || inc "MatcherFull"
  then ("full", EmptyString)
  else initialMatcher.

Definition workflowIdOf (r : json) : option string :=
  match Json.prop r "workflowId" with
  | Some (JStr w) => Some w
  | _ => None
  end.

(** The replacer of a body operation; an empty term falls back on a
    string [value] property. *)
Definition bodyReplacer (r : json) : Outcome (string * string * option string) :=
  bind (includesOf (kindOrEmpty r)) (fun inc =>
    Returned
      (if inc "ReplacerWorkflow" then ("workflow", EmptyString, workflowIdOf r)
       else if inc "ReplacerTerm" then
         let value := Json.stringOr (Json.prop r "term") EmptyString in
         ("term",
          if JS.isEmpty value then Json.stringOr (Json.prop r "value") value else value,
          None)
       else initialReplacer)).

(** The matcher of any other operation. *)
Definition standardMatcher (m : json) : Outcome (string * string) :=
  match Json.prop m "kind" with
  | Some matcherKind =>
      bind (includesOf matcherKind) (fun inc =>
        if inc "MatcherRawRegex" || inc "MatcherRegex" then
          Returned ("regex",
                    match Json.prop m "regex" with
                    | Some (JStr s) => s
                    | _ => Json.stringOr (Json.prop m "name") EmptyString
                    end)
        else if inc "MatcherRawValue" || inc "MatcherValue" then
          Returned ("string", Json.stringOr (Json.prop m "value") EmptyString)
        else if inc "MatcherRawFull" || inc "MatcherFull" then
          Returned ("full", EmptyString)
        else if inc "MatcherName" then
          Returned ("regex", Json.stringOr (Json.prop m "name") EmptyString)
        else
          match Json.prop m "raw" with
          | Some JNull => Threw TypeError
          | Some (JObj l) =>
              match Json.prop (JObj l) "kind" with
              | Some (JStr k) =>
                  if JS.isEmpty k then Returned initialMatcher
                  else Returned (rawMatcherChain (JS.includes k) (JObj l))
              | _ => Returned initialMatcher
              end
          | _ => Returned initialMatcher
          end)
  | None =>
      match Json.prop m "name" with
      | Some (JStr s) => Returned ("regex", s)
      | _ => Returned initialMatcher
      end
  end.

(** The replacer of any other operation. *)
Definition standardReplacer (r : json) : Outcome (string * string * option string) :=
  match Json.prop r "kind" with
  | Some replacerKind =>
      bind (includesOf replacerKind) (fun inc =>
        Returned
          (if inc "ReplacerWorkflow" then ("workflow", EmptyString, workflowIdOf r)
           else if inc "ReplacerTerm"
           then ("term", Json.stringOr (Json.prop r "term") EmptyString, None)
           else initialReplacer))
  | None =>
      match Json.prop r "term" with
      | Some (JStr s) => Returned ("term", s, None)
      | _ =>
          match Json.prop r "raw" with
          | Some (JStr s) => Returned ("term", s, None)
          | _ => Returned initialReplacer
          end
      end
  end.

(** What [importProjectRule] reads from [section.operation]. *)
Definition readOperation (op : json)
  : Outcome ((string * string) * (string * string * option string)) :=
  bind (includesOf (kindOrEmpty op)) (fun incOp =>
    if incOp "OperationBodyRaw" then
      match Json.asObject (Json.prop op "raw") with
      | Some raw =>
          bind (match Json.asObject (Json.prop raw "matcher") with
                | Some m =>
                    bind (includesOf (kindOrEmpty m)) (fun inc =>
                      Returned (rawMatcherChain inc m))
                | None => Returned initialMatcher
                end) (fun matcher =>
          bind (match Json.asObject (Json.prop raw "replacer") with
                | Some r => bodyReplacer r
                | None => Returned initialReplacer
                end) (fun replacer =>
          Returned (matcher, replacer)))
      | None =>
          match Json.asObject (Json.prop op "matcher"),
                Json.asObject (Json.prop op "replacer") with
          | Some m, Some r =>
              bind (includesOf (kindOrEmpty m)) (fun inc =>
              bind (bodyReplacer r) (fun replacer =>
              Returned (directMatcherChain inc m, replacer)))
          | _, _ => Returned (initialMatcher, initialReplacer)
          end
      end
    else
      bind (match Json.asObject (Json.prop op "matcher") with
            | Some m => standardMatcher m
            | None => Returned initialMatcher
            end) (fun matcher =>
      bind (match Json.asObject (Json.prop op "replacer") with
            | Some r => standardReplacer r
            | None => Returned initialReplacer
            end) (fun replacer =>
      Returned (matcher, replacer)))).

(** What [importProjectRule] reads from [rule.section]. *)
Definition readSection (section : option json) : Outcome Parsed :=
  match Json.asObject section with
  | None => Returned (mkParsed "RequestHeader" "regex" EmptyString "term" EmptyString None)
  | Some section =>
      match Json.prop section "kind" with
      | None => Returned (mkParsed "RequestHeader" "regex" EmptyString "term" EmptyString None)
      | Some kind =>
          bind (includesOf kind) (fun inc =>
            let sectionType := sectionTypeOf inc in
            match Json.asObject (Json.prop section "operation") with
            | None =>
                Returned (mkParsed sectionType "regex" EmptyString "term" EmptyString None)
            | Some op =>
                bind (readOperation op) (fun parts =>
                  let '((matcherType, matcher), (replacerType, value, workflowId)) := parts in
                  Returned (mkParsed sectionType matcherType matcher
                                     replacerType value workflowId))
            end)
      end
  end.

Definition readActive (props : json) : bool :=
  match Json.prop props "enabled" with
  | Some (JBool b) => b
  | _ =>
      match Json.prop props "active" with
      | Some (JBool b) => b
      | _ =>
          match Json.prop props "enable" with
          | Some (JBool b) => b
          | _ =>
              match Json.prop props "isEnabled" with
              | Some (JBool b) => b
              | _ => true
              end
          end
      end
  end.

(** The rule [importProjectRule] builds from a project rule; a thrown
    TypeError goes to the handler's [catch]. *)
Definition readProjectRule (freshId : string) (rule : ProjectRule.t) : Outcome Rule.t :=
  bind (readSection (Json.prop (ProjectRule.props rule) "section")) (fun p =>
    let condition :=
      match nonBlankString (Json.prop (ProjectRule.props rule) "query") with
      | Some q => q
      | None => EmptyString
      end in
    Returned
      (Rule.mk freshId
         (Some (strOr (Some (ProjectRule.name rule)) (sectionType p)))
         (Some (sectionType p)) (Some (pMatcher p))
         (Some (strOr (Some (pValue p)) EmptyString))
         (readActive (ProjectRule.props rule))
         (Some (pMatcherType p)) (Some (pReplacerType p)) (Some condition)
         (pWorkflowId p))).

Definition projectRuleHasId (id : string) (r : ProjectRule.t) : bool :=
  String.eqb (ProjectRule.id r) id.

(** [loadProjectRules], with the SDK present: the value it leaves in
    [availableProjectRules].  [collections] is what the awaited
    [getCollections()] gives, [getRules] what the call [getRules()]
    gives. *)
Definition loadProjectRules (collections : Outcome (list ProjectCollection.t))
    (getRules : Outcome (list ProjectRule.t)) : list AvailableRule.t :=
  match collections with
  | Threw _ => []
  | Returned collections =>
      match getRules with
      | Threw _ => []
      | Returned allRules =>
          flat_map
            (fun collection =>
               flat_map
                 (fun ruleId =>
                    match find (projectRuleHasId ruleId) allRules with
                    | Some rule =>
                        [AvailableRule.mk (ProjectRule.id rule) (ProjectRule.name rule)
                                          (ProjectCollection.name collection)]
                    | None => []
                    end)
                 (nullish (ProjectCollection.ruleIds collection) []))
            collections
      end
  end.

Section ImportProject.

Variable B : Type.
Variable saveCollections : list Collection.t -> B -> B * Outcome (Result unit).
Variable saveSelectedCollectionId : string -> B -> B * Outcome (Result unit).

(** [importProjectRule], with the SDK present: the store, and
    [selectedProjectRule.value], after the handler. *)
Definition importProjectRule (getRules : Outcome (list ProjectRule.t))
    (selectedProjectRule : option string) (freshId : string) (st : Store B)
  : Store B * option string :=
  if negb (truthyStr selectedProjectRule) then
    (showToast "Please select a rule to import" "error" st, selectedProjectRule)
  else
    let failed e :=
      (showToast ("Failed to import rule: " ++ errorMessage e) "error" st,
       selectedProjectRule) in
    match getRules with
    | Threw e => failed e
    | Returned allRules =>
        match find (fun r => strictEq selectedProjectRule (ProjectRule.id r)) allRules with
        | None => (showToast "Rule not found" "error" st, selectedProjectRule)
        | Some rule =>
            match readProjectRule freshId rule with
            | Threw e => failed e
            | Returned importedRule =>
                if negb (truthyStr (selectedCollectionId st)) then
                  (showToast "Please select a collection first" "error" st,
                   selectedProjectRule)
                else
                  match selectedCollection st with
                  | Some _ =>
                      (addRules saveCollections saveSelectedCollectionId [importedRule]
                         ("Imported rule "
                          ++ quoted (nullish (Rule.name importedRule) EmptyString))
                         st,
                       None)
                  | None => (st, selectedProjectRule)
                  end
            end
        end
    end.

End ImportProject.

Arguments importProjectRule {B}.

(* ------------------------------------------------------------------ *)
(** ** Current project *)

Record WorkspaceState : Type := mkWorkspaceState {
  workspaces : list Workspace.t;
  selectedWorkspace : option Workspace.t;
  workspaceToasts : list Toast
}.

Definition fallbackWorkspace : Workspace.t := Workspace.mk "current" "Current Project".

(** [refreshCurrentProject], with the SDK present; [currentResult] is
    what the awaited backend call gives. *)
Definition refreshCurrentProject (currentResult : Outcome (Result (option Workspace.t)))
    (showToast : bool) (ws : WorkspaceState) : WorkspaceState :=
  let toast msg variant :=
    if showToast then (workspaceToasts ws ++ [mkToast msg variant])%list
    else workspaceToasts ws in
  match currentResult with
  | Returned (Ok (Some current)) =>
      let w := Workspace.mk (Workspace.id current) (Workspace.name current) in
      mkWorkspaceState [w] (Some w) (toast "Project refreshed" "success")
  | Returned _ =>
      mkWorkspaceState [fallbackWorkspace] (Some fallbackWorkspace) (workspaceToasts ws)
  | Threw _ =>
      mkWorkspaceState (workspaces ws) (selectedWorkspace ws)
                       (toast "Failed to refresh project" "error")
  end.

(* ------------------------------------------------------------------ *)
(** ** Backend: saving *)

Module Backend.
Section Saving.

(** The config table [D]; [dbRun key value] is the [INSERT OR REPLACE],
    which gives the table after it or throws, leaving the table as it
    was. *)
Variable D : Type.
Variable dbRun : string -> string -> D -> Outcome D.

(** [JSON.stringify] on the stored collections *)
Variable JSON_stringify : json -> string.

Definition saveCollections (collections : list Collection.t) (d : D) : D * Result unit :=
  let value := JSON_stringify (JArr (map collectionValue collections)) in
  match dbRun "global-match-replace-collections" value d with
  | Returned d' => (d', Ok tt)
  | Threw e => (d, Error ("Failed to save collections: " ++ errorText e))
  end.

Definition saveSelectedCollectionId (collectionId : string) (d : D) : D * Result unit :=
  match dbRun "global-match-replace-selected-collection" collectionId d with
  | Returned d' => (d', Ok tt)
  | Threw e => (d, Error ("Failed to save selected collection: " ++ errorText e))
  end.

End Saving.

(** [getCurrentProject]; [current] is what [sdk.projects.getCurrent()]
    gives, reduced to its id and name. *)
Definition getCurrentProject (current : Outcome (option Workspace.t))
  : Result (option Workspace.t) :=
  match current with
  | Returned None => Ok None
  | Returned (Some c) => Ok (Some (Workspace.mk (Workspace.id c) (Workspace.name c)))
  | Threw e => Error ("Failed to get current project: " ++ errorMessage e)
  end.

End Backend.

(* ------------------------------------------------------------------ *)
(** ** Further specification-side notions *)

(** The code units of a string that are not white space, in order. *)
Fixpoint dropWhiteSpace (s : string) : string :=
  match s with
  | EmptyString => EmptyString
  | String c t => if JS.isWhiteSpace c then dropWhiteSpace t else String c (dropWhiteSpace t)
  end.

(** The operations that add or remove a collection. *)
Definition changesCollectionList (op : StoreOp) : bool :=
  match op with
  | OpCreateCollection _ _ | OpDeleteCollection _ => true
  | _ => false
  end.

(** A store whose only collection shows one rule, with text in the name
    editor. *)
Definition editingStore : Store unit :=
  mkStore [Collection.mk "a" "Global Template" [headerRule "1" (Some "RequestHeader")]]
          (Some "a") EmptyString (Some "1") (Some " New name ") [] tt.

(** A parser that knows one text, a list of two flat rules. *)
Definition twoFlatRules : json :=
  JArr [JObj [("name", JStr "A"); ("section", JStr "RequestHeader");
              ("matcher", JStr "X-A"); ("value", JStr "1"); ("id", JStr "same")];
        JObj [("name", JStr "B"); ("section", JStr "ResponseBody");
              ("matcher", JStr "b"); ("value", JStr "2"); ("id", JStr "same")]].

Definition parseTwoFlatRules (text : string) : Outcome json :=
  if String.eqb text "two" then Returned twoFlatRules else Threw (JsError "SyntaxError").

(** *** The live read path *)

(** The host rules the live read path and [toSection] carry through: the
    pattern is not blank where [toSection] trims it to nothing, the
    workflow reference is not blank. *)
Definition carriedLive (h : HostRule) : bool :=
  match patternOf (hostMatcher h) with
  | Some p => keepsPattern (hostSection h) p
  | None => true
  end
  && match hostReplacer h with
     | ReplacerTerm _ => true
     | ReplacerWorkflow w => negb (JS.blank w)
     end.

(** A header section name *)
Definition isHeaderSection (section : option string) : bool :=
  strictEq section "RequestHeader" || strictEq section "ResponseHeader".

(** *** Restoring a saved store *)

(** The selection [load] makes on a well-formed stored list: the stored
    identifier when it is not blank and names a collection, else the
    first collection. *)
Definition restoredSelection (cs : list Collection.t) (stored : option string)
  : option string :=
  match stored with
  | Some s => if negb (JS.blank s) && existsb (hasId s) cs then Some s else firstId cs
  | None => firstId cs
  end.

(** A config table as a function, on which every statement succeeds. *)
Definition Table : Type := string -> option string.

Definition tableRun (key value : string) (d : Table) : Outcome Table :=
  Returned (fun k => if String.eqb k key then Some value else d k).

Definition tableGet (key : string) (d : Table) : Outcome (option string) :=
  Returned (d key).

Definition savedOne : list Collection.t := [Collection.mk "a" "Global Template" []].

(** A serialiser and a parser that agree on the list [savedOne]. *)
Definition stringifyOne (v : json) : string := "saved".
Definition parseOne (text : string) : Outcome json :=
  Returned (JArr (map collectionValue savedOne)).

(** *** Sync accounting *)

(** A collection the sync loop does not pass over: it has rules and its
    trimmed name is not empty. *)
Definition eligible (c : Collection.t) : bool :=
  negb (Nat.eqb (List.length (Collection.rules c)) 0)
  && negb (JS.isEmpty (JS.trim (Collection.name c))).

(** The number of complete rules in the eligible collections. *)
Definition completeRules (cs : list Collection.t) : nat :=
  list_sum (map (fun c => List.length (filter complete (Collection.rules c)))
                (filter eligible cs)).

Definition hasRules (c : Collection.t) : bool :=
  negb (Nat.eqb (List.length (Collection.rules c)) 0).

(** *** The sync as the host sees it *)

Definition isResolved {A : Type} (o : Outcome A) : bool :=
  match o with
  | Returned _ => true
  | Threw _ => false
  end.

Definition isRuleCall (c : HostCall) : bool :=
  match c with
  | CallCreateRule _ | CallToggleRule _ _ => true
  | _ => false
  end.

Definition isToggleRule (c : HostCall) : bool :=
  match c with
  | CallToggleRule _ _ => true
  | _ => false
  end.

Definition isCreateCollection (c : HostCall) : bool :=
  match c with
  | CallCreateCollection _ => true
  | _ => false
  end.

Section SyncLog.

Variable H : Type.
Variable getCurrentProject : H -> H * Outcome (Result (option Workspace.t)).
Variable switchProject : string -> H -> H * Outcome unit.
Variable setCurrentProject : string -> H -> H * Outcome unit.
Variable hostGetCollections : H -> H * Outcome (list HostCollection.t).
Variable hostDeleteCollection : string -> H -> H * Outcome unit.
Variable hostCreateCollection : string -> H -> H * Outcome string.
Variable hostCreateRule : CreateRule -> H -> H * Outcome string.
Variable hostToggleRule : string -> bool -> H -> H * Outcome unit.

(** The host after it has received a call. *)
Definition perform (c : HostCall) (h : H) : H :=
  match c with
  | CallGetCurrentProject => fst (getCurrentProject h)
  | CallSwitch projectId => fst (switchProject projectId h)
  | CallSetCurrent projectId => fst (setCurrentProject projectId h)
  | CallGetCollections => fst (hostGetCollections h)
  | CallDeleteCollection id => fst (hostDeleteCollection id h)
  | CallCreateCollection name => fst (hostCreateCollection name h)
  | CallCreateRule args => fst (hostCreateRule args h)
  | CallToggleRule id active => fst (hostToggleRule id active h)
  end.

(** Whether the host resolves a call it receives in state [h]. *)
Definition accepts (c : HostCall) (h : H) : bool :=
  match c with
  | CallGetCurrentProject => isResolved (snd (getCurrentProject h))
  | CallSwitch projectId => isResolved (snd (switchProject projectId h))
  | CallSetCurrent projectId => isResolved (snd (setCurrentProject projectId h))
  | CallGetCollections => isResolved (snd (hostGetCollections h))
  | CallDeleteCollection id => isResolved (snd (hostDeleteCollection id h))
  | CallCreateCollection name => isResolved (snd (hostCreateCollection name h))
  | CallCreateRule args => isResolved (snd (hostCreateRule args h))
  | CallToggleRule id active => isResolved (snd (hostToggleRule id active h))
  end.

(** The host after a list of calls, received in that order. *)
Definition replay (l : list HostCall) (h : H) : H :=
  fold_left (fun h c => perform c h) l h.

(** How many calls of one kind the host resolves when it receives the
    list from state [h]. *)
Fixpoint acceptedCalls (kind : HostCall -> bool) (l : list HostCall) (h : H) : nat :=
  match l with
  | [] => 0
  | c :: rest =>
      (if kind c && accepts c h then 1 else 0) + acceptedCalls kind rest (perform c h)
  end.

(** A list of calls made of consecutive parts, one for each element of
    [xs] in order; the part of an element is described by [step] from the
    host state its predecessors have left. *)
Fixpoint threaded {X : Type} (step : X -> H -> list HostCall -> Prop)
    (xs : list X) (h : H) (parts : list (list HostCall)) : Prop :=
  match xs, parts with
  | [], [] => True
  | x :: xs', part :: parts' => step x h part /\ threaded step xs' (replay part h) parts'
  | _, _ => False
  end.

(** The calls made for one rule: none for a rule without section or
    name; otherwise [createRule] with the translated section, and
    [toggleRule] on the identifier the host gave when it resolved the
    creation. *)
Definition ruleStep (createdId : string) (r : Rule.t) (h : H) (part : list HostCall) : Prop :=
  if complete r then
    exists section,
      toSection r = Returned section
      /\ let args :=
           mkCreateRule createdId
             (strOr (Rule.name r) (nullish (Rule.section r) EmptyString))
             (queryOf r) section in
         match snd (hostCreateRule args h) with
         | Returned ruleId => part = [CallCreateRule args; CallToggleRule ruleId (Rule.active r)]
         | Threw _ => part = [CallCreateRule args]
         end
  else part = [].

(** The calls made for one local collection that has rules and a name,
    seen at the level of collections: the host collection of the trimmed
    name, looked up in [existing], is deleted when there is one; once the
    deletion is resolved, or without one, a collection of the trimmed
    name is created, and what follows are calls about rules. *)
Definition replaceTurn (existing : list HostCollection.t) (c : Collection.t) (h : H)
    (part : list HostCall) : Prop :=
  let name := JS.trim (Collection.name c) in
  match find (fun e => String.eqb (HostCollection.name e) name) existing with
  | Some e =>
      match snd (hostDeleteCollection (HostCollection.id e) h) with
      | Returned _ =>
          exists rest,
            part = CallDeleteCollection (HostCollection.id e)
                   :: CallCreateCollection name :: rest
            /\ forallb isRuleCall rest = true
      | Threw _ => part = [CallDeleteCollection (HostCollection.id e)]
      end
  | None =>
      exists rest,
        part = CallCreateCollection name :: rest /\ forallb isRuleCall rest = true
  end.

(** The same turn with its rules: after a resolved creation every rule
    of the collection has its step, made with the identifier of the new
    collection; after a rejected one the turn is over. *)
Definition syncTurn (existing : list HostCollection.t) (c : Collection.t) (h : H)
    (part : list HostCall) : Prop :=
  let name := JS.trim (Collection.name c) in
  let created (before : list HostCall) (h : H) : Prop :=
    match hostCreateCollection name h with
    | (h', Returned createdId) =>
        exists steps,
          part = (before ++ CallCreateCollection name :: concat steps)%list
          /\ threaded (ruleStep createdId) (Collection.rules c) h' steps
    | (_, Threw _) => part = (before ++ [CallCreateCollection name])%list
    end in
  match find (fun e => String.eqb (HostCollection.name e) name) existing with
  | Some e =>
      match hostDeleteCollection (HostCollection.id e) h with
      | (h', Returned _) => created [CallDeleteCollection (HostCollection.id e)] h'
      | (_, Threw _) => part = [CallDeleteCollection (HostCollection.id e)]
      end
  | None => created [] h
  end.

End SyncLog.

Arguments perform {H}.
Arguments accepts {H}.
Arguments replay {H}.
Arguments acceptedCalls {H}.
Arguments threaded {H} _ _ _ _ _ _ _ _ {X}.
Arguments ruleStep {H}.
Arguments replaceTurn {H}.
Arguments syncTurn {H}.

(** The toast that ends a sync. *)
Definition syncReport (collectionsSynced rulesSynced : nat) (failed : list string)
    (workspaceName : string) : Toast :=
  let counts :=
    "Synced " ++ showNat collectionsSynced ++ " collection(s) with "
    ++ showNat rulesSynced ++ " rule(s)" in
  match failed with
  | [] => mkToast (counts ++ " to " ++ quoted workspaceName) "success"
  | _ :: _ => mkToast (counts ++ ". Failed: " ++ String.concat ", " failed) "warning"
  end.

(** *** Stored values that are not collections *)

(** An entry other than [null]. *)
Definition notNull (v : json) : bool :=
  match v with
  | JNull => false
  | _ => true
  end.

(** A config table holding [text] under the collections key and nothing
    else. *)
Definition tableWith (text : string) (key : string) : Outcome (option string) :=
  if String.eqb key "global-match-replace-collections"
  then Returned (Some text) else Returned None.

(** What [JSON.parse] makes of three stored texts. *)
Definition parseSamples (text : string) : Outcome json :=
  if String.eqb text "[{}]" then Returned (JArr [JObj []])
  else if String.eqb text "[null]" then Returned (JArr [JNull])
  else if String.eqb text "[7,{}]" then Returned (JArr [JNum 7; JObj []])
  else Threw (JsError "SyntaxError").

(** *** Concrete inputs *)

(** A host that keeps its collections and rules in lists.  Deleting a
    collection removes its rules with it; identifiers are issued from a
    counter; a rule is refused when its collection is unknown or when the
    host already holds [quota] rules. *)
Module ListHost.
Record Row : Type := mkRow {
  rowId : string;
  rowCollection : string;
  rowName : string;
  rowEnabled : bool
}.
Record t : Type := mk {
  collections : list HostCollection.t;
  rows : list Row;
  issued : nat;
  quota : nat
}.
Definition knows (id : string) (h : t) : bool :=
  existsb (fun c => String.eqb (HostCollection.id c) id) (collections h).
Definition getCurrentProject (h : t) : t * Outcome (Result (option Workspace.t)) :=
  (h, Returned (Ok (Some (Workspace.mk "p2" "Target")))).
Definition switchProject (id : string) (h : t) : t * Outcome unit := (h, Returned tt).
Definition getCollections (h : t) : t * Outcome (list HostCollection.t) :=
  (h, Returned (collections h)).
Definition deleteCollection (id : string) (h : t) : t * Outcome unit :=
  if knows id h then
    (mk (filter (fun c => negb (String.eqb (HostCollection.id c) id)) (collections h))
        (filter (fun r => negb (String.eqb (rowCollection r) id)) (rows h))
        (issued h) (quota h),
     Returned tt)
  else (h, Threw (JsError "Collection not found")).
Definition createCollection (name : string) (h : t) : t * Outcome string :=
  let id := "c" ++ showNat (issued h) in
  (mk (collections h ++ [HostCollection.mk id name])%list (rows h) (S (issued h)) (quota h),
   Returned id).
Definition createRule (args : CreateRule) (h : t) : t * Outcome string :=
  if negb (knows (collectionId args) h) then (h, Threw (JsError "Collection not found"))
  else if (quota h <=? List.length (rows h))%nat then (h, Threw (JsError "Too many rules"))
  else
    let id := "r" ++ showNat (issued h) in
    (mk (collections h)
        (rows h ++ [mkRow id (collectionId args) (ruleName args) false])%list
        (S (issued h)) (quota h),
     Returned id).
Definition toggleRule (id : string) (active : bool) (h : t) : t * Outcome unit :=
  if existsb (fun r => String.eqb (rowId r) id) (rows h) then
    (mk (collections h)
        (map (fun r => if String.eqb (rowId r) id
                       then mkRow (rowId r) (rowCollection r) (rowName r) active
                       else r) (rows h))
        (issued h) (quota h),
     Returned tt)
  else (h, Threw (JsError "Rule not found")).
End ListHost.

(** A host with a collection named as the local template and one made
    by hand, each with a rule. *)
Definition usedHost (quota : nat) : ListHost.t :=
  ListHost.mk
    [HostCollection.mk "old" "Global Template"; HostCollection.mk "own" "Hand made"]
    [ListHost.mkRow "r-old" "old" "Edited on the host" true;
     ListHost.mkRow "r-own" "own" "Mine" true]
    0 quota.

(** Four local collections: one to sync, one with a blank name, one
    without rules, one the host does not have yet. *)
Definition localCollections : list Collection.t :=
  [Collection.mk "a" " Global Template " fiveRules;
   Collection.mk "b" "   " fiveRules;
   Collection.mk "c" "Global Empty" [];
   Collection.mk "d" "Global New" [headerRule "9" (Some "RequestQuery")]].

(** A sync of the given collections into the project ["Target"] on a
    list host. *)
Definition listSync (collections : list Collection.t) (h : ListHost.t)
  : SyncState ListHost.t :=
  onSyncToSelected ListHost.getCurrentProject HasSwitch ListHost.switchProject
    ListHost.switchProject ListHost.getCollections ListHost.deleteCollection
    ListHost.createCollection ListHost.createRule ListHost.toggleRule
    collections (Some (Workspace.mk "p2" "Target")) (mkSyncState h [] []).

(** A store with two collections.  The selected one shows three rules,
    two of them under the identifier ["1"], which a rule of the other
    collection carries as well. *)
Definition workingStore : Store unit :=
  mkStore [Collection.mk "a" "Global Template"
             [headerRule "1" (Some "RequestHeader"); headerRule "2" (Some "ResponseBody");
              headerRule "1" (Some "RequestPath")];
           Collection.mk "b" "Global Other" [headerRule "1" (Some "RequestQuery")]]
          (Some "a") EmptyString None (Some EmptyString) [] tt.

(** A store with one collection and a name typed into the input. *)
Definition namingStore : Store unit :=
  mkStore [Collection.mk "a" "Global Template" []]
          (Some "a") "Team" None (Some EmptyString) [] tt.

(** A source of identifiers that never repeats itself: [f] marks, a
    separator, [k] marks. *)
Fixpoint marks (n : nat) : string :=
  match n with
  | O => EmptyString
  | S n' => String "i" (marks n')
  end.

Definition idByMarks (f k : nat) : string := marks f ++ String "-" (marks k).

Definition listedRule : ProjectRule.t :=
  ProjectRule.mk "r7" "Strip server"
    (JObj [("section",
            JObj [("kind", JStr "SectionResponseHeader");
                  ("operation",
                   JObj [("kind", JStr "OperationHeaderUpdate");
                         ("matcher", JObj [("kind", JStr "MatcherName");
                                           ("name", JStr "Server")]);
                         ("replacer", JObj [("kind", JStr "ReplacerTerm");
                                            ("term", JStr EmptyString)])])]);
           ("enabled", JBool false)]).

(* ================================================================== *)
(** * Properties *)

(** ** Strings *)

Example trim_inner_space : JS.trim "  a b  " = "a b".
Proof. reflexivity. Qed.

Example includes_section_tag :
  JS.includes "SectionResponseHeader" "ResponseHeader" = true
  /\ JS.includes "SectionResponseHeader" "RequestHeader" = false
  /\ JS.includes "MatcherRawRegex" "MatcherRegex" = false.
Proof. repeat split; reflexivity. Qed.

(** Both replacements scan from the left and never revisit a code unit
    they have consumed: the second of two adjacent tildes gets no space
    after it. *)
Example normalizeHttpqlQuery_scan :
  normalizeHttpqlQuery " a~b~~c ~d" = "a ~ b ~ ~c ~ d".
Proof. reflexivity. Qed.

Lemma lowerChar_idem (c : ascii) : JS.lowerChar (JS.lowerChar c) = JS.lowerChar c.
Proof. destruct c as [[] [] [] [] [] [] [] []]; reflexivity. Qed.

Lemma isWhiteSpace_lowerChar (c : ascii) :
  JS.isWhiteSpace (JS.lowerChar c) = JS.isWhiteSpace c.
Proof. destruct c as [[] [] [] [] [] [] [] []]; reflexivity. Qed.

Lemma toLowerCase_idem (s : string) :
  JS.toLowerCase (JS.toLowerCase s) = JS.toLowerCase s.
Proof. induction s as [|c s IH]; simpl; [reflexivity | now rewrite lowerChar_idem, IH]. Qed.

Lemma toLowerCase_trimStart (s : string) :
  JS.toLowerCase (JS.trimStart s) = JS.trimStart (JS.toLowerCase s).
Proof.
  induction s as [|c s IH]; simpl; [reflexivity|].
  rewrite isWhiteSpace_lowerChar. now destruct (JS.isWhiteSpace c).
Qed.

Lemma isEmpty_toLowerCase (s : string) : JS.isEmpty (JS.toLowerCase s) = JS.isEmpty s.
Proof. now destruct s. Qed.

Lemma toLowerCase_trimEnd (s : string) :
  JS.toLowerCase (JS.trimEnd s) = JS.trimEnd (JS.toLowerCase s).
Proof.
  induction s as [|c s IH]; simpl; [reflexivity|].
  rewrite isWhiteSpace_lowerChar, <- IH, isEmpty_toLowerCase.
  now destruct (JS.isWhiteSpace c && JS.isEmpty (JS.trimEnd s)).
Qed.

Lemma toLowerCase_trim (s : string) :
  JS.toLowerCase (JS.trim s) = JS.trim (JS.toLowerCase s).
Proof. unfold JS.trim. now rewrite toLowerCase_trimEnd, toLowerCase_trimStart. Qed.

Lemma trimStart_allWhiteSpace (s : string) :
  JS.allWhiteSpace s = true -> JS.trimStart s = EmptyString.
Proof.
  induction s as [|c s IH]; simpl; [reflexivity|].
  destruct (JS.isWhiteSpace c); simpl; [exact IH | discriminate].
Qed.

Lemma blank_allWhiteSpace (s : string) : JS.allWhiteSpace s = true -> JS.blank s = true.
Proof.
  intros Hs. unfold JS.blank, JS.trim. now rewrite (trimStart_allWhiteSpace s Hs).
Qed.

Lemma trimEnd_empty_allWhiteSpace (s : string) :
  JS.trimEnd s = EmptyString -> JS.allWhiteSpace s = true.
Proof.
  induction s as [|c s IH]; simpl; [reflexivity|].
  destruct (JS.isWhiteSpace c); simpl; [|discriminate].
  destruct (JS.trimEnd s); [intros _; now apply IH | discriminate].
Qed.

Lemma trimStart_nonblank_head (s : string) :
  match JS.trimStart s with
  | EmptyString => JS.allWhiteSpace s = true
  | String c _ => JS.isWhiteSpace c = false
  end.
Proof.
  induction s as [|c s IH]; simpl; [reflexivity|].
  destruct (JS.isWhiteSpace c) eqn:Hc; simpl; [exact IH | exact Hc].
Qed.

(** A string is blank exactly when all its code units are white space. *)
Lemma blank_iff_allWhiteSpace (s : string) : JS.blank s = JS.allWhiteSpace s.
Proof.
  destruct (JS.allWhiteSpace s) eqn:Hs; [now apply blank_allWhiteSpace|].
  unfold JS.blank, JS.trim.
  pose proof (trimStart_nonblank_head s) as Hh.
  destruct (JS.trimStart s) as [|c t] eqn:Ht; [congruence|].
  simpl. now rewrite Hh.
Qed.

Lemma startsWith_lower_prefixCI (p s : string) :
  JS.toLowerCase p = p ->
  JS.startsWith (JS.toLowerCase s) p = prefixCI p s.
Proof.
  unfold JS.startsWith. revert s; induction p as [|a p IH]; intros s Hp.
  - now destruct s.
  - simpl in Hp. injection Hp as Ha Hp'. destruct s as [|b s]; simpl; [reflexivity|].
    rewrite Ha. destruct (ascii_dec a (JS.lowerChar b)) as [->|Hab].
    + rewrite Ascii.eqb_refl. simpl. now apply IH.
    + destruct (Ascii.eqb a (JS.lowerChar b)) eqn:E; [|reflexivity].
      apply Ascii.eqb_eq in E. contradiction.
Qed.

Lemma append_length (a b : string) :
  String.length (a ++ b) = String.length a + String.length b.
Proof. induction a as [|c a IH]; simpl; [reflexivity | now rewrite IH]. Qed.

Lemma prefixed_neq (t : string) : String.eqb ("Global " ++ t) t = false.
Proof.
  destruct (String.eqb ("Global " ++ t) t) eqn:E; [|reflexivity].
  apply String.eqb_eq in E. apply (f_equal String.length) in E.
  rewrite append_length in E. simpl in E. lia.
Qed.

(** ** Global prefix *)

(** C7. [ensureGlobalPrefix] on the three stated inputs; its result is the
    trimmed input, as typed, alone or after the literal ["Global "]; and
    whether the prefix is added is the same for a name and for its
    lower-cased form. *)
Theorem ensureGlobalPrefix_examples :
  ensureGlobalPrefix "Global Foo" = "Global Foo"
  /\ ensureGlobalPrefix "foo" = "Global foo"
  /\ ensureGlobalPrefix "GLOBAL bar" = "GLOBAL bar"
  /\ forall name : string,
       (ensureGlobalPrefix name = JS.trim name
        \/ ensureGlobalPrefix name = "Global " ++ JS.trim name)
       /\ String.eqb (ensureGlobalPrefix (JS.toLowerCase name)) (JS.trim (JS.toLowerCase name))
          = String.eqb (ensureGlobalPrefix name) (JS.trim name).
Proof.
  do 3 (split; [reflexivity|]). intros name. split.
  - unfold ensureGlobalPrefix.
    destruct (JS.startsWith (JS.toLowerCase (JS.trim name)) "global"); [now left | now right].
  - unfold ensureGlobalPrefix.
    rewrite <- (toLowerCase_trim name), toLowerCase_idem.
    destruct (JS.startsWith (JS.toLowerCase (JS.trim name)) "global").
    + now rewrite !String.eqb_refl.
    + now rewrite !prefixed_neq.
Qed.

(** C10. The test behind [ensureGlobalPrefix] is a bare case-insensitive
    prefix test on the trimmed name: no space or word boundary is asked
    for after ["global"], so ["globalization"] is returned as it is, and
    ["Global "] is prepended exactly when the prefix test fails. *)
Theorem ensureGlobalPrefix_substring_check :
  ensureGlobalPrefix "globalization" = "globalization"
  /\ ensureGlobalPrefix "  GlobaLfoo " = "GlobaLfoo"
  /\ forall name : string,
       ensureGlobalPrefix name
       = if prefixCI "global" (JS.trim name) then JS.trim name
         else "Global " ++ JS.trim name.
Proof.
  do 2 (split; [reflexivity|]). intros name.
  unfold ensureGlobalPrefix.
  now rewrite (startsWith_lower_prefixCI "global" (JS.trim name) eq_refl).
Qed.

(** ** Query normalisation *)

(** C8. [normalizeHttpqlQuery("a~b")] is ["a ~ b"], and a query made of
    white space only normalises to the empty string. *)
Theorem normalizeHttpqlQuery_spec (query : string) :
  JS.allWhiteSpace query = true ->
  normalizeHttpqlQuery "a~b" = "a ~ b" /\ normalizeHttpqlQuery query = EmptyString.
Proof.
  intros Hq. split; [reflexivity|].
  unfold normalizeHttpqlQuery. now rewrite (blank_allWhiteSpace query Hq).
Qed.

Lemma normalizeHttpqlQuery_spec_witness :
  JS.allWhiteSpace "   " = true
  /\ normalizeHttpqlQuery "a~b" = "a ~ b" /\ normalizeHttpqlQuery "   " = EmptyString.
Proof.
  split; [reflexivity | apply (normalizeHttpqlQuery_spec "   "); reflexivity].
Defined.

(** ** Editor-to-host translation *)

Lemma buildMatcher_kind (matcherType : option string) (v : string) :
  objectWithKind (Some (buildMatcher matcherType v)) = true.
Proof.
  unfold buildMatcher.
  destruct (strictEq matcherType "full"); [reflexivity|].
  destruct (strictEq matcherType "regex"); [reflexivity|].
  destruct (strictEq matcherType "string"); reflexivity.
Qed.

Lemma buildReplacer_kind (replacerType : option string) (t : string) (w : option string) :
  objectWithKind (Some (buildReplacer replacerType t w)) = true.
Proof.
  unfold buildReplacer. destruct w as [w|]; [|reflexivity].
  destruct (strictEq replacerType "workflow" && negb (JS.blank w)); reflexivity.
Qed.

(** C2. [toSection] gives a [RequestBody] rule, and no other, an
    [OperationBodyRaw] with matcher and replacer under [raw]; it gives a
    [ResponseBody] rule, and no other, an [OperationBodyRaw] with matcher
    and replacer as fields of the operation and no [raw].  It throws only
    for a rule without section. *)
Theorem toSection_body_asymmetry (r : Rule.t) :
  match toSection r with
  | Returned section =>
      rawWrapped section = strictEq (Rule.section r) "RequestBody"
      /\ directSiblings section = strictEq (Rule.section r) "ResponseBody"
  | Threw _ => truthyStr (Rule.section r) = false
  end.
Proof.
  destruct r as [id name section matcher value active matcherType replacerType
                 condition workflowId].
  unfold toSection; cbn [Rule.section Rule.matcher Rule.value Rule.matcherType
                         Rule.replacerType Rule.workflowId Rule.name Rule.id].
  destruct (truthyStr section) eqn:Hs; cbn [negb]; [|reflexivity].
  destruct section as [s|]; [|discriminate]. clear Hs.
  pose proof (buildReplacer_kind (Some (nullish replacerType "term"))
                (nullish value EmptyString) workflowId) as Hr.
  pose proof (buildMatcher_kind (Some (nullish matcherType "regex"))
                (strOr matcher EmptyString)) as Hm.
  set (replacer := buildReplacer _ _ _) in *.
  set (rawMatcher := buildMatcher _ (strOr matcher EmptyString)) in *.
  unfold strictEq.
  destruct (String.eqb s "RequestHeader") eqn:E1.
  { apply String.eqb_eq in E1; subst s. unfold headerSection.
    destruct (isRawMatcherType _); split; reflexivity. }
  destruct (String.eqb s "RequestBody") eqn:E2.
  { apply String.eqb_eq in E2; subst s.
    unfold rawWrapped, directSiblings, isOperationBodyRaw. cbn.
    cbn in Hr, Hm. rewrite Hr, Hm. split; reflexivity. }
  destruct (String.eqb s "RequestMethod") eqn:E3.
  { apply String.eqb_eq in E3; subst s. split; reflexivity. }
  destruct (String.eqb s "RequestPath") eqn:E4.
  { apply String.eqb_eq in E4; subst s. split; reflexivity. }
  destruct (String.eqb s "RequestQuery") eqn:E5.
  { apply String.eqb_eq in E5; subst s. split; reflexivity. }
  destruct (String.eqb s "ResponseHeader") eqn:E6.
  { apply String.eqb_eq in E6; subst s. unfold headerSection.
    destruct (isRawMatcherType _); split; reflexivity. }
  destruct (String.eqb s "ResponseBody") eqn:E7.
  { apply String.eqb_eq in E7; subst s.
    unfold rawWrapped, directSiblings, isOperationBodyRaw. cbn.
    cbn in Hr, Hm. rewrite Hr, Hm. split; reflexivity. }
  split; reflexivity.
Qed.

(** ** Round trip *)

Example roundTrip_value_header :
  roundTrip "1" (hostRuleValue (mkHostRule "r" RequestHeader (Some (MatcherRawValue "a"))
                                            (ReplacerTerm "b")))
  = Some (Returned (hostSectionValue (mkHostRule "r" RequestHeader (Some (MatcherRawValue "a"))
                                            (ReplacerTerm "b")))).
Proof. vm_compute. reflexivity. Qed.

(** C1 as stated fails on the header rule that replaces a space by a
    plus: [toSection] turns its blank pattern into the empty one. *)
Lemma roundTrip_loses_blank_pattern :
  enumerated blankPatternRule = true /\ ~ roundTripPreserves "1" blankPatternRule.
Proof.
  split; [reflexivity|].
  intros [section [Hrt [Hp _]]].
  vm_compute in Hrt. injection Hrt as <-.
  vm_compute in Hp. discriminate Hp.
Qed.

(** C1 (amended). For a host rule of the data model that is named, has
    no [MatcherRawRegex] matcher, is not a request-body rule, has no blank
    pattern in a header, path or query section and no blank workflow
    reference, [parseGraphQLRule] followed by [toSection] returns a section
    with the pattern, the term and the workflow reference of the original. *)
Theorem roundTrip_carried (freshId : string) (h : HostRule) :
  enumerated h = true ->
  carried h = true ->
  roundTripPreserves freshId h.
Proof.
  destruct h as [name sec m rep]. unfold enumerated, carried; cbn [hostSection hostMatcher hostReplacer hostName].
  intros He Hc.
  destruct name as [|c name]; [discriminate|].
  destruct sec, m as [[p|p| |p]|]; try discriminate; cbn in He; try discriminate.
  all: destruct rep as [t|w].
  all: unfold roundTripPreserves, roundTrip.
  all: try (destruct (JS.blank w) eqn:Ew;
            [cbn -[JS.blank] in Hc; rewrite ?Bool.andb_false_r in Hc; discriminate Hc|]).
  all: try (destruct p as [|c' p];
            [|destruct (JS.blank (String c' p)) eqn:Ep;
              [cbn -[JS.blank] in Hc; rewrite ?Ep in Hc; try discriminate Hc|]]).
  all: cbn -[JS.blank]; rewrite ?Ew, ?Ep; cbn -[JS.blank].
  all: eexists; split; [reflexivity|].
  all: cbn; repeat split; try reflexivity.
  all: try rewrite Ep; try reflexivity.
Qed.

Lemma roundTrip_carried_witness :
  let h := mkHostRule "Strip server" ResponseHeader (Some (MatcherName "Server"))
                      (ReplacerWorkflow "g:1") in
  enumerated h = true /\ carried h = true /\ roundTripPreserves "1" h.
Proof.
  cbv zeta. split; [reflexivity|]. split; [reflexivity|].
  apply roundTrip_carried; reflexivity.
Defined.

(** The two families left out of [carried]. *)
Lemma roundTrip_loses_raw_regex :
  let h := mkHostRule "Rewrite host" RequestHeader (Some (MatcherRawRegex "^Host: .*$"))
                      (ReplacerTerm "Host: example.org") in
  enumerated h = true
  /\ exists section,
       roundTrip "1" (hostRuleValue h) = Some (Returned section)
       /\ resolvedPattern (hostSectionValue h) = Some "^Host: .*$"
       /\ resolvedPattern section = Some EmptyString.
Proof.
  cbv zeta. split; [reflexivity|]. eexists. split; [vm_compute; reflexivity|].
  split; reflexivity.
Qed.

Lemma roundTrip_loses_request_body :
  let h := mkHostRule "Mask token" RequestBody (Some (MatcherRawValue "secret"))
                      (ReplacerTerm "xxxxxx") in
  enumerated h = true
  /\ exists section,
       roundTrip "1" (hostRuleValue h) = Some (Returned section)
       /\ resolvedPattern (hostSectionValue h) = Some "secret"
       /\ resolvedTerm (hostSectionValue h) = Some "xxxxxx"
       /\ resolvedPattern section = Some EmptyString
       /\ resolvedTerm section = Some EmptyString.
Proof.
  cbv zeta. split; [reflexivity|]. eexists. split; [vm_compute; reflexivity|].
  repeat split; reflexivity.
Qed.

(** ** Host-to-editor translation *)

Lemma stringTag_includes (o : json) :
  stringTag o = true -> exists s, Json.discriminator o = JStr s.
Proof.
  unfold stringTag. destruct (Json.discriminator o); try discriminate. eauto.
Qed.

Lemma parseRawMatcher_some (raw : json) :
  stringTag raw = true -> exists x, parseRawMatcher raw = Some x.
Proof.
  intros [s Hs]%stringTag_includes. unfold parseRawMatcher. rewrite Hs. cbn. eauto.
Qed.

Lemma parseMatcher_some (m : json) :
  stringTag m = true ->
  match Json.asObject (Json.prop m "raw") with
  | None => true
  | Some raw => stringTag raw
  end = true ->
  exists x, parseMatcher m = Some x.
Proof.
  intros [s Hs]%stringTag_includes Hraw. unfold parseMatcher. rewrite Hs.
  cbn [Json.includesMethod].
  repeat match goal with
         | |- context [if ?b then _ else _] => destruct b
         end; eauto.
  - destruct (Json.asObject (Json.prop m "raw")) as [raw|]; eauto.
    now apply parseRawMatcher_some.
  - destruct (Json.prop m "regex") as [[]|]; eauto;
      destruct (Json.prop m "name") as [[]|]; eauto.
Qed.

Lemma parseReplacer_some (p : json) :
  stringTag p = true -> exists x, parseReplacer p = Some x.
Proof.
  intros [s Hs]%stringTag_includes. unfold parseReplacer. rewrite Hs. cbn. eauto.
Qed.

Lemma sectionTypeOf_unknown (inc : string -> bool) :
  existsb inc sectionNames = false -> sectionTypeOf inc = "RequestHeader".
Proof.
  unfold sectionTypeOf, sectionNames. cbn [existsb].
  destruct (inc "RequestHeader"); [reflexivity|].
  destruct (inc "RequestBody"); [discriminate|].
  destruct (inc "RequestMethod"); [discriminate|].
  destruct (inc "RequestPath"); [discriminate|].
  destruct (inc "RequestQuery"); [discriminate|].
  destruct (inc "ResponseHeader"); [discriminate|].
  destruct (inc "ResponseBody"); [discriminate|].
  destruct (inc "ResponseStatusCode"); [discriminate|reflexivity].
Qed.

Lemma parseSection_some (item : json) :
  tagsAreStrings item = true ->
  exists p,
    parseSection item = Some p
    /\ (sectionUnknown item = true -> sectionType p = "RequestHeader")
    /\ (noMatcherObject item = true -> pMatcherType p = "regex" /\ pMatcher p = EmptyString).
Proof.
  unfold tagsAreStrings, parseSection, sectionUnknown, noMatcherObject.
  destruct (Json.asObject (Json.prop item "section")) as [section|].
  2:{ intros _. eexists. split; [reflexivity|]. split; intros _; [|split]; reflexivity. }
  intros [Hs Hop]%andb_prop.
  destruct (stringTag_includes section Hs) as [s Hd]. rewrite Hd. cbn [Json.includesMethod].
  assert (Hunknown : negb (existsb (JS.includes s) sectionNames) = true ->
                     sectionTypeOf (JS.includes s) = "RequestHeader").
  { intros Hn. apply sectionTypeOf_unknown. now destruct (existsb _ _). }
  destruct (Json.asObject (Json.prop section "operation")) as [operation|].
  2:{ eexists. split; [reflexivity|]. split; [exact Hunknown | intros _; split; reflexivity]. }
  apply andb_prop in Hop as [Hm Hr].
  assert (Hrep : exists x,
             match Json.asObject (Json.prop operation "replacer") with
             | Some replacerObj => parseReplacer replacerObj
             | None => Some ("term", EmptyString, None)
             end = Some x).
  { destruct (Json.asObject (Json.prop operation "replacer")) as [replacerObj|]; eauto.
    now apply parseReplacer_some. }
  destruct Hrep as [[[replacerType value] workflowId] Hrep]. rewrite Hrep.
  destruct (Json.asObject (Json.prop operation "matcher")) as [matcherObj|].
  - apply andb_prop in Hm as [Hm Hraw].
    destruct (parseMatcher_some matcherObj Hm Hraw) as [[matcherType matcher] Hmat].
    rewrite Hmat. eexists. split; [reflexivity|]. split; [exact Hunknown | discriminate].
  - eexists. split; [reflexivity|]. split; [exact Hunknown | intros _; split; reflexivity].
Qed.

(** C9 as stated fails on a named item whose section carries a numeric
    discriminator: reading [includes] on it throws, and the [catch]
    returns [undefined]. *)
Lemma parseGraphQLRule_numeric_tag :
  let item := JObj [("name", JStr "x"); ("section", JObj [("kind", JNum 5)])] in
  Json.prop item "name" = Some (JStr "x")
  /\ parseGraphQLRule "1" item = None.
Proof. cbv zeta. split; reflexivity. Qed.

(** With an unknown section discriminator the matcher is still read from
    the operation: the matcher type need not be ["regex"]. *)
Lemma parseGraphQLRule_unknown_section_matcher :
  let item :=
    JObj [("name", JStr "x");
          ("section",
           JObj [("kind", JStr "SectionOther");
                 ("operation",
                  JObj [("matcher", JObj [("kind", JStr "MatcherRawValue");
                                          ("value", JStr "v")])])])] in
  sectionUnknown item = true
  /\ exists r,
       parseGraphQLRule "1" item = Some r
       /\ Rule.section r = Some "RequestHeader"
       /\ Rule.matcherType r = Some "string"
       /\ Rule.matcher r = Some "v".
Proof.
  cbv zeta. split; [vm_compute; reflexivity|]. eexists.
  split; [vm_compute; reflexivity|]. repeat split; reflexivity.
Qed.

(** C9 (amended). [parseGraphQLRule] returns a rule for every item whose
    name is a non-empty string and whose discriminators are strings
    where present.  The rule has that name; its section is
    ["RequestHeader"] when the section is absent or its discriminator
    contains none of the eight section names; its matcher type is
    ["regex"] and its matcher empty when the item has no matcher object. *)
Theorem parseGraphQLRule_named (freshId : string) (item : json) (name : string) :
  Json.prop item "name" = Some (JStr name) ->
  JS.isEmpty name = false ->
  tagsAreStrings item = true ->
  exists r,
    parseGraphQLRule freshId item = Some r
    /\ Rule.id r = freshId
    /\ Rule.name r = Some name
    /\ (sectionUnknown item = true -> Rule.section r = Some "RequestHeader")
    /\ (noMatcherObject item = true ->
        Rule.matcherType r = Some "regex" /\ Rule.matcher r = Some EmptyString).
Proof.
  intros Hname Hne Htags.
  destruct (parseSection_some item Htags) as [p [Hp [Hsec Hmat]]].
  unfold parseGraphQLRule. rewrite Hname. cbn [Json.stringOr]. rewrite Hne, Hp.
  eexists. split; [reflexivity|]. cbn [Rule.id Rule.name Rule.section Rule.matcherType Rule.matcher].
  split; [reflexivity|]. split; [reflexivity|]. split.
  - intros Hu. now rewrite (Hsec Hu).
  - intros Hn. destruct (Hmat Hn) as [-> ->]. split; reflexivity.
Qed.

Lemma parseGraphQLRule_named_witness :
  let item := JObj [("name", JStr "x"); ("section", JObj [("kind", JStr "SectionOther")])] in
  Json.prop item "name" = Some (JStr "x")
  /\ JS.isEmpty "x" = false
  /\ tagsAreStrings item = true
  /\ exists r,
       parseGraphQLRule "1" item = Some r
       /\ Rule.id r = "1"
       /\ Rule.name r = Some "x"
       /\ (sectionUnknown item = true -> Rule.section r = Some "RequestHeader")
       /\ (noMatcherObject item = true ->
           Rule.matcherType r = Some "regex" /\ Rule.matcher r = Some EmptyString).
Proof.
  cbv zeta. split; [reflexivity|]. split; [reflexivity|]. split; [reflexivity|].
  apply parseGraphQLRule_named; reflexivity.
Defined.


(** ** Collection store *)

Section StoreProperties.

Variable B : Type.
Variable saveCollections : list Collection.t -> B -> B * Outcome (Result unit).
Variable saveSelectedCollectionId : string -> B -> B * Outcome (Result unit).


Lemma persist_collections (st : Store B) : collections (persist saveCollections saveSelectedCollectionId st) = collections st.
Proof.
  destruct st as [cs sel n rid rn ts b]. unfold persist. cbn.
  destruct (saveCollections cs b) as [b1 [[u|err]|e]]; cbn; try reflexivity.
  destruct sel as [sel|]; cbn; [|reflexivity].
  destruct (JS.isEmpty sel); [reflexivity|].
  destruct (saveSelectedCollectionId sel b1) as [b2 [[u'|err]|e]]; reflexivity.
Qed.

Lemma persist_selected (st : Store B) :
  selectedCollectionId (persist saveCollections saveSelectedCollectionId st) = selectedCollectionId st.
Proof.
  destruct st as [cs sel n rid rn ts b]. unfold persist. cbn.
  destruct (saveCollections cs b) as [b1 [[u|err]|e]]; cbn; try reflexivity.
  destruct sel as [sel|]; cbn; [|reflexivity].
  destruct (JS.isEmpty sel); [reflexivity|].
  destruct (saveSelectedCollectionId sel b1) as [b2 [[u'|err]|e]]; reflexivity.
Qed.

Lemma updateFirst_ids (i : string) (f : Collection.t -> Collection.t) (cs : list Collection.t) :
  (forall c, Collection.id (f c) = Collection.id c) ->
  map Collection.id (updateFirst i f cs) = map Collection.id cs.
Proof.
  intros Hf. induction cs as [|c t IH]; cbn; [reflexivity|].
  destruct (hasId i c); cbn; [now rewrite Hf | now rewrite IH].
Qed.

Lemma map_nil_iff {A C : Type} (f : A -> C) (l : list A) : map f l = [] <-> l = [].
Proof. destruct l; cbn; split; congruence. Qed.

Lemma filter_other_ids (x : string) (cs : list Collection.t) :
  ~ In x (map Collection.id cs) ->
  filter (fun c => negb (hasId x c)) cs = cs.
Proof.
  induction cs as [|c t IH]; cbn; [reflexivity|]. intros Hn.
  unfold hasId at 1. destruct (String.eqb (Collection.id c) x) eqn:E.
  - apply String.eqb_eq in E. tauto.
  - cbn. rewrite IH; [reflexivity | tauto].
Qed.

(** With distinct identifiers, deleting by identifier removes at most one
    collection. *)
Lemma filter_distinct_ids (x : string) (cs : list Collection.t) :
  NoDup (map Collection.id cs) ->
  List.length cs <= S (List.length (filter (fun c => negb (hasId x c)) cs)).
Proof.
  induction cs as [|c t IH]; cbn; [lia|]. intros Hnd.
  inversion Hnd as [|i l Hni Hnd' Heq]; subst.
  unfold hasId at 1. destruct (String.eqb (Collection.id c) x) eqn:E; cbn.
  - apply String.eqb_eq in E; subst x. rewrite filter_other_ids by assumption. lia.
  - specialize (IH Hnd'). lia.
Qed.

Lemma filter_ids_subset (x : string) (cs : list Collection.t) :
  incl (map Collection.id (filter (fun c => negb (hasId x c)) cs)) (map Collection.id cs).
Proof.
  intros i [c [Hi Hc]]%in_map_iff. apply filter_In in Hc as [Hc _].
  apply in_map_iff. eauto.
Qed.

Lemma filter_ids_NoDup (x : string) (cs : list Collection.t) :
  NoDup (map Collection.id cs) ->
  NoDup (map Collection.id (filter (fun c => negb (hasId x c)) cs)).
Proof.
  induction cs as [|c t IH]; cbn; [intros; constructor|]. intros Hnd.
  inversion Hnd as [|i l Hni Hnd' Heq]; subst.
  destruct (negb (hasId x c)); cbn; [|now apply IH].
  constructor; [|now apply IH].
  intros Hin. apply Hni. now apply (filter_ids_subset x t).
Qed.

(** What each operation leaves as list of identifiers. *)
Lemma runOp_ids (op : StoreOp) (st : Store B) :
  collectionIds (runOp saveCollections saveSelectedCollectionId op st) = collectionIds st
  \/ (exists freshId rawName,
        op = OpCreateCollection freshId rawName
        /\ collectionIds (runOp saveCollections saveSelectedCollectionId op st) = (collectionIds st ++ [freshId])%list)
  \/ (exists x,
        op = OpDeleteCollection x
        /\ 2 <= List.length (collections st)
        /\ collections (runOp saveCollections saveSelectedCollectionId op st) = filter (fun c => negb (hasId x c)) (collections st)).
Proof.
  unfold collectionIds.
  destruct op as [freshId rawName|x|sel|imported toast|rid|rid value|rule| |rid]; cbn [runOp].
  - unfold createCollection. cbn.
    destruct (JS.blank rawName); [now left|]. right; left. exists freshId, rawName.
    split; [reflexivity|]. cbn. rewrite persist_collections. cbn.
    now rewrite map_app.
  - unfold deleteCollection.
    destruct (List.length (collections st) <=? 1)%nat eqn:Hlen; [now left|].
    apply Nat.leb_gt in Hlen.
    destruct (find (hasId x) (collections st)); [|now left].
    right; right. exists x. split; [reflexivity|]. split; [lia|].
    cbn. rewrite persist_collections.
    now destruct (strictEq (selectedCollectionId st) x).
  - left. unfold switchCollection. destruct (truthyStr sel); [|reflexivity].
    now rewrite persist_collections.
  - left. unfold addRules. destruct (selectedCollection st); [|reflexivity].
    cbn. rewrite persist_collections. cbn. now apply updateFirst_ids.
  - left. unfold removeRule. destruct (selectedCollection st); [|reflexivity].
    rewrite persist_collections. cbn. now apply updateFirst_ids.
  - left. unfold toggleActive. destruct (selectedCollection st); [|reflexivity].
    destruct (find _ _); [|reflexivity].
    rewrite persist_collections. cbn. now apply updateFirst_ids.
  - now left.
  - now left.
  - left. unfold saveRuleName. destruct (selectedCollection st); [|reflexivity].
    destruct (find _ _); [|reflexivity].
    destruct (editingRuleName st) as [text|]; [|reflexivity].
    destruct (negb (JS.blank _)); [|reflexivity].
    cbn. rewrite persist_collections. cbn. now apply updateFirst_ids.
Qed.

(** C3 as stated fails where two collections share an identifier:
    deleting by that identifier removes both. *)
Lemma deleteCollection_twins :
  collections twinStore <> []
  /\ collections
       (runOp acceptCollections acceptSelected (OpDeleteCollection "a") twinStore)
     = [].
Proof. split; [discriminate | reflexivity]. Qed.

Lemma runOp_nonempty (op : StoreOp) (st : Store B) :
  NoDup (collectionIds st) ->
  collections st <> [] ->
  collections (runOp saveCollections saveSelectedCollectionId op st) <> [].
Proof.
  intros Hnd Hne.
  destruct (runOp_ids op st) as [Hsame | [[f [n [_ Happ]]] | [x [_ [Hlen Hfil]]]]].
  - unfold collectionIds in Hsame. intros Hnil. rewrite Hnil in Hsame. cbn in Hsame.
    symmetry in Hsame. apply map_nil_iff in Hsame. contradiction.
  - unfold collectionIds in Happ. intros Hnil. rewrite Hnil in Happ. cbn in Happ.
    destruct (map Collection.id (collections st)); discriminate.
  - rewrite Hfil. pose proof (filter_distinct_ids x (collections st) Hnd) as Hle.
    destruct (filter _ _); [cbn in Hle; lia | discriminate].
Qed.

(** C3 (amended). [deleteCollection] on a store with exactly one
    collection leaves the collections and the selection as they are and
    shows the error toast; and from a store with at least one collection
    and pairwise distinct collection identifiers, every store operation
    leaves at least one collection. *)
Theorem deleteCollection_minimum_one (st : Store B) :
  (List.length (collections st) = 1 ->
   forall collectionId,
     deleteCollection saveCollections saveSelectedCollectionId collectionId st
     = showToast "Cannot delete the last collection" "error" st
     /\ collections (deleteCollection saveCollections saveSelectedCollectionId collectionId st) = collections st
     /\ selectedCollectionId (deleteCollection saveCollections saveSelectedCollectionId collectionId st) = selectedCollectionId st)
  /\ (NoDup (collectionIds st) ->
      collections st <> [] ->
      forall op, collections (runOp saveCollections saveSelectedCollectionId op st) <> []).
Proof.
  split.
  - intros Hlen collectionId. unfold deleteCollection. rewrite Hlen. cbn.
    repeat split; reflexivity.
  - intros Hnd Hne op. now apply runOp_nonempty.
Qed.

(** Non-emptiness and distinctness of identifiers are preserved
    together, as long as created collections get unused identifiers. *)
Lemma runOp_invariant (op : StoreOp) (st : Store B) :
  NoDup (collectionIds st) ->
  collections st <> [] ->
  freshFor op st ->
  NoDup (collectionIds (runOp saveCollections saveSelectedCollectionId op st)) /\ collections (runOp saveCollections saveSelectedCollectionId op st) <> [].
Proof.
  intros Hnd Hne Hfresh. split.
  - destruct (runOp_ids op st) as [Hsame | [[f [n [Hop Happ]]] | [x [_ [_ Hfil]]]]].
    + now rewrite Hsame.
    + rewrite Happ. subst op. cbn in Hfresh.
      apply NoDup_app; [assumption | repeat constructor; intros [] |].
      intros a Ha [<-|[]]. contradiction.
    + unfold collectionIds. rewrite Hfil. now apply filter_ids_NoDup.
  - now apply runOp_nonempty.
Qed.

End StoreProperties.

Lemma deleteCollection_minimum_one_witness :
  List.length (collections singleStore) = 1
  /\ NoDup (collectionIds singleStore)
  /\ collections singleStore <> []
  /\ collections (deleteCollection acceptCollections acceptSelected "a" singleStore)
     = collections singleStore
  /\ collections (runOp acceptCollections acceptSelected
                         (OpDeleteCollection "a") singleStore) <> [].
Proof.
  assert (Hnd : NoDup (collectionIds singleStore)).
  { repeat constructor. intros []. }
  assert (Hne : collections singleStore <> []) by discriminate.
  pose proof (deleteCollection_minimum_one unit acceptCollections acceptSelected singleStore)
    as [Hlast Hinv].
  split; [reflexivity|]. split; [exact Hnd|]. split; [exact Hne|]. split.
  - exact (proj1 (proj2 (Hlast eq_refl "a"))).
  - exact (Hinv Hnd Hne (OpDeleteCollection "a")).
Defined.

(** ** Persistence *)

Lemma defaultCollectionValue_typed (now : string) :
  defaultCollectionValue now = collectionValue (createDefaultCollection now).
Proof. reflexivity. Qed.

Section LoadProperties.

Variable gtZero : json -> bool.

(** What the body of [load] does once [collections.value] holds the
    default collection alone. *)
Lemma ensureSelected_default (now : string) (selected : option json) :
  selected = None \/ selected = Some (JStr now) ->
  ensureSelected gtZero (JArr [defaultCollectionValue now]) selected
  = Returned (Some (JStr now)).
Proof.
  intros [->| ->]; unfold ensureSelected; cbn; [reflexivity|].
  now destruct (JS.isEmpty now).
Qed.

Lemma loadBody_not_adopted (now : string) (collectionsResult : Outcome (Result json))
    (selectedResult : Outcome (Result (option string))) :
  adopted gtZero collectionsResult = false ->
  match loadBody gtZero now collectionsResult selectedResult None with
  | Returned l => l = defaultLoaded now
  | Threw _ => True
  end.
Proof.
  intros Hna. unfold loadBody.
  destruct collectionsResult as [[value|err]|e]; cbn [bind]; [| |exact I].
  - cbn in Hna. destruct (lengthPositive gtZero value) as [[|]|e]; cbn [bind];
      [discriminate| |exact I].
    rewrite ensureSelected_default by (now left). cbn [bind].
    destruct selectedResult as [[[v|]|err]|e]; cbn [bind];
      rewrite ?ensureSelected_default by (now right); try reflexivity; try exact I.
    destruct (negb (JS.blank v)); cbn [bind].
    + cbn. destruct (String.eqb now v); cbn; destruct (JS.isEmpty now); reflexivity.
    + rewrite ensureSelected_default by (now right). reflexivity.
  - rewrite ensureSelected_default by (now left). cbn [bind].
    destruct selectedResult as [[[v|]|err']|e]; cbn [bind];
      rewrite ?ensureSelected_default by (now right); try reflexivity; try exact I.
    destruct (negb (JS.blank v)); cbn [bind].
    + cbn. destruct (String.eqb now v); cbn; destruct (JS.isEmpty now); reflexivity.
    + rewrite ensureSelected_default by (now right). reflexivity.
Qed.

Lemma load_not_adopted (sdk : bool) (now : string)
    (collectionsResult : Outcome (Result json))
    (selectedResult : Outcome (Result (option string))) :
  adopted gtZero collectionsResult = false ->
  load gtZero sdk now collectionsResult selectedResult None = defaultLoaded now.
Proof.
  intros Hna. unfold load. destruct sdk; cbn [negb]; [|reflexivity].
  pose proof (loadBody_not_adopted now collectionsResult selectedResult Hna) as Hb.
  now destruct (loadBody gtZero now collectionsResult selectedResult None).
Qed.

Lemma idOf_notNull (v : json) :
  notNull v = true -> idOf (Some v) = Returned (Json.prop v "id").
Proof. destruct v; [discriminate| | | | |]; reflexivity. Qed.

Lemma findById_notNull (value : string) (l : list json) :
  forallb notNull l = true ->
  exists found,
    findById value l = Returned found
    /\ match found with
       | Some c => notNull c = true
       | None => True
       end.
Proof.
  induction l as [|c t IH]; cbn [findById forallb]; [exists None; auto|].
  intros [Hc Ht]%andb_prop. rewrite (idOf_notNull c Hc).
  destruct (Json.prop c "id") as [[| | |s| |]|]; try (now apply IH).
  destruct (String.eqb s value); [|now apply IH].
  exists (Some c). auto.
Qed.

Lemma ensureSelected_notNull (l : list json) (selected : option json) :
  l <> [] -> forallb notNull l = true ->
  exists s, ensureSelected gtZero (JArr l) selected = Returned s.
Proof.
  intros Hne Hl. destruct l as [|c t]; [contradiction|].
  cbn [forallb] in Hl. apply andb_prop in Hl as [Hc _].
  unfold ensureSelected. cbn [lengthPositive bind List.length Nat.eqb negb andb first hd_error].
  destruct (negb (Json.truthy selected)); [|eauto].
  rewrite (idOf_notNull c Hc). eauto.
Qed.

(** A stored array without [null] entries is adopted as it is, whatever
    the stored selection. *)
Lemma loadBody_adopts (now : string) (l : list json) (sr : Result (option string))
    (selected0 : option json) :
  l <> [] -> forallb notNull l = true ->
  exists selected,
    loadBody gtZero now (Returned (Ok (JArr l))) (Returned sr) selected0
    = Returned (mkLoaded (JArr l) selected).
Proof.
  intros Hne Hl. unfold loadBody. cbn [bind lengthPositive].
  assert (Hlen : negb (Nat.eqb (List.length l) 0) = true)
    by (destruct l; [contradiction | reflexivity]).
  rewrite Hlen.
  destruct (ensureSelected_notNull l selected0 Hne Hl) as [s1 ->]. cbn [bind].
  assert (Hlast : forall s, exists selected,
             bind (ensureSelected gtZero (JArr l) s)
                  (fun selected => Returned (mkLoaded (JArr l) selected))
             = Returned (mkLoaded (JArr l) selected)).
  { intros s. destruct (ensureSelected_notNull l s Hne Hl) as [s2 ->]. now exists s2. }
  destruct sr as [[value|]|err]; try apply Hlast.
  destruct (negb (JS.blank value)); [|apply Hlast]. cbn [findIn].
  destruct (findById_notNull value l Hl) as [found [-> Hfound]]. cbn [bind].
  destruct found as [c|].
  - rewrite (idOf_notNull c Hfound). cbn [bind]. apply Hlast.
  - cbn [lengthPositive bind]. rewrite Hlen.
    destruct l as [|c t]; [contradiction|]. cbn [first hd_error].
    cbn [forallb] in Hl. apply andb_prop in Hl as [Hc _].
    rewrite (idOf_notNull c Hc). cbn [bind]. apply Hlast.
Qed.

(** C6 (amended). Started with no selection, [load] ends with exactly
    the default collection, named ["Global Template"], without rules and
    selected, whenever the stored collections cannot be read: there is no
    record, the table read throws, the text does not parse, or the parsed
    value has no positive length (the empty array among others).  The
    same holds for a stored array whose first entry is [null]: reading
    the identifier of that entry throws, and the [catch] seeds the
    default.  Missing fields and wrong types are not detected: a stored
    array that is not empty and has no [null] entry is adopted as it is,
    provided the read of the stored selection does not reject.  [load]
    is a total function: nothing is thrown to its caller. *)
Theorem load_default_seeding (sdk : bool) (now : string)
    (dbGet : string -> Outcome (option string)) (JSON_parse : string -> Outcome json)
    (selectedResult : Outcome (Result (option string))) :
  let loaded :=
    load gtZero sdk now (Returned (getCollections dbGet JSON_parse)) selectedResult None in
  let seeded :=
    mkLoaded (JArr [collectionValue (Collection.mk now "Global Template" [])])
             (Some (JStr now)) in
  ((dbGet "global-match-replace-collections" = Returned None
    \/ (exists e, dbGet "global-match-replace-collections" = Threw e)
    \/ (exists text, dbGet "global-match-replace-collections" = Returned (Some text)
                     /\ ((exists e, JSON_parse text = Threw e)
                         \/ exists v, JSON_parse text = Returned v
                                      /\ lengthPositive gtZero v <> Returned true))) ->
   loaded = seeded)
  /\ (forall text rest,
        dbGet "global-match-replace-collections" = Returned (Some text) ->
        JSON_parse text = Returned (JArr (JNull :: rest)) ->
        loaded = seeded)
  /\ (forall text entries sr,
        dbGet "global-match-replace-collections" = Returned (Some text) ->
        JSON_parse text = Returned (JArr entries) ->
        entries <> [] ->
        forallb notNull entries = true ->
        sdk = true ->
        selectedResult = Returned sr ->
        loadedCollections loaded = JArr entries).
Proof.
  cbv zeta. change (mkLoaded _ (Some (JStr now))) with (defaultLoaded now).
  split; [|split].
  - intros Hstored. apply load_not_adopted. unfold adopted, getCollections.
    destruct Hstored as [-> | [[e ->] | [text [-> [[e ->] | [v [-> Hv]]]]]]]; try reflexivity.
    destruct (lengthPositive gtZero v) as [[|]|e]; congruence.
  - intros text rest Hget Hparse. unfold load, getCollections. rewrite Hget, Hparse.
    destruct sdk; reflexivity.
  - intros text entries sr Hget Hparse Hne Hnull -> ->.
    unfold load, getCollections. rewrite Hget, Hparse. cbn [negb].
    destruct (loadBody_adopts now entries sr None Hne Hnull) as [selected ->].
    reflexivity.
Qed.

End LoadProperties.

Lemma load_default_seeding_witness :
  let seeded :=
    mkLoaded (JArr [collectionValue (Collection.mk "1700000000000" "Global Template" [])])
             (Some (JStr "1700000000000")) in
  load (fun _ => false) true "1700000000000"
       (Returned (getCollections (fun _ => Returned None) parseSamples))
       (Returned (Ok None)) None
  = seeded
  /\ load (fun _ => false) true "1700000000000"
          (Returned (getCollections (tableWith "[null]") parseSamples))
          (Returned (Ok None)) None
     = seeded
  /\ loadedCollections
       (load (fun _ => false) true "1700000000000"
             (Returned (getCollections (tableWith "[7,{}]") parseSamples))
             (Returned (Ok None)) None)
     = JArr [JNum 7; JObj []].
Proof.
  cbv zeta. split; [|split].
  - apply (proj1 (load_default_seeding (fun _ => false) true "1700000000000"
                    (fun _ => Returned None) parseSamples (Returned (Ok None)))).
    left. reflexivity.
  - apply (proj1 (proj2 (load_default_seeding (fun _ => false) true "1700000000000"
                           (tableWith "[null]") parseSamples (Returned (Ok None))))
             "[null]" []); reflexivity.
  - apply (proj2 (proj2 (load_default_seeding (fun _ => false) true "1700000000000"
                           (tableWith "[7,{}]") parseSamples (Returned (Ok None))))
             "[7,{}]" [JNum 7; JObj []] (Ok None)); try reflexivity.
    discriminate.
Defined.

(** C6 as stated fails on a stored list whose only entry has none of the
    fields of a collection: [load] adopts it as it is, and selects
    nothing. *)
Lemma load_adopts_malformed :
  forallb isCollectionValue [JObj []] = false
  /\ getCollections tableWithEmptyObject parseEmptyObjectList = Ok (JArr [JObj []])
  /\ load (fun _ => false) true "1700000000000"
          (Returned (getCollections tableWithEmptyObject parseEmptyObjectList))
          (Returned (getSelectedCollectionId tableWithEmptyObject))
          None
     = mkLoaded (JArr [JObj []]) None
  /\ mkLoaded (JArr [JObj []]) None <> defaultLoaded "1700000000000".
Proof. repeat split; try reflexivity. discriminate. Qed.

(** ** Sync *)

(** A rule with a section translates, and its section passes the
    structure checks of the sync loop. *)
Lemma toSection_valid (r : Rule.t) :
  truthyStr (Rule.section r) = true ->
  exists section, toSection r = Returned section /\ validSection section = true.
Proof.
  destruct r as [id name section matcher value active matcherType replacerType
                 condition workflowId].
  unfold toSection; cbn [Rule.section Rule.matcher Rule.value Rule.matcherType
                         Rule.replacerType Rule.workflowId Rule.name Rule.id].
  intros Hs. rewrite Hs. cbn [negb].
  pose proof (buildReplacer_kind (Some (nullish replacerType "term"))
                (nullish value EmptyString) workflowId) as Hr.
  pose proof (buildMatcher_kind (Some (nullish matcherType "regex"))
                (strOr matcher EmptyString)) as Hm.
  set (replacer := buildReplacer _ _ _) in *.
  set (rawMatcher := buildMatcher _ (strOr matcher EmptyString)) in *.
  assert (Hshape : forall v, objectWithKind (Some v) = true -> Json.truthy (Some v) = true
                             /\ exists l, v = JObj l).
  { intros [| | | | |l] Hv; try discriminate. split; [reflexivity | eauto]. }
  destruct (Hshape _ Hr) as [_ [lr Hlr]]. destruct (Hshape _ Hm) as [_ [lm Hlm]].
  unfold strictEq. destruct section as [s|]; [|discriminate].
  repeat match goal with
         | |- context [if String.eqb s ?lit then _ else _] =>
             destruct (String.eqb s lit)
         end.
  all: eexists; (split; [reflexivity|]).
  all: unfold headerSection;
    try match goal with
        | |- context [if isRawMatcherType ?t then _ else _] =>
            destruct (isRawMatcherType t)
        end.
  all: try (pose proof (buildMatcher_kind (Some (nullish matcherType "regex"))
                          (strOr (Some (matcherValueOf
                             (Rule.mk id name (Some s) matcher value active matcherType
                                      replacerType condition workflowId))) EmptyString)) as Hm').
  all: unfold validSection; cbn -[buildMatcher]; cbn in Hr, Hm; rewrite ?Hr, ?Hm;
    try reflexivity.
  all: try (rewrite Hlr; reflexivity).
  all: try (rewrite Hlm, Hlr; reflexivity).
  all: try (cbn -[buildMatcher] in Hm'; rewrite ?Hm'; reflexivity).
Qed.

Section SyncProperties.

Variable H : Type.
Variable hostDeleteCollection : string -> H -> H * Outcome unit.
Variable hostCreateCollection : string -> H -> H * Outcome string.
Variable hostCreateRule : CreateRule -> H -> H * Outcome string.
Variable hostToggleRule : string -> bool -> H -> H * Outcome unit.

Lemma call_calls {A : Type} (c : HostCall) (f : H -> H * Outcome A) (st : SyncState H) :
  calls (fst (call c f st)) = (calls st ++ [c])%list.
Proof. unfold call. now destruct (f (host st)). Qed.

(** What one turn of the rule loop does, case by case. *)
Lemma syncRule_cases (createdId : string) (r : Rule.t) (st : SyncState H) :
  let result := syncRule hostCreateRule hostToggleRule createdId r st in
  (complete r = false /\ result = (st, false))
  \/ (complete r = true
      /\ exists c rest,
           createRuleCall createdId r = Some c
           /\ calls (fst result) = (calls st ++ c :: rest)%list
           /\ (alwaysResolves (hostCreateRule
                                 (mkCreateRule createdId
                                    (strOr (Rule.name r) (nullish (Rule.section r) EmptyString))
                                    (queryOf r)
                                    match toSection r with
                                    | Returned section => section
                                    | Threw _ => JNull
                                    end)) ->
               (forall id, alwaysResolves (hostToggleRule id (Rule.active r))) ->
               snd result = true)).
Proof.
  cbv zeta. unfold syncRule, complete, createRuleCall.
  destruct (truthyStr (Rule.section r)) eqn:Hs; cbn [negb orb andb]; [|now left].
  destruct (truthyStr (Rule.name r)) eqn:Hn; cbn [negb]; [|now left].
  right. split; [reflexivity|].
  destruct (toSection_valid r Hs) as [section [-> Hv]]. rewrite Hv. cbn [negb].
  eexists. unfold call.
  destruct (hostCreateRule _ (host st)) as [h1 [ruleId|e]] eqn:Hc; cbn.
  - destruct (hostToggleRule ruleId (Rule.active r) h1) as [h2 [u|e]] eqn:Ht; cbn.
    + eexists. split; [reflexivity|]. split; [now rewrite <- app_assoc|]. reflexivity.
    + eexists. split; [reflexivity|]. split; [now rewrite <- app_assoc|].
      intros _ Htog. destruct (Htog ruleId h1) as [h' [a Ha]]. congruence.
  - exists []. split; [reflexivity|]. split; [reflexivity|].
    intros Hcr _. destruct (Hcr (host st)) as [h' [a Ha]]. congruence.
Qed.

Lemma syncRule_extends (createdId : string) (r : Rule.t) (st : SyncState H) :
  exists l, calls (fst (syncRule hostCreateRule hostToggleRule createdId r st))
            = (calls st ++ l)%list.
Proof.
  destruct (syncRule_cases createdId r st) as [[_ ->] | [_ [c [rest [_ [-> _]]]]]].
  - exists []. cbn. now rewrite app_nil_r.
  - eauto.
Qed.

Lemma syncRules_extends (createdId : string) (rules : list Rule.t) (st : SyncState H) (n : nat) :
  exists l, calls (fst (syncRules hostCreateRule hostToggleRule createdId rules st n))
            = (calls st ++ l)%list.
Proof.
  revert st n. induction rules as [|r rest IH]; intros st n; cbn.
  - exists []. now rewrite app_nil_r.
  - destruct (syncRule_extends createdId r st) as [l1 Hl1].
    destruct (syncRule hostCreateRule hostToggleRule createdId r st) as [st1 counted].
    cbn in Hl1. destruct (IH st1 (if counted then n + 1 else n)) as [l2 Hl2].
    exists (l1 ++ l2)%list. now rewrite Hl2, Hl1, app_assoc.
Qed.

(** Every complete rule reaches the host, wherever it stands in the
    list and whatever happened to the rules before it. *)
Lemma syncRules_attempts (createdId : string) (rules : list Rule.t) (st : SyncState H)
    (n : nat) (r : Rule.t) :
  In r rules ->
  complete r = true ->
  exists c, createRuleCall createdId r = Some c
            /\ In c (calls (fst (syncRules hostCreateRule hostToggleRule createdId rules st n))).
Proof.
  revert st n. induction rules as [|r0 rest IH]; intros st n Hin Hc; [contradiction|].
  cbn. destruct Hin as [-> | Hin].
  - destruct (syncRule_cases createdId r st) as [[Hf _] | [_ [c [l [Hcall [Hcalls _]]]]]];
      [congruence|].
    destruct (syncRule hostCreateRule hostToggleRule createdId r st) as [st1 counted].
    cbn in Hcalls.
    destruct (syncRules_extends createdId rest st1 (if counted then n + 1 else n)) as [l2 Hl2].
    exists c. split; [exact Hcall|]. rewrite Hl2, Hcalls.
    apply in_or_app; left. apply in_or_app; right. now left.
  - destruct (syncRule hostCreateRule hostToggleRule createdId r0 st) as [st1 counted].
    now apply IH.
Qed.

Lemma syncRules_count_le (createdId : string) (rules : list Rule.t) (st : SyncState H) (n : nat) :
  snd (syncRules hostCreateRule hostToggleRule createdId rules st n)
  <= n + List.length (filter complete rules).
Proof.
  revert st n. induction rules as [|r rest IH]; intros st n; cbn; [lia|].
  destruct (syncRule_cases createdId r st) as [[Hf Hr] | [Ht _]].
  - rewrite Hr, Hf. apply IH.
  - rewrite Ht. destruct (syncRule hostCreateRule hostToggleRule createdId r st) as [st1 [|]].
    + specialize (IH st1 (n + 1)). cbn [List.length]. lia.
    + specialize (IH st1 n). cbn [List.length]. lia.
Qed.

Lemma syncRules_count_eq (createdId : string) (rules : list Rule.t) (st : SyncState H) (n : nat) :
  (forall args, alwaysResolves (hostCreateRule args)) ->
  (forall id active, alwaysResolves (hostToggleRule id active)) ->
  snd (syncRules hostCreateRule hostToggleRule createdId rules st n)
  = n + List.length (filter complete rules).
Proof.
  intros Hcr Htg. revert st n. induction rules as [|r rest IH]; intros st n; cbn; [lia|].
  destruct (syncRule_cases createdId r st) as [[Hf Hr] | [Ht [c [l [_ [_ Hcount]]]]]].
  - rewrite Hr, Hf. apply IH.
  - rewrite Ht. specialize (Hcount (Hcr _) (fun id => Htg id _)).
    destruct (syncRule hostCreateRule hostToggleRule createdId r st) as [st1 counted].
    cbn in Hcount. subst counted. rewrite IH. cbn [List.length]. lia.
Qed.

End SyncProperties.

Lemma quiet_createRule_resolves (args : CreateRule) : alwaysResolves (QuietHost.createRule args).
Proof. intros h. exists h, "r1". reflexivity. Qed.

Lemma quiet_toggleRule_resolves (id : string) (active : bool) :
  alwaysResolves (QuietHost.toggleRule id active).
Proof. intros h. exists h, tt. reflexivity. Qed.

Lemma quiet_deleteCollection_resolves (id : string) :
  alwaysResolves (QuietHost.deleteCollection id).
Proof. intros h. exists h, tt. reflexivity. Qed.

Lemma quiet_createCollection_resolves (name : string) :
  alwaysResolves (QuietHost.createCollection name).
Proof. intros h. exists h, "c1". reflexivity. Qed.

(** The whole sync of one collection of five rules, the third without
    section, on a host that accepts every call: the toast reports four
    rules. *)
Example onSyncToSelected_reports_four :
  syncToasts (quietSync [Collection.mk "a" "Global Template" fiveRules])
  = [mkToast ("Synced 1 collection(s) with 4 rule(s) to " ++ quoted "Target") "success"].
Proof. vm_compute. reflexivity. Qed.

(** *** The sync, call by call *)

Section SyncRuns.

Variable H : Type.
Variable getCurrentProject : H -> H * Outcome (Result (option Workspace.t)).
Variable projectsApi : ProjectsApi.
Variable switchProject : string -> H -> H * Outcome unit.
Variable setCurrentProject : string -> H -> H * Outcome unit.
Variable hostGetCollections : H -> H * Outcome (list HostCollection.t).
Variable hostDeleteCollection : string -> H -> H * Outcome unit.
Variable hostCreateCollection : string -> H -> H * Outcome string.
Variable hostCreateRule : CreateRule -> H -> H * Outcome string.
Variable hostToggleRule : string -> bool -> H -> H * Outcome unit.

(** The notions of the log, taken for the host of this section:
    [replayed l h] is the host after the calls [l], [accepted kind l h]
    the number of calls of one kind it resolves among them,
    [inTurns step xs h parts] says that [parts] are the calls of the
    elements of [xs], one after the other from [h], and [turnOf] and
    [stepOf] describe the calls of one collection and of one rule. *)
Local Abbreviation replayed :=
  (replay getCurrentProject switchProject setCurrentProject hostGetCollections
          hostDeleteCollection hostCreateCollection hostCreateRule hostToggleRule).
Local Abbreviation accepted :=
  (acceptedCalls getCurrentProject switchProject setCurrentProject hostGetCollections
                 hostDeleteCollection hostCreateCollection hostCreateRule hostToggleRule).
Local Abbreviation inTurns :=
  (threaded getCurrentProject switchProject setCurrentProject hostGetCollections
            hostDeleteCollection hostCreateCollection hostCreateRule hostToggleRule).
Local Abbreviation turnOf :=
  (syncTurn getCurrentProject switchProject setCurrentProject hostGetCollections
            hostDeleteCollection hostCreateCollection hostCreateRule hostToggleRule).
Local Abbreviation stepOf := (ruleStep hostCreateRule).
Local Abbreviation syncedRules := (syncRules hostCreateRule hostToggleRule).
Local Abbreviation syncedCollection :=
  (syncCollection hostDeleteCollection hostCreateCollection hostCreateRule hostToggleRule).
Local Abbreviation syncedCollections :=
  (syncCollections hostDeleteCollection hostCreateCollection hostCreateRule hostToggleRule).
Local Abbreviation synced :=
  (onSyncToSelected getCurrentProject projectsApi switchProject setCurrentProject
                    hostGetCollections hostDeleteCollection hostCreateCollection
                    hostCreateRule hostToggleRule).

Lemma replay_app (l1 l2 : list HostCall) (h : H) :
  replayed (l1 ++ l2)%list h = replayed l2 (replayed l1 h).
Proof. apply fold_left_app. Qed.

Lemma acceptedCalls_app (kind : HostCall -> bool) (l1 l2 : list HostCall) (h : H) :
  accepted kind (l1 ++ l2)%list h = accepted kind l1 h + accepted kind l2 (replayed l1 h).
Proof.
  revert h. induction l1 as [|c l1 IH]; intros h; cbn; [reflexivity|].
  rewrite IH. apply Nat.add_assoc.
Qed.

Lemma acceptedCalls_none (kind : HostCall -> bool) (l : list HostCall) (h : H) :
  (forall c, In c l -> kind c = false) -> accepted kind l h = 0.
Proof.
  revert h. induction l as [|c l IH]; intros h Hk; cbn; [reflexivity|].
  rewrite (Hk c) by now left. cbn. apply IH. intros c' Hc'. apply Hk. now right.
Qed.

Lemma ruleCalls_no_creation (l : list HostCall) (h : H) :
  forallb isRuleCall l = true -> accepted isCreateCollection l h = 0.
Proof.
  intros Hl. apply acceptedCalls_none. intros c Hc.
  rewrite forallb_forall in Hl. specialize (Hl c Hc). now destruct c.
Qed.

Lemma call_eq {A : Type} (c : HostCall) (f : H -> H * Outcome A) (st : SyncState H) :
  call c f st
  = (mkSyncState (fst (f (host st))) (calls st ++ [c])%list (syncToasts st),
     snd (f (host st))).
Proof. unfold call. now destruct (f (host st)). Qed.

(** One turn of the rule loop, as the host sees it. *)
Lemma syncRule_step (createdId : string) (r : Rule.t) (st : SyncState H) :
  let result := syncRule hostCreateRule hostToggleRule createdId r st in
  exists part,
    stepOf createdId r (host st) part
    /\ calls (fst result) = (calls st ++ part)%list
    /\ host (fst result) = replayed part (host st)
    /\ syncToasts (fst result) = syncToasts st
    /\ (if snd result then 1 else 0) = accepted isToggleRule part (host st).
Proof.
  cbv zeta. unfold syncRule, ruleStep, complete.
  destruct (truthyStr (Rule.section r)) eqn:Hs; cbn [negb orb andb].
  2:{ exists []. cbn. now rewrite app_nil_r. }
  destruct (truthyStr (Rule.name r)) eqn:Hn; cbn [negb].
  2:{ exists []. cbn. now rewrite app_nil_r. }
  destruct (toSection_valid r Hs) as [section [Hsec Hv]]. rewrite Hsec, Hv. cbn [negb].
  set (args := mkCreateRule createdId
                 (strOr (Rule.name r) (nullish (Rule.section r) EmptyString))
                 (queryOf r) section).
  rewrite call_eq.
  destruct (hostCreateRule args (host st)) as [h1 [ruleId|e]] eqn:Hc; cbn [fst snd].
  - rewrite call_eq. cbn [host calls syncToasts fst snd].
    exists [CallCreateRule args; CallToggleRule ruleId (Rule.active r)].
    split; [exists section; split; [reflexivity|]; cbv zeta; fold args; now rewrite Hc|].
    destruct (hostToggleRule ruleId (Rule.active r) h1) as [h2 [u|e]] eqn:Ht;
      cbn; rewrite Hc; cbn; rewrite Ht; cbn; rewrite <- app_assoc; auto.
  - exists [CallCreateRule args].
    split; [exists section; split; [reflexivity|]; cbv zeta; fold args; now rewrite Hc|].
    cbn. rewrite Hc. cbn. auto.
Qed.

Lemma syncRules_steps (createdId : string) (rules : list Rule.t) (st : SyncState H) (n : nat) :
  let result := syncedRules createdId rules st n in
  exists steps,
    inTurns (stepOf createdId) rules (host st) steps
    /\ calls (fst result) = (calls st ++ concat steps)%list
    /\ host (fst result) = replayed (concat steps) (host st)
    /\ syncToasts (fst result) = syncToasts st
    /\ snd result = n + accepted isToggleRule (concat steps) (host st).
Proof.
  cbv zeta. revert st n. induction rules as [|r rest IH]; intros st n.
  - exists []. cbn. rewrite app_nil_r, Nat.add_0_r. auto.
  - cbn [syncRules].
    destruct (syncRule_step createdId r st) as [part [Hstep [Hcalls [Hhost [Htoasts Hcount]]]]].
    cbv zeta in Hcalls, Hhost, Htoasts, Hcount.
    destruct (syncRule hostCreateRule hostToggleRule createdId r st) as [st1 counted].
    cbn [fst snd] in *.
    destruct (IH st1 (if counted then n + 1 else n)) as [steps [I1 [I2 [I3 [I4 I5]]]]].
    exists (part :: steps). cbn [threaded concat].
    rewrite Hhost in I1, I3, I5.
    split; [split; assumption|].
    split; [now rewrite I2, Hcalls, app_assoc|].
    split; [now rewrite I3, replay_app|].
    split; [congruence|].
    rewrite I5, acceptedCalls_app, <- Hcount. destruct counted; lia.
Qed.

Lemma steps_ruleCalls (createdId : string) (rules : list Rule.t) (h : H)
    (steps : list (list HostCall)) :
  inTurns (stepOf createdId) rules h steps -> forallb isRuleCall (concat steps) = true.
Proof.
  revert h steps. induction rules as [|r rest IH]; intros h [|part steps]; cbn [threaded];
    try contradiction; [reflexivity|].
  intros [Hstep Hrest]. cbn [concat]. rewrite forallb_app, (IH _ _ Hrest), andb_true_r.
  unfold ruleStep in Hstep. destruct (complete r); [|now subst part].
  destruct Hstep as [section [_ Hpart]]. cbv zeta in Hpart.
  destruct (snd (hostCreateRule _ h)); now subst part.
Qed.

Lemma syncCollection_skip (existing : list HostCollection.t) (c : Collection.t)
    (acc : SyncState H * Totals) :
  eligible c = false -> syncedCollection existing c acc = acc.
Proof.
  unfold eligible, syncCollection. destruct acc as [st totals].
  destruct (Nat.eqb (List.length (Collection.rules c)) 0); [reflexivity|].
  cbn [negb andb]. now intros ->%negb_false_iff.
Qed.

(** One turn of the collection loop, as the host sees it. *)
Lemma syncCollection_turn (existing : list HostCollection.t) (c : Collection.t)
    (st : SyncState H) (totals : Totals) :
  eligible c = true ->
  let result := syncedCollection existing c (st, totals) in
  exists part failed,
    turnOf existing c (host st) part
    /\ calls (fst result) = (calls st ++ part)%list
    /\ host (fst result) = replayed part (host st)
    /\ syncToasts (fst result) = syncToasts st
    /\ totalRulesSynced (snd result)
       = totalRulesSynced totals + accepted isToggleRule part (host st)
    /\ totalCollectionsSynced (snd result)
       = totalCollectionsSynced totals + accepted isCreateCollection part (host st)
    /\ failedCollections (snd result) = (failedCollections totals ++ failed)%list
    /\ List.length failed + accepted isCreateCollection part (host st) = 1.
Proof.
  unfold eligible. intros [Hr Hn]%andb_prop. apply negb_true_iff in Hr, Hn.
  cbv zeta. unfold syncCollection, syncTurn. rewrite Hr, Hn.
  set (name := JS.trim (Collection.name c)).
  assert (Hcreated : forall before st1,
             calls st1 = (calls st ++ before)%list ->
             host st1 = replayed before (host st) ->
             syncToasts st1 = syncToasts st ->
             accepted isToggleRule before (host st) = 0 ->
             accepted isCreateCollection before (host st) = 0 ->
             let result :=
               match call (CallCreateCollection name) (hostCreateCollection name) st1 with
               | (st2, Threw _) =>
                   (st2, mkTotals (totalCollectionsSynced totals) (totalRulesSynced totals)
                                  (failedCollections totals ++ [name])%list)
               | (st2, Returned createdId) =>
                   let (st3, ruleCount) :=
                     syncedRules createdId (Collection.rules c) st2 0 in
                   (st3, mkTotals (totalCollectionsSynced totals + 1)
                                  (totalRulesSynced totals + ruleCount)
                                  (failedCollections totals))
               end in
             exists part failed,
               match hostCreateCollection name (host st1) with
               | (h', Returned createdId) =>
                   exists steps,
                     part = (before ++ CallCreateCollection name :: concat steps)%list
                     /\ inTurns (stepOf createdId) (Collection.rules c) h' steps
               | (_, Threw _) => part = (before ++ [CallCreateCollection name])%list
               end
               /\ calls (fst result) = (calls st ++ part)%list
               /\ host (fst result) = replayed part (host st)
               /\ syncToasts (fst result) = syncToasts st
               /\ totalRulesSynced (snd result)
                  = totalRulesSynced totals + accepted isToggleRule part (host st)
               /\ totalCollectionsSynced (snd result)
                  = totalCollectionsSynced totals + accepted isCreateCollection part (host st)
               /\ failedCollections (snd result) = (failedCollections totals ++ failed)%list
               /\ List.length failed + accepted isCreateCollection part (host st) = 1).
  { intros before st1 Hcalls Hhost Htoasts Htog Hcre. cbv zeta. rewrite call_eq.
    destruct (hostCreateCollection name (host st1)) as [h2 [createdId|e]] eqn:Hc;
      cbn [fst snd].
    - destruct (syncRules_steps createdId (Collection.rules c)
                  (mkSyncState h2 (calls st1 ++ [CallCreateCollection name])%list
                               (syncToasts st1)) 0)
        as [steps [S1 [S2 [S3 [S4 S5]]]]].
      cbv zeta in S2, S3, S4, S5. cbn [host calls syncToasts] in S1, S2, S3, S4, S5.
      destruct (syncedRules createdId (Collection.rules c) _ 0) as [st3 ruleCount].
      cbn [fst snd] in *.
      exists (before ++ CallCreateCollection name :: concat steps)%list, [].
      split; [exists steps; auto|].
      split; [now rewrite S2, Hcalls, <- !app_assoc|].
      assert (Hh2 : replayed (before ++ [CallCreateCollection name])%list (host st) = h2).
      { rewrite replay_app, <- Hhost. cbn. now rewrite Hc. }
      split.
      { rewrite S3. change (CallCreateCollection name :: concat steps)
          with ([CallCreateCollection name] ++ concat steps)%list.
        now rewrite app_assoc, (replay_app (before ++ [CallCreateCollection name])), Hh2. }
      split; [congruence|].
      change (CallCreateCollection name :: concat steps)
        with ([CallCreateCollection name] ++ concat steps)%list.
      rewrite !app_assoc, !(acceptedCalls_app _ (before ++ [CallCreateCollection name])), Hh2.
      rewrite !acceptedCalls_app, Htog, Hcre, <- Hhost.
      rewrite (ruleCalls_no_creation (concat steps) h2)
        by exact (steps_ruleCalls createdId _ _ _ S1).
      cbn. rewrite Hc. cbn. rewrite app_nil_r. repeat split; lia.
    - exists (before ++ [CallCreateCollection name])%list, [name].
      split; [reflexivity|].
      split; [now rewrite Hcalls, <- app_assoc|].
      split; [rewrite replay_app, <- Hhost; cbn; now rewrite Hc|].
      split; [exact Htoasts|].
      rewrite !acceptedCalls_app, Htog, Hcre, <- Hhost. cbn. rewrite Hc. cbn.
      repeat split; lia. }
  change (find (hasName name) existing)
    with (find (fun e => String.eqb (HostCollection.name e) name) existing).
  destruct (find (fun e => String.eqb (HostCollection.name e) name) existing) as [e|].
  - rewrite call_eq.
    destruct (hostDeleteCollection (HostCollection.id e) (host st)) as [h1 [u|err]] eqn:Hd;
      cbn [fst snd].
    + destruct (Hcreated [CallDeleteCollection (HostCollection.id e)]
                  (mkSyncState h1 (calls st ++ [CallDeleteCollection (HostCollection.id e)])%list
                               (syncToasts st)))
        as [part [failed Hres]]; try reflexivity.
      { cbn. now rewrite Hd. }
      cbv zeta in Hres. cbn [host] in Hres. exists part, failed. exact Hres.
    + exists [CallDeleteCollection (HostCollection.id e)], [name].
      cbn. rewrite Hd. cbn. repeat split; lia.
  - destruct (Hcreated [] st) as [part [failed Hres]]; try reflexivity.
    { now rewrite app_nil_r. }
    cbv zeta in Hres. exists part, failed. exact Hres.
Qed.

(** The loop over the local collections, as the host sees it. *)
Lemma syncCollections_turns (existing : list HostCollection.t) (cs : list Collection.t)
    (st : SyncState H) (totals : Totals) :
  let result := syncedCollections existing cs (st, totals) in
  exists turns failed,
    inTurns (turnOf existing) (filter eligible cs) (host st) turns
    /\ calls (fst result) = (calls st ++ concat turns)%list
    /\ host (fst result) = replayed (concat turns) (host st)
    /\ syncToasts (fst result) = syncToasts st
    /\ totalRulesSynced (snd result)
       = totalRulesSynced totals + accepted isToggleRule (concat turns) (host st)
    /\ totalCollectionsSynced (snd result)
       = totalCollectionsSynced totals + accepted isCreateCollection (concat turns) (host st)
    /\ failedCollections (snd result) = (failedCollections totals ++ failed)%list
    /\ List.length failed + accepted isCreateCollection (concat turns) (host st)
       = List.length (filter eligible cs).
Proof.
  cbv zeta. unfold syncCollections. revert st totals.
  induction cs as [|c rest IH]; intros st totals.
  - exists [], []. cbn. rewrite !app_nil_r, !Nat.add_0_r. auto 10.
  - cbn [fold_left filter]. destruct (eligible c) eqn:He.
    + destruct (syncCollection_turn existing c st totals He)
        as [part [failed1 [T1 [T2 [T3 [T4 [T5 [T6 [T7 T8]]]]]]]]].
      cbv zeta in T2, T3, T4, T5, T6, T7.
      destruct (syncedCollection existing c (st, totals)) as [st1 totals1].
      cbn [fst snd] in *.
      destruct (IH st1 totals1) as [turns [failed2 [I1 [I2 [I3 [I4 [I5 [I6 [I7 I8]]]]]]]]].
      rewrite T3 in I1, I3, I5, I6, I8.
      exists (part :: turns), (failed1 ++ failed2)%list. cbn [threaded concat List.length].
      split; [split; assumption|].
      split; [now rewrite I2, T2, app_assoc|].
      split; [now rewrite I3, replay_app|].
      split; [congruence|].
      rewrite !acceptedCalls_app, length_app.
      split; [lia|]. split; [lia|].
      split; [now rewrite I7, T7, app_assoc | lia].
    + rewrite (syncCollection_skip existing c (st, totals) He). apply IH.
Qed.

(** The rules apart, a turn is a replacement. *)
Lemma syncTurn_replaceTurn (existing : list HostCollection.t) (c : Collection.t) (h : H)
    (part : list HostCall) :
  turnOf existing c h part -> replaceTurn hostDeleteCollection existing c h part.
Proof.
  unfold syncTurn, replaceTurn. cbv zeta.
  set (name := JS.trim (Collection.name c)).
  assert (Hcreated : forall before h',
             match hostCreateCollection name h' with
             | (h'', Returned createdId) =>
                 exists steps,
                   part = (before ++ CallCreateCollection name :: concat steps)%list
                   /\ inTurns (stepOf createdId) (Collection.rules c) h'' steps
             | (_, Threw _) => part = (before ++ [CallCreateCollection name])%list
             end ->
             exists rest,
               part = (before ++ CallCreateCollection name :: rest)%list
               /\ forallb isRuleCall rest = true).
  { intros before h' Hp. destruct (hostCreateCollection name h') as [h'' [createdId|e]].
    - destruct Hp as [steps [-> Hsteps]]. exists (concat steps).
      split; [reflexivity | exact (steps_ruleCalls createdId _ _ _ Hsteps)].
    - exists []. auto. }
  destruct (find (fun e => String.eqb (HostCollection.name e) name) existing) as [e|].
  - destruct (hostDeleteCollection (HostCollection.id e) h) as [h' [u|err]]; cbn [snd].
    + intros Hp. exact (Hcreated [CallDeleteCollection (HostCollection.id e)] h' Hp).
    + auto.
  - intros Hp. exact (Hcreated [] h Hp).
Qed.

Lemma threaded_replaceTurn (existing : list HostCollection.t) (cs : list Collection.t) (h : H)
    (turns : list (list HostCall)) :
  inTurns (turnOf existing) cs h turns ->
  inTurns (replaceTurn hostDeleteCollection existing) cs h turns.
Proof.
  revert h turns. induction cs as [|c rest IH]; intros h [|part turns]; cbn [threaded];
    try tauto.
  intros [Hturn Hrest]. split; [now apply syncTurn_replaceTurn | now apply IH].
Qed.

(** On a host that resolves every call, the counters after the loop. *)
Lemma syncCollections_resolving (existing : list HostCollection.t) (cs : list Collection.t)
    (st : SyncState H) (totals : Totals) :
  (forall id, alwaysResolves (hostDeleteCollection id)) ->
  (forall name, alwaysResolves (hostCreateCollection name)) ->
  (forall args, alwaysResolves (hostCreateRule args)) ->
  (forall id active, alwaysResolves (hostToggleRule id active)) ->
  snd (syncedCollections existing cs (st, totals))
  = mkTotals (totalCollectionsSynced totals + List.length (filter eligible cs))
             (totalRulesSynced totals + completeRules cs)
             (failedCollections totals).
Proof.
  intros Hdel Hcre Hrule Htog. unfold syncCollections, completeRules. revert st totals.
  induction cs as [|c rest IH]; intros st totals.
  - cbn. rewrite !Nat.add_0_r. now destruct totals.
  - cbn [fold_left filter]. destruct (eligible c) eqn:He.
    + assert (Hturn : exists st1,
                 syncedCollection existing c (st, totals)
                 = (st1, mkTotals (totalCollectionsSynced totals + 1)
                                  (totalRulesSynced totals
                                   + List.length (filter complete (Collection.rules c)))
                                  (failedCollections totals))).
      { unfold eligible in He. apply andb_prop in He as [Hr Hn].
        apply negb_true_iff in Hr, Hn. unfold syncCollection. rewrite Hr, Hn.
        set (name := JS.trim (Collection.name c)).
        assert (Hcreated : forall st1,
                   exists st3,
                     match call (CallCreateCollection name) (hostCreateCollection name) st1 with
                     | (st2, Threw _) =>
                         (st2, mkTotals (totalCollectionsSynced totals)
                                        (totalRulesSynced totals)
                                        (failedCollections totals ++ [name])%list)
                     | (st2, Returned createdId) =>
                         let (st3, ruleCount) :=
                           syncedRules createdId (Collection.rules c) st2 0 in
                         (st3, mkTotals (totalCollectionsSynced totals + 1)
                                        (totalRulesSynced totals + ruleCount)
                                        (failedCollections totals))
                     end
                     = (st3, mkTotals (totalCollectionsSynced totals + 1)
                                      (totalRulesSynced totals
                                       + List.length (filter complete (Collection.rules c)))
                                      (failedCollections totals))).
        { intros st1. rewrite call_eq.
          destruct (Hcre name (host st1)) as [h2 [createdId ->]]. cbn [fst snd].
          pose proof (syncRules_count_eq H hostCreateRule hostToggleRule createdId
                        (Collection.rules c)
                        (mkSyncState h2 (calls st1 ++ [CallCreateCollection name])%list
                                     (syncToasts st1)) 0 Hrule Htog) as Hcount.
          destruct (syncedRules createdId (Collection.rules c) _ 0) as [st3 ruleCount].
          cbn [snd] in Hcount. subst ruleCount. now exists st3. }
        destruct (find (hasName name) existing) as [e|]; [|apply Hcreated].
        rewrite call_eq.
        destruct (Hdel (HostCollection.id e) (host st)) as [h1 [u ->]]. cbn [fst snd].
        apply Hcreated. }
      destruct Hturn as [st1 ->]. rewrite IH. cbn [totalCollectionsSynced totalRulesSynced
                                                    failedCollections map List.length].
      assert (Hsum : forall a l, list_sum (a :: l) = a + list_sum l) by reflexivity.
      rewrite Hsum. f_equal; lia.
    + rewrite (syncCollection_skip existing c (st, totals) He). apply IH.
Qed.

(** The sync from the point where the host has returned its
    collections. *)
Lemma onSyncToSelected_loop (cs : list Collection.t) (w : Workspace.t)
    (st st0 : SyncState H) (h1 : H) (existing : list HostCollection.t) :
  existsb hasRules cs = true ->
  selectProject getCurrentProject projectsApi switchProject setCurrentProject w st
  = (st0, Returned tt) ->
  hostGetCollections (host st0) = (h1, Returned existing) ->
  synced cs (Some w) st
  = let (st2, totals) :=
      syncedCollections existing cs
        (mkSyncState h1 (calls st0 ++ [CallGetCollections])%list (syncToasts st0),
         mkTotals 0 0 []) in
    summary totals (Workspace.name w) st2.
Proof.
  intros Hrules Hsel Hget. unfold onSyncToSelected.
  destruct cs as [|c0 cs0]; [discriminate|]. cbn [List.length Nat.eqb].
  change (fun c => negb (Nat.eqb (List.length (Collection.rules c)) 0)) with hasRules.
  rewrite Hrules. cbn [negb]. rewrite Hsel, call_eq, Hget. reflexivity.
Qed.

Lemma summary_report (totals : Totals) (workspaceName : string) (st : SyncState H) :
  summary totals workspaceName st
  = mkSyncState (host st) (calls st)
      (syncToasts st
       ++ [syncReport (totalCollectionsSynced totals) (totalRulesSynced totals)
                      (failedCollections totals) workspaceName])%list.
Proof. unfold summary, syncReport, syncToast. now destruct (failedCollections totals). Qed.


(** C5.  In a sync that has got past its checks, selected the project
    and received the host's collections, every rule of a collection the
    host has created has its step, in the order of the rules and whatever
    happened to the rules before it: no call for a rule without section
    or name (the one case in which the translation fails); otherwise one
    [createRule], followed by [toggleRule] when the host resolved the
    creation.  The sync ends with one toast; the number of rules it
    reports is the number of [toggleRule] calls the host resolved, so a
    rule that was passed over or that the host rejected is not counted,
    and the number of collections it reports is the number of
    [createCollection] calls the host resolved.  On a host that resolves
    every call these are the collections with rules and a name and the
    rules with a section and a name; so one collection of five rules, the
    third without section, is reported as 4 rules synced. *)
Theorem onSyncToSelected_partial_failure (cs : list Collection.t) (w : Workspace.t)
    (st st0 : SyncState H) (h1 : H) (existing : list HostCollection.t) :
  existsb hasRules cs = true ->
  selectProject getCurrentProject projectsApi switchProject setCurrentProject w st
  = (st0, Returned tt) ->
  hostGetCollections (host st0) = (h1, Returned existing) ->
  let st' :=
    onSyncToSelected getCurrentProject projectsApi switchProject setCurrentProject
      hostGetCollections hostDeleteCollection hostCreateCollection hostCreateRule
      hostToggleRule cs (Some w) st in
  (exists turns failed,
     calls st' = (calls st0 ++ CallGetCollections :: concat turns)%list
     /\ inTurns (turnOf existing) (filter eligible cs) h1 turns
     /\ List.length failed + accepted isCreateCollection (concat turns) h1
        = List.length (filter eligible cs)
     /\ syncToasts st'
        = (syncToasts st0
           ++ [syncReport (accepted isCreateCollection (concat turns) h1)
                          (accepted isToggleRule (concat turns) h1)
                          failed (Workspace.name w)])%list)
  /\ ((forall id, alwaysResolves (hostDeleteCollection id)) ->
      (forall name, alwaysResolves (hostCreateCollection name)) ->
      (forall args, alwaysResolves (hostCreateRule args)) ->
      (forall id active, alwaysResolves (hostToggleRule id active)) ->
      syncToasts st'
      = (syncToasts st0
         ++ [syncReport (List.length (filter eligible cs)) (completeRules cs) []
                        (Workspace.name w)])%list
      /\ forall c r1 r2 r3 r4 r5,
           cs = [c] ->
           JS.blank (Collection.name c) = false ->
           Collection.rules c = [r1; r2; r3; r4; r5] ->
           complete r1 = true -> complete r2 = true ->
           truthyStr (Rule.section r3) = false ->
           complete r4 = true -> complete r5 = true ->
           syncToasts st'
           = (syncToasts st0
              ++ [mkToast ("Synced 1 collection(s) with 4 rule(s) to "
                           ++ quoted (Workspace.name w)) "success"])%list).
Proof.
  intros Hrules Hsel Hget. cbv zeta.
  rewrite (onSyncToSelected_loop cs w st st0 h1 existing Hrules Hsel Hget).
  set (st1 := mkSyncState h1 (calls st0 ++ [CallGetCollections])%list (syncToasts st0)).
  destruct (syncCollections_turns existing cs st1 (mkTotals 0 0 []))
    as [turns [failed [T1 [T2 [T3 [T4 [T5 [T6 [T7 T8]]]]]]]]].
  cbv zeta in T2, T3, T4, T5, T6, T7.
  cbn [host calls syncToasts st1 totalRulesSynced totalCollectionsSynced failedCollections
       app Nat.add] in T1, T2, T3, T4, T5, T6, T7, T8.
  pose proof (syncCollections_resolving existing cs st1 (mkTotals 0 0 [])) as Hres.
  destruct (syncedCollections existing cs (st1, mkTotals 0 0 [])) as [st2 totals].
  cbn [fst snd] in *. rewrite summary_report. cbn [syncToasts]. split.
  - exists turns, failed. cbn [calls].
    split; [now rewrite T2, <- app_assoc|].
    split; [exact T1|]. split; [exact T8|].
    now rewrite T4, T5, T6, T7.
  - intros Hdel Hcre Hrule Htog. rewrite (Hres Hdel Hcre Hrule Htog).
    cbn [totalRulesSynced totalCollectionsSynced failedCollections Nat.add].
    rewrite T4. split; [reflexivity|].
    intros c r1 r2 r3 r4 r5 -> Hname Hrs H1 H2 H3 H4 H5.
    assert (He : eligible c = true).
    { unfold eligible. rewrite Hrs. unfold JS.blank in Hname. now rewrite Hname. }
    unfold completeRules. cbn [filter]. rewrite He. cbn [map List.length list_sum].
    rewrite Hrs. cbn [filter]. unfold complete at 3. rewrite H1, H2, H3, H4, H5.
    reflexivity.
Qed.

End SyncRuns.


Lemma onSyncToSelected_partial_failure_witness :
  let cs := [Collection.mk "a" "Global Template" fiveRules] in
  let st := mkSyncState tt [] [] in
  let st0 := mkSyncState tt [CallGetCurrentProject; CallSwitch "p2"] [] in
  existsb hasRules cs = true
  /\ selectProject QuietHost.getCurrentProject HasSwitch QuietHost.switchProject
                   QuietHost.switchProject (Workspace.mk "p2" "Target") st
     = (st0, Returned tt)
  /\ QuietHost.getCollections (host st0)
     = (tt, Returned [HostCollection.mk "c0" "Global Template"])
  /\ (forall id, alwaysResolves (QuietHost.deleteCollection id))
  /\ (forall name, alwaysResolves (QuietHost.createCollection name))
  /\ (forall args, alwaysResolves (QuietHost.createRule args))
  /\ (forall id active, alwaysResolves (QuietHost.toggleRule id active))
  /\ syncToasts (quietSync cs)
     = [mkToast ("Synced 1 collection(s) with 4 rule(s) to " ++ quoted "Target") "success"].
Proof.
  cbv zeta.
  assert (Hrules : existsb hasRules [Collection.mk "a" "Global Template" fiveRules] = true)
    by reflexivity.
  assert (Hsel : selectProject QuietHost.getCurrentProject HasSwitch QuietHost.switchProject
                   QuietHost.switchProject (Workspace.mk "p2" "Target")
                   (mkSyncState tt [] [])
                 = (mkSyncState tt [CallGetCurrentProject; CallSwitch "p2"] [], Returned tt))
    by reflexivity.
  assert (Hget : QuietHost.getCollections
                   (host (mkSyncState tt [CallGetCurrentProject; CallSwitch "p2"] []))
                 = (tt, Returned [HostCollection.mk "c0" "Global Template"]))
    by reflexivity.
  split; [exact Hrules|]. split; [exact Hsel|]. split; [exact Hget|].
  split; [exact quiet_deleteCollection_resolves|].
  split; [exact quiet_createCollection_resolves|].
  split; [exact quiet_createRule_resolves|].
  split; [exact quiet_toggleRule_resolves|].
  exact (proj2 (proj2 (onSyncToSelected_partial_failure unit QuietHost.getCurrentProject
                         HasSwitch QuietHost.switchProject QuietHost.switchProject
                         QuietHost.getCollections QuietHost.deleteCollection
                         QuietHost.createCollection QuietHost.createRule QuietHost.toggleRule
                         [Collection.mk "a" "Global Template" fiveRules]
                         (Workspace.mk "p2" "Target") _ _ _ _ Hrules Hsel Hget)
                      quiet_deleteCollection_resolves quiet_createCollection_resolves
                      quiet_createRule_resolves quiet_toggleRule_resolves)
               (Collection.mk "a" "Global Template" fiveRules) _ _ _ _ _
               eq_refl eq_refl eq_refl eq_refl eq_refl eq_refl eq_refl eq_refl).
Defined.

(** A host with room for three more rules: of the four rules with a
    section the fourth is rejected, and so is the rule of the next
    collection; both are tried, neither is counted. *)
Example onSyncToSelected_quota :
  let st' := listSync localCollections (usedHost 4) in
  syncToasts st'
  = [mkToast ("Synced 2 collection(s) with 3 rule(s) to " ++ quoted "Target") "success"]
  /\ List.length (filter (fun c => match c with CallCreateRule _ => true | _ => false end)
                         (calls st')) = 5
  /\ List.length (filter isToggleRule (calls st')) = 3.
Proof. vm_compute. repeat split. Qed.

(* ================================================================== *)
(** * Further properties *)

(** ** Strings and helpers *)

Lemma dropWhiteSpace_trimStart (s : string) :
  dropWhiteSpace (JS.trimStart s) = dropWhiteSpace s.
Proof.
  induction s as [|c s IH]; cbn; [reflexivity|].
  destruct (JS.isWhiteSpace c) eqn:Hc; [exact IH|]. cbn. now rewrite Hc.
Qed.

Lemma dropWhiteSpace_trimEnd (s : string) :
  dropWhiteSpace (JS.trimEnd s) = dropWhiteSpace s.
Proof.
  induction s as [|c s IH]; cbn; [reflexivity|].
  destruct (JS.isWhiteSpace c) eqn:Hc; cbn.
  - destruct (JS.trimEnd s) eqn:Ht; cbn in *; [exact IH | now rewrite Hc].
  - now rewrite Hc, IH.
Qed.

Lemma dropWhiteSpace_spaceAfterTilde (s : string) :
  dropWhiteSpace (spaceAfterTilde s) = dropWhiteSpace s.
Proof.
  enough (H : dropWhiteSpace (spaceAfterTilde s) = dropWhiteSpace s
              /\ forall c, dropWhiteSpace (spaceAfterTilde (String c s))
                           = dropWhiteSpace (String c s)) by apply H.
  induction s as [|a s [IH1 IH2]].
  - split; [reflexivity | intros c; reflexivity].
  - split; [apply IH2|]. intros c.
    change (spaceAfterTilde (String c (String a s)))
      with (if Ascii.eqb c tilde && negb (JS.isWhiteSpace a)
            then String c (String space (String a (spaceAfterTilde s)))
            else String c (spaceAfterTilde (String a s))).
    destruct (Ascii.eqb c tilde && negb (JS.isWhiteSpace a)) eqn:Hcond.
    + apply andb_prop in Hcond as [Hc Ha]. apply Ascii.eqb_eq in Hc. subst c.
      apply negb_true_iff in Ha.
      cbn [dropWhiteSpace]. change (JS.isWhiteSpace tilde) with false.
      change (JS.isWhiteSpace space) with true. cbn iota. now rewrite Ha, IH1.
    + cbn [dropWhiteSpace]. now rewrite (IH2 a).
Qed.

Lemma dropWhiteSpace_spaceBeforeTilde (s : string) :
  dropWhiteSpace (spaceBeforeTilde s) = dropWhiteSpace s.
Proof.
  enough (H : dropWhiteSpace (spaceBeforeTilde s) = dropWhiteSpace s
              /\ forall c, dropWhiteSpace (spaceBeforeTilde (String c s))
                           = dropWhiteSpace (String c s)) by apply H.
  induction s as [|a s [IH1 IH2]].
  - split; [reflexivity | intros c; reflexivity].
  - split; [apply IH2|]. intros c.
    change (spaceBeforeTilde (String c (String a s)))
      with (if negb (JS.isWhiteSpace c) && Ascii.eqb a tilde
            then String c (String space (String a (spaceBeforeTilde s)))
            else String c (spaceBeforeTilde (String a s))).
    destruct (negb (JS.isWhiteSpace c) && Ascii.eqb a tilde) eqn:Hcond.
    + apply andb_prop in Hcond as [Hc Ha]. apply Ascii.eqb_eq in Ha. subst a.
      apply negb_true_iff in Hc.
      cbn [dropWhiteSpace]. change (JS.isWhiteSpace tilde) with false.
      change (JS.isWhiteSpace space) with true. cbn iota. now rewrite Hc, IH1.
    + cbn [dropWhiteSpace]. now rewrite (IH2 a).
Qed.

(** X1. [normalizeHttpqlQuery] only moves white space: the code units of
    its result that are not white space are those of the query, in the
    same order. *)
Theorem normalizeHttpqlQuery_content (query : string) :
  dropWhiteSpace (normalizeHttpqlQuery query) = dropWhiteSpace query.
Proof.
  unfold normalizeHttpqlQuery. destruct (JS.blank query) eqn:Hb.
  - rewrite blank_iff_allWhiteSpace in Hb. clear -Hb.
    induction query as [|c q IH]; cbn in *; [reflexivity|].
    apply andb_prop in Hb as [Hc Hq]. rewrite Hc. now apply IH.
  - rewrite dropWhiteSpace_spaceBeforeTilde, dropWhiteSpace_spaceAfterTilde.
    unfold JS.trim. now rewrite dropWhiteSpace_trimEnd, dropWhiteSpace_trimStart.
Qed.

Lemma trimEnd_idem (s : string) : JS.trimEnd (JS.trimEnd s) = JS.trimEnd s.
Proof.
  induction s as [|c s IH]; cbn; [reflexivity|].
  destruct (JS.isWhiteSpace c && JS.isEmpty (JS.trimEnd s)) eqn:Hc; [reflexivity|].
  cbn. now rewrite IH, Hc.
Qed.

Lemma trimStart_trimEnd_head (s : string) :
  match s with
  | EmptyString => True
  | String c _ => JS.isWhiteSpace c = false
  end ->
  JS.trimStart (JS.trimEnd s) = JS.trimEnd s.
Proof.
  destruct s as [|c s]; [reflexivity|]. intros Hc. cbn. rewrite Hc. cbn. now rewrite Hc.
Qed.

Lemma trim_idem (s : string) : JS.trim (JS.trim s) = JS.trim s.
Proof.
  unfold JS.trim. rewrite trimStart_trimEnd_head, trimEnd_idem; [reflexivity|].
  pose proof (trimStart_nonblank_head s) as Hh. now destruct (JS.trimStart s).
Qed.

Lemma trimEnd_app (a t : string) :
  JS.isEmpty (JS.trimEnd t) = false ->
  JS.trimEnd (a ++ t) = a ++ JS.trimEnd t.
Proof.
  intros Ht. induction a as [|c a IH]; cbn; [reflexivity|].
  rewrite IH. destruct (a ++ JS.trimEnd t) eqn:E.
  - destruct a; cbn in E; [rewrite E in Ht; discriminate | discriminate].
  - now rewrite andb_false_r.
Qed.

Lemma ensureGlobalPrefix_by_prefixCI (name : string) :
  ensureGlobalPrefix name
  = if prefixCI "global" (JS.trim name) then JS.trim name else "Global " ++ JS.trim name.
Proof.
  unfold ensureGlobalPrefix.
  now rewrite (startsWith_lower_prefixCI "global" (JS.trim name) eq_refl).
Qed.

(** X2. On a name that is not blank [ensureGlobalPrefix] is idempotent,
    and its result starts with ["global"] whatever the case. *)
Theorem ensureGlobalPrefix_idempotent (name : string) :
  JS.blank name = false ->
  ensureGlobalPrefix (ensureGlobalPrefix name) = ensureGlobalPrefix name
  /\ prefixCI "global" (ensureGlobalPrefix name) = true.
Proof.
  intros Hb.
  rewrite (ensureGlobalPrefix_by_prefixCI (ensureGlobalPrefix name)), (ensureGlobalPrefix_by_prefixCI name).
  destruct (prefixCI "global" (JS.trim name)) eqn:Hp.
  - rewrite trim_idem, Hp. split; reflexivity.
  - assert (Ht : JS.trim ("Global " ++ JS.trim name) = "Global " ++ JS.trim name).
    { unfold JS.trim at 1.
      change (JS.trimEnd ("Global " ++ JS.trim name) = "Global " ++ JS.trim name).
      rewrite trimEnd_app.
      - f_equal. unfold JS.trim. apply trimEnd_idem.
      - unfold JS.trim. rewrite trimEnd_idem. exact Hb. }
    rewrite Ht. split; reflexivity.
Qed.

Lemma ensureGlobalPrefix_idempotent_witness :
  JS.blank " template " = false
  /\ ensureGlobalPrefix (ensureGlobalPrefix " template ") = ensureGlobalPrefix " template "
  /\ prefixCI "global" (ensureGlobalPrefix " template ") = true.
Proof.
  split; [reflexivity|]. apply (ensureGlobalPrefix_idempotent " template "). reflexivity.
Defined.

(** On the blank name the second application removes the trailing space
    of the first. *)
Example ensureGlobalPrefix_blank :
  ensureGlobalPrefix " " = "Global " /\ ensureGlobalPrefix (ensureGlobalPrefix " ") = "Global".
Proof. split; reflexivity. Qed.

(** ** Store operations *)

Section StoreMore.

Variable B : Type.
Variable saveCollections : list Collection.t -> B -> B * Outcome (Result unit).
Variable saveSelectedCollectionId : string -> B -> B * Outcome (Result unit).

Lemma find_updateFirst_same (x : string) (f : Collection.t -> Collection.t)
    (cs : list Collection.t) :
  (forall c, Collection.id (f c) = Collection.id c) ->
  find (hasId x) (updateFirst x f cs) = option_map f (find (hasId x) cs).
Proof.
  intros Hf. induction cs as [|c t IH]; cbn; [reflexivity|].
  destruct (hasId x c) eqn:Hc; cbn.
  - unfold hasId in *. now rewrite Hf, Hc.
  - now rewrite Hc.
Qed.

Lemma find_updateFirst_other (x y : string) (f : Collection.t -> Collection.t)
    (cs : list Collection.t) :
  (forall c, Collection.id (f c) = Collection.id c) ->
  x <> y ->
  find (hasId x) (updateFirst y f cs) = find (hasId x) cs.
Proof.
  intros Hf Hxy. induction cs as [|c t IH]; cbn; [reflexivity|].
  destruct (hasId y c) eqn:Hy; cbn.
  - unfold hasId in *. rewrite Hf. apply String.eqb_eq in Hy.
    destruct (String.eqb (Collection.id c) x) eqn:Hx; [|reflexivity].
    apply String.eqb_eq in Hx. congruence.
  - now rewrite IH.
Qed.

Lemma selectedCollection_some (st : Store B) (c : Collection.t) :
  selectedCollection st = Some c ->
  selectedCollectionId st = Some (Collection.id c)
  /\ JS.isEmpty (Collection.id c) = false
  /\ find (hasId (Collection.id c)) (collections st) = Some c.
Proof.
  unfold selectedCollection. destruct (selectedCollectionId st) as [sel|]; [|discriminate].
  destruct (JS.isEmpty sel) eqn:He; [discriminate|]. intros Hf.
  pose proof (find_some _ _ Hf) as [_ Hid]. apply String.eqb_eq in Hid. subst sel. auto.
Qed.

Lemma selectedCollection_rules (st : Store B) (c : Collection.t) :
  selectedCollection st = Some c -> rules st = Collection.rules c.
Proof.
  intros [Hsel [_ Hf]]%selectedCollection_some. unfold rules. now rewrite Hsel, Hf.
Qed.

Lemma selectedCollection_none (st : Store B) :
  selectedCollectionId st <> Some EmptyString ->
  selectedCollection st = None -> rules st = [].
Proof.
  unfold selectedCollection, rules. destruct (selectedCollectionId st) as [[|ch sel]|];
    [congruence| |reflexivity].
  cbn. now intros _ ->.
Qed.

(** The store after the rules of the selected collection were replaced. *)
Lemma replaced_rules (st : Store B) (c : Collection.t) (rs : list Rule.t) :
  selectedCollection st = Some c ->
  selectedCollection
    (persist saveCollections saveSelectedCollectionId
       (setCollections (updateFirst (Collection.id c) (setRules rs) (collections st)) st))
  = Some (setRules rs c).
Proof.
  intros [Hsel [He Hf]]%selectedCollection_some. unfold selectedCollection.
  rewrite persist_selected, persist_collections. cbn. rewrite Hsel, He.
  rewrite find_updateFirst_same by reflexivity. now rewrite Hf.
Qed.

(** X3. [persist] changes nothing but the backend and the toasts, of
    which it adds at most one, an error. *)
Theorem persist_frame (st : Store B) :
  let st' := persist saveCollections saveSelectedCollectionId st in
  collections st' = collections st
  /\ selectedCollectionId st' = selectedCollectionId st
  /\ newCollectionName st' = newCollectionName st
  /\ editingRuleId st' = editingRuleId st
  /\ editingRuleName st' = editingRuleName st
  /\ exists shown,
       toasts st' = (toasts st ++ shown)%list
       /\ List.length shown <= 1
       /\ Forall (fun t => variant t = "error") shown.
Proof.
  cbv zeta. destruct st as [cs sel n rid rn ts b]. unfold persist. cbn.
  destruct (saveCollections cs b) as [b1 [[u|err]|e]]; cbn.
  - destruct sel as [sel|]; cbn.
    + destruct (JS.isEmpty sel).
      * repeat split; try reflexivity. exists []. rewrite app_nil_r. split; [reflexivity|]. split; [cbn; lia | constructor].
      * destruct (saveSelectedCollectionId sel b1) as [b2 [[u'|err]|e]]; cbn;
          repeat split; try reflexivity.
        -- exists []. rewrite app_nil_r. split; [reflexivity|]. split; [cbn; lia | constructor].
        -- eexists. split; [reflexivity|]. split; [cbn; lia | repeat constructor].
        -- eexists. split; [reflexivity|]. split; [cbn; lia | repeat constructor].
    + repeat split; try reflexivity. exists []. rewrite app_nil_r. split; [reflexivity|]. split; [cbn; lia | constructor].
  - repeat split; try reflexivity.
    eexists. split; [reflexivity|]. split; [cbn; lia | repeat constructor].
  - repeat split; try reflexivity.
    eexists. split; [reflexivity|]. split; [cbn; lia | repeat constructor].
Qed.

Lemma find_app_fresh (x : string) (cs : list Collection.t) (c : Collection.t) :
  ~ In x (map Collection.id cs) ->
  Collection.id c = x ->
  find (hasId x) (cs ++ [c]) = Some c.
Proof.
  intros Hn Hc. induction cs as [|a t IH]; cbn.
  - unfold hasId. now rewrite Hc, String.eqb_refl.
  - unfold hasId at 1. destruct (String.eqb (Collection.id a) x) eqn:E.
    + apply String.eqb_eq in E. cbn in Hn. tauto.
    + apply IH. cbn in Hn. tauto.
Qed.

(** X4. Creating a collection under an unused identifier and deleting
    it again gives back the list of collections; the selection falls on
    the first collection. *)
Theorem create_then_delete (freshId : string) (st : Store B) :
  JS.blank (newCollectionName st) = false ->
  ~ In freshId (collectionIds st) ->
  collections st <> [] ->
  let st' :=
    deleteCollection saveCollections saveSelectedCollectionId freshId
      (createCollection saveCollections saveSelectedCollectionId freshId st) in
  collections st' = collections st
  /\ selectedCollectionId st' = firstId (collections st).
Proof.
  intros Hb Hfresh Hne. cbv zeta.
  unfold createCollection. rewrite Hb.
  set (new := Collection.mk freshId (ensureGlobalPrefix (newCollectionName st)) []).
  unfold deleteCollection. cbn [collections showToast].
  rewrite persist_collections. cbn [collections setNewCollectionName setSelected setCollections].
  rewrite length_app. cbn [List.length].
  destruct (collections st) as [|c0 cs0] eqn:Hcs; [contradiction|].
  replace (List.length (c0 :: cs0) + 1 <=? 1)%nat with false
    by (symmetry; apply Nat.leb_gt; cbn; lia).
  rewrite <- Hcs in *.
  rewrite (find_app_fresh freshId (collections st) new Hfresh eq_refl).
  cbn [collections selectedCollectionId showToast setCollections].
  rewrite persist_selected. cbn [selectedCollectionId setNewCollectionName setSelected
                                 setCollections showToast strictEq].
  rewrite String.eqb_refl. rewrite persist_collections, persist_selected.
  cbn [collections selectedCollectionId setSelected setCollections].
  assert (Hnew : hasId freshId new = true) by apply String.eqb_refl.
  rewrite filter_app. cbn [filter]. rewrite Hnew. cbn [negb]. rewrite app_nil_r.
  rewrite (filter_other_ids B saveCollections saveSelectedCollectionId) by exact Hfresh.
  split; reflexivity.
Qed.

End StoreMore.

Section StoreRules.

Variable B : Type.
Variable saveCollections : list Collection.t -> B -> B * Outcome (Result unit).
Variable saveSelectedCollectionId : string -> B -> B * Outcome (Result unit).

Lemma rules_replaced (st : Store B) (c : Collection.t) (rs : list Rule.t) :
  selectedCollection st = Some c ->
  rules (persist saveCollections saveSelectedCollectionId
           (setCollections (updateFirst (Collection.id c) (setRules rs) (collections st)) st))
  = rs.
Proof.
  intros Hc.
  now rewrite (selectedCollection_rules B _ _
                 (replaced_rules B saveCollections saveSelectedCollectionId st c rs Hc)).
Qed.

(** X5. With a selection that is not the empty string, [removeRule]
    leaves in the displayed rules exactly those with another identifier,
    in their order. *)
Theorem removeRule_rules (id : string) (st : Store B) :
  selectedCollectionId st <> Some EmptyString ->
  rules (removeRule saveCollections saveSelectedCollectionId id st)
  = filter (fun r => negb (ruleHasId id r)) (rules st).
Proof.
  intros Hsel. unfold removeRule. destruct (selectedCollection st) as [c|] eqn:Hc.
  - rewrite (rules_replaced st c _ Hc). now rewrite (selectedCollection_rules B st c Hc).
  - now rewrite (selectedCollection_none B st Hsel Hc).
Qed.

(** X6. An operation that neither creates nor deletes a collection
    leaves every collection but the selected one as it is. *)
Theorem runOp_other_collections (op : StoreOp) (st : Store B) (x : string) :
  changesCollectionList op = false ->
  selectedCollectionId st <> Some x ->
  find (hasId x) (collections (runOp saveCollections saveSelectedCollectionId op st))
  = find (hasId x) (collections st).
Proof.
  intros Hop Hx.
  assert (Hupd : forall c f,
             selectedCollection st = Some c ->
             (forall c', Collection.id (f c') = Collection.id c') ->
             find (hasId x) (updateFirst (Collection.id c) f (collections st))
             = find (hasId x) (collections st)).
  { intros c f [Hsel _]%selectedCollection_some Hf.
    apply find_updateFirst_other; [exact Hf | congruence]. }
  destruct op as [freshId rawName|y|sel|imported toast|rid|rid value|rule| |rid];
    try discriminate Hop; cbn [runOp].
  - unfold switchCollection. destruct (truthyStr sel); [|reflexivity].
    now rewrite persist_collections.
  - unfold addRules. destruct (selectedCollection st) as [c|] eqn:Hc; [|reflexivity].
    cbn. rewrite persist_collections. cbn. now apply Hupd.
  - unfold removeRule. destruct (selectedCollection st) as [c|] eqn:Hc; [|reflexivity].
    rewrite persist_collections. cbn. now apply Hupd.
  - unfold toggleActive. destruct (selectedCollection st) as [c|] eqn:Hc; [|reflexivity].
    destruct (find _ (Collection.rules c)); [|reflexivity].
    rewrite persist_collections. cbn. now apply Hupd.
  - reflexivity.
  - reflexivity.
  - unfold saveRuleName. destruct (selectedCollection st) as [c|] eqn:Hc; [|reflexivity].
    destruct (find _ (Collection.rules c)); [|reflexivity].
    destruct (editingRuleName st) as [text|]; [|reflexivity].
    destruct (negb (JS.blank _)); [|reflexivity].
    cbn. rewrite persist_collections. cbn. now apply Hupd.
Qed.

Lemma updateFirstRule_absent (id : string) (f : Rule.t -> Rule.t) (rs : list Rule.t) :
  find (ruleHasId id) rs = None -> updateFirstRule id f rs = rs.
Proof.
  induction rs as [|r t IH]; cbn; [reflexivity|].
  destruct (ruleHasId id r); [discriminate|]. intros Hf. now rewrite IH.
Qed.

Lemma find_updateFirstRule (id id' : string) (f : Rule.t -> Rule.t) (rs : list Rule.t) :
  (forall r, Rule.id (f r) = Rule.id r) ->
  find (ruleHasId id') (updateFirstRule id f rs)
  = if String.eqb id' id then option_map f (find (ruleHasId id) rs)
    else find (ruleHasId id') rs.
Proof.
  intros Hf. induction rs as [|r t IH]; cbn.
  - now destruct (String.eqb id' id).
  - destruct (ruleHasId id r) eqn:Hr; cbn.
    + unfold ruleHasId in *. rewrite Hf. apply String.eqb_eq in Hr. rewrite Hr.
      rewrite (String.eqb_sym id id'). now destruct (String.eqb id' id).
    + rewrite IH. unfold ruleHasId in *.
      destruct (String.eqb (Rule.id r) id') eqn:Hr'; [|reflexivity].
      apply String.eqb_eq in Hr'. subst id'. now rewrite Hr.
Qed.

Lemma updateFirstRule_ids (id : string) (f : Rule.t -> Rule.t) (rs : list Rule.t) :
  (forall r, Rule.id (f r) = Rule.id r) ->
  map Rule.id (updateFirstRule id f rs) = map Rule.id rs.
Proof.
  intros Hf. induction rs as [|r t IH]; cbn; [reflexivity|].
  destruct (ruleHasId id r); cbn; [now rewrite Hf | now rewrite IH].
Qed.

Lemma toggleActive_rules (id : string) (value : bool) (st : Store B) :
  selectedCollectionId st <> Some EmptyString ->
  rules (toggleActive saveCollections saveSelectedCollectionId id value st)
  = updateFirstRule id (setActive value) (rules st).
Proof.
  intros Hsel. unfold toggleActive. destruct (selectedCollection st) as [c|] eqn:Hc.
  - rewrite (selectedCollection_rules B st c Hc).
    destruct (find (ruleHasId id) (Collection.rules c)) eqn:Hf.
    + now rewrite (rules_replaced st c _ Hc).
    + rewrite (updateFirstRule_absent id _ _ Hf). now apply selectedCollection_rules.
  - now rewrite (selectedCollection_none B st Hsel Hc).
Qed.

(** X7. With a selection that is not the empty string, [toggleActive]
    sets the flag of the first displayed rule of the given identifier and
    touches nothing else: the rules keep their identifiers and order, and
    a lookup by any other identifier finds what it found before. *)
Theorem toggleActive_effect (id : string) (value : bool) (st : Store B) :
  selectedCollectionId st <> Some EmptyString ->
  let st' := toggleActive saveCollections saveSelectedCollectionId id value st in
  map Rule.id (rules st') = map Rule.id (rules st)
  /\ find (ruleHasId id) (rules st')
     = option_map (setActive value) (find (ruleHasId id) (rules st))
  /\ forall id', id' <> id ->
                 find (ruleHasId id') (rules st') = find (ruleHasId id') (rules st).
Proof.
  intros Hsel. cbv zeta. rewrite (toggleActive_rules id value st Hsel).
  split; [now apply updateFirstRule_ids|]. split.
  - rewrite find_updateFirstRule by reflexivity. now rewrite String.eqb_refl.
  - intros id' Hneq. rewrite find_updateFirstRule by reflexivity.
    destruct (String.eqb id' id) eqn:E; [|reflexivity].
    apply String.eqb_eq in E. contradiction.
Qed.

Lemma In_updateFirstRule (id : string) (f : Rule.t -> Rule.t) (rs : list Rule.t) (r : Rule.t) :
  In r (updateFirstRule id f rs) ->
  In r rs \/ exists r0, In r0 rs /\ ruleHasId id r0 = true /\ r = f r0.
Proof.
  induction rs as [|a t IH]; cbn; [tauto|].
  destruct (ruleHasId id a) eqn:Ha; cbn.
  - intros [<-|Hin]; [right; exists a; auto | left; now right].
  - intros [<-|Hin]; [left; now left|].
    destruct (IH Hin) as [H|[r0 [H0 [H1 H2]]]]; [left; now right|].
    right. exists r0. auto.
Qed.

(** X8. [saveRuleName] never stores a blank or untrimmed name: a
    displayed rule after it is a rule displayed before, or carries the
    trimmed, non-blank text of the name editor. *)
Theorem saveRuleName_names (ruleId : string) (st : Store B) (r : Rule.t) :
  In r (rules (saveRuleName saveCollections saveSelectedCollectionId ruleId st)) ->
  In r (rules st)
  \/ exists text,
       editingRuleName st = Some text
       /\ Rule.id r = ruleId
       /\ Rule.name r = Some (JS.trim text)
       /\ JS.blank text = false
       /\ JS.trim (JS.trim text) = JS.trim text.
Proof.
  unfold saveRuleName. destruct (selectedCollection st) as [c|] eqn:Hc; [|now left].
  destruct (find (ruleHasId ruleId) (Collection.rules c)); [|now left].
  destruct (editingRuleName st) as [text|] eqn:Htext; [|now left].
  destruct (JS.blank text) eqn:Hb; cbn [negb]; [now left|].
  assert (Hr : rules (showToast "Rule name updated" "success"
                        (setEditing None (Some EmptyString)
                           (persist saveCollections saveSelectedCollectionId
                              (setCollections
                                 (updateFirst (Collection.id c)
                                    (setRules (updateFirstRule ruleId
                                                 (setName (JS.trim text))
                                                 (Collection.rules c)))
                                    (collections st)) st))))
               = updateFirstRule ruleId (setName (JS.trim text)) (Collection.rules c)).
  { etransitivity; [|exact (rules_replaced st c _ Hc)]. reflexivity. }
  cbn zeta. rewrite Hr. rewrite (selectedCollection_rules B st c Hc).
  intros [Hin | [r0 [_ [Hid ->]]]]%In_updateFirstRule; [now left|].
  right. exists text. apply String.eqb_eq in Hid. cbn. repeat split; auto using trim_idem.
Qed.

End StoreRules.

Lemma removeRule_rules_witness :
  selectedCollectionId workingStore <> Some EmptyString
  /\ rules (removeRule acceptCollections acceptSelected "1" workingStore)
     = filter (fun r => negb (ruleHasId "1" r)) (rules workingStore)
  /\ rules workingStore
     = [headerRule "1" (Some "RequestHeader"); headerRule "2" (Some "ResponseBody");
        headerRule "1" (Some "RequestPath")]
  /\ rules (removeRule acceptCollections acceptSelected "1" workingStore)
     = [headerRule "2" (Some "ResponseBody")].
Proof.
  assert (Hsel : selectedCollectionId workingStore <> Some EmptyString) by discriminate.
  split; [exact Hsel|].
  split; [exact (removeRule_rules unit acceptCollections acceptSelected "1" workingStore Hsel)|].
  split; reflexivity.
Defined.

Lemma runOp_other_collections_witness :
  changesCollectionList (OpRemoveRule "1") = false
  /\ selectedCollectionId workingStore <> Some "b"
  /\ find (hasId "b") (collections (runOp acceptCollections acceptSelected
                                          (OpRemoveRule "1") workingStore))
     = find (hasId "b") (collections workingStore)
  /\ find (hasId "b") (collections workingStore)
     = Some (Collection.mk "b" "Global Other" [headerRule "1" (Some "RequestQuery")])
  /\ collections (runOp acceptCollections acceptSelected (OpRemoveRule "1") workingStore)
     <> collections workingStore.
Proof.
  assert (Hsel : selectedCollectionId workingStore <> Some "b") by discriminate.
  split; [reflexivity|]. split; [exact Hsel|].
  split; [exact (runOp_other_collections unit acceptCollections acceptSelected
                   (OpRemoveRule "1") workingStore "b" eq_refl Hsel)|].
  split; [reflexivity|discriminate].
Defined.

Lemma toggleActive_effect_witness :
  let st' := toggleActive acceptCollections acceptSelected "1" false workingStore in
  selectedCollectionId workingStore <> Some EmptyString
  /\ (map Rule.id (rules st') = map Rule.id (rules workingStore)
      /\ find (ruleHasId "1") (rules st')
         = option_map (setActive false) (find (ruleHasId "1") (rules workingStore))
      /\ forall id', id' <> "1" ->
                     find (ruleHasId id') (rules st') = find (ruleHasId id') (rules workingStore))
  /\ rules st'
     = [setActive false (headerRule "1" (Some "RequestHeader"));
        headerRule "2" (Some "ResponseBody"); headerRule "1" (Some "RequestPath")].
Proof.
  cbv zeta.
  assert (Hsel : selectedCollectionId workingStore <> Some EmptyString) by discriminate.
  split; [exact Hsel|].
  split; [exact (toggleActive_effect unit acceptCollections acceptSelected "1" false
                   workingStore Hsel)|].
  reflexivity.
Defined.

(** ** Import from files *)

Lemma parseGraphQLRule_id (freshId : string) (item : json) (r : Rule.t) :
  parseGraphQLRule freshId item = Some r -> Rule.id r = freshId.
Proof.
  unfold parseGraphQLRule. destruct (JS.isEmpty _); [discriminate|].
  destruct (parseSection item); [|discriminate]. now intros [= <-].
Qed.

Lemma importFlat_id (freshId : string) (item : json) (r : Rule.t) :
  importFlat freshId item = Some r -> Rule.id r = freshId.
Proof.
  unfold importFlat.
  destruct (Json.prop item "name") as [[]|]; try discriminate.
  destruct (Json.prop item "section") as [[]|]; try discriminate.
  destruct (Json.prop item "matcher") as [[]|]; try discriminate.
  destruct (Json.prop item "value") as [[]|]; try discriminate.
  now intros [= <-].
Qed.

Lemma importItem_id (freshId : string) (item : json) (r : Rule.t) :
  importItem freshId item = Some r -> Rule.id r = freshId.
Proof.
  unfold importItem. destruct item; try discriminate.
  destruct (isHostShaped _); [|apply importFlat_id].
  destruct (parseGraphQLRule freshId _) eqn:Hp; [|apply importFlat_id].
  intros [= <-]. now apply parseGraphQLRule_id in Hp.
Qed.

(** Whether an item gives a rule does not depend on the identifier. *)
Lemma importItem_accepts (id1 id2 : string) (item : json) :
  importItem id1 item = None <-> importItem id2 item = None.
Proof.
  assert (Hp : parseGraphQLRule id1 item = None <-> parseGraphQLRule id2 item = None).
  { unfold parseGraphQLRule. destruct (JS.isEmpty _); [tauto|].
    destruct (parseSection item); split; intros; [discriminate| discriminate| reflexivity..]. }
  assert (Hf : importFlat id1 item = None <-> importFlat id2 item = None).
  { unfold importFlat.
    destruct (Json.prop item "name") as [[]|]; try tauto.
    destruct (Json.prop item "section") as [[]|]; try tauto.
    destruct (Json.prop item "matcher") as [[]|]; try tauto.
    destruct (Json.prop item "value") as [[]|]; try tauto.
    split; discriminate. }
  unfold importItem. destruct item; try tauto.
  all: destruct (isHostShaped _); [|exact Hf].
  all: destruct (parseGraphQLRule id1 _), (parseGraphQLRule id2 _); try exact Hf.
  all: try (split; discriminate).
  all: try (destruct Hp as [_ Hp]; specialize (Hp eq_refl); discriminate).
  all: destruct Hp as [Hp _]; specialize (Hp eq_refl); discriminate.
Qed.

Lemma importItems_length (ids1 ids2 : nat -> string) (k1 k2 : nat) (items : list json) :
  List.length (importItems ids1 k1 items) = List.length (importItems ids2 k2 items).
Proof.
  revert k1 k2. induction items as [|item rest IH]; intros k1 k2; cbn; [reflexivity|].
  pose proof (importItem_accepts (ids1 k1) (ids2 k2) item) as Ha.
  destruct (importItem (ids1 k1) item), (importItem (ids2 k2) item); cbn.
  - f_equal. apply IH.
  - destruct Ha as [_ Ha]. specialize (Ha eq_refl). discriminate.
  - destruct Ha as [Ha _]. specialize (Ha eq_refl). discriminate.
  - apply IH.
Qed.

Lemma importItems_ids (ids : nat -> string) (k : nat) (items : list json) (r : Rule.t) :
  In r (importItems ids k items) ->
  exists j, k <= j /\ j < k + List.length items /\ Rule.id r = ids j.
Proof.
  revert k. induction items as [|item rest IH]; intros k; cbn; [tauto|].
  destruct (importItem (ids k) item) eqn:Hi.
  - intros [<-|Hin].
    + exists k. split; [lia|]. split; [lia|]. now apply importItem_id in Hi.
    + destruct (IH (S k) Hin) as [j [H1 [H2 H3]]]. exists j. repeat split; [lia|lia|exact H3].
  - intros Hin. destruct (IH (S k) Hin) as [j [H1 [H2 H3]]].
    exists j. repeat split; [lia|lia|exact H3].
Qed.

Lemma importItems_NoDup (ids : nat -> string) (k : nat) (items : list json) :
  (forall i j, ids i = ids j -> i = j) ->
  NoDup (map Rule.id (importItems ids k items)).
Proof.
  intros Hinj. revert k. induction items as [|item rest IH]; intros k; cbn; [constructor|].
  destruct (importItem (ids k) item) eqn:Hi; [|apply IH].
  cbn. constructor; [|apply IH].
  intros [r' [Hid Hin]]%in_map_iff.
  destruct (importItems_ids ids (S k) rest r' Hin) as [j [H1 [_ H3]]].
  apply importItem_id in Hi. rewrite Hi, H3 in Hid. apply Hinj in Hid. lia.
Qed.

Section ImportProperties.

Variable JSON_parse : string -> Outcome json.

Lemma importFiles_ids (ids : nat -> nat -> string) (f : nat) (files : list (Outcome string))
    (r : Rule.t) :
  In r (fst (importFiles JSON_parse ids f files)) ->
  exists f' k, f <= f' /\ Rule.id r = ids f' k.
Proof.
  revert f. induction files as [|file rest IH]; intros f; cbn; [tauto|].
  specialize (IH (S f)).
  destruct (importFiles JSON_parse ids (S f) rest) as [rs n]. cbn in IH.
  assert (Hrest : In r rs -> exists f' k, f <= f' /\ Rule.id r = ids f' k).
  { intros Hin. destruct (IH Hin) as [f' [k [H1 H2]]]. exists f', k. split; [lia|exact H2]. }
  destruct file as [text|e]; [|exact Hrest].
  destruct (JSON_parse text) as [parsed|e]; [|exact Hrest].
  cbn. intros [Hin|Hin]%in_app_or; [|now apply Hrest].
  destruct (importItems_ids (ids f) 0 _ r Hin) as [j [_ [_ Hj]]]. exists f, j. auto.
Qed.

(** X9. When the source of identifiers never repeats itself, the rules
    one import action gathers from all its files have pairwise distinct
    identifiers, whatever [id] the items carry. *)
Theorem importFiles_distinct_ids (ids : nat -> nat -> string) (files : list (Outcome string)) :
  (forall f k f' k', ids f k = ids f' k' -> f = f' /\ k = k') ->
  NoDup (map Rule.id (fst (importFiles JSON_parse ids 0 files))).
Proof.
  intros Hinj. generalize 0 as f. induction files as [|file rest IH]; intros f; cbn;
    [constructor|].
  specialize (IH (S f)). pose proof (importFiles_ids ids (S f) rest) as Hids.
  destruct (importFiles JSON_parse ids (S f) rest) as [rs n]. cbn in IH, Hids.
  destruct file as [text|e]; [|exact IH].
  destruct (JSON_parse text) as [parsed|e]; [|exact IH].
  cbn. rewrite map_app. apply NoDup_app; [|exact IH|].
  - apply importItems_NoDup. intros i j Hij. now apply Hinj in Hij.
  - intros x [r1 [<- Hin1]]%in_map_iff [r2 [Heq Hin2]]%in_map_iff.
    destruct (importItems_ids (ids f) 0 _ r1 Hin1) as [j [_ [_ Hj]]].
    destruct (Hids r2 Hin2) as [f' [k [Hf' Hk]]].
    rewrite Hj, Hk in Heq. apply Hinj in Heq. lia.
Qed.

Lemma importFiles_length (ids1 ids2 : nat -> nat -> string) (f1 f2 : nat)
    (files : list (Outcome string)) :
  List.length (fst (importFiles JSON_parse ids1 f1 files))
  = List.length (fst (importFiles JSON_parse ids2 f2 files)).
Proof.
  revert f1 f2. induction files as [|file rest IH]; intros f1 f2; cbn; [reflexivity|].
  specialize (IH (S f1) (S f2)).
  destruct (importFiles JSON_parse ids1 (S f1) rest) as [rs1 n1].
  destruct (importFiles JSON_parse ids2 (S f2) rest) as [rs2 n2]. cbn in IH.
  destruct file as [text|e]; [|exact IH].
  destruct (JSON_parse text) as [parsed|e]; [|exact IH].
  cbn. rewrite !length_app, IH. f_equal. apply importItems_length.
Qed.

Variable B : Type.
Variable saveCollections : list Collection.t -> B -> B * Outcome (Result unit).
Variable saveSelectedCollectionId : string -> B -> B * Outcome (Result unit).

Lemma importFromFile_selected (ids : nat -> nat -> string) (files : list (Outcome string))
    (st : Store B) (c : Collection.t) :
  selectedCollection st = Some c ->
  selectedCollection
    (importFromFile JSON_parse saveCollections saveSelectedCollectionId ids (Some files) st)
  = Some (setRules (Collection.rules c ++ fst (importFiles JSON_parse ids 0 files)) c).
Proof.
  intros Hc. destruct (selectedCollection_some B st c Hc) as [Hsel [He _]].
  assert (Hsame : Some c = Some (setRules (Collection.rules c ++ []) c)).
  { destruct c. unfold setRules. cbn. now rewrite app_nil_r. }
  unfold importFromFile. destruct files as [|file rest].
  - cbn. now rewrite Hc.
  - unfold truthyStr. rewrite Hsel, He. cbn [negb].
    destruct (importFiles JSON_parse ids 0 (file :: rest)) as [rs n]. cbn [fst].
    destruct rs as [|r0 rs].
    + cbn. change (selectedCollection (showToast _ _ st)) with (selectedCollection st).
      now rewrite Hc.
    + cbn [List.length Nat.eqb]. unfold addRules. rewrite Hc.
      etransitivity;
        [|exact (replaced_rules B saveCollections saveSelectedCollectionId st c _ Hc)].
      reflexivity.
Qed.

(** X10. With a collection selected, importing the same files twice
    appends their rules twice: the displayed rules are the old ones, then
    the rules of the first import, then those of the second, and their
    number grows by twice the number of rules recognised. *)
Theorem importFromFile_twice (ids1 ids2 : nat -> nat -> string)
    (files : list (Outcome string)) (st : Store B) (c : Collection.t) :
  selectedCollection st = Some c ->
  let import ids :=
    importFromFile JSON_parse saveCollections saveSelectedCollectionId ids (Some files) in
  let first := fst (importFiles JSON_parse ids1 0 files) in
  let second := fst (importFiles JSON_parse ids2 0 files) in
  rules (import ids1 st) = (rules st ++ first)%list
  /\ rules (import ids2 (import ids1 st)) = (rules st ++ first ++ second)%list
  /\ List.length (rules (import ids2 (import ids1 st)))
     = List.length (rules st) + 2 * List.length first.
Proof.
  intros Hc. cbv beta zeta.
  pose proof (importFromFile_selected ids1 files st c Hc) as H1.
  pose proof (importFromFile_selected ids2 files _ _ H1) as H2.
  rewrite (selectedCollection_rules B _ _ H1), (selectedCollection_rules B _ _ H2).
  rewrite (selectedCollection_rules B _ _ Hc). cbn [setRules Collection.rules].
  split; [reflexivity|]. split; [now rewrite app_assoc|].
  rewrite !length_app, (importFiles_length ids2 ids1 0 0 files). lia.
Qed.

End ImportProperties.

(** X11. An item that carries a truthy [__typename] and a non-empty name
    but whose [section] is not an object (a flat rule, say) is read as a
    host rule: it is imported as a [RequestHeader] rule with empty
    matcher and value, whatever its [section], [matcher] and [value]
    say. *)
Theorem importItem_typename_flat (freshId : string) (item : json) (name : string) :
  Json.truthy (Json.prop item "__typename") = true ->
  Json.prop item "name" = Some (JStr name) ->
  JS.isEmpty name = false ->
  Json.asObject (Json.prop item "section") = None ->
  exists r,
    importItem freshId item = Some r
    /\ Rule.name r = Some name
    /\ Rule.section r = Some "RequestHeader"
    /\ Rule.matcher r = Some EmptyString
    /\ Rule.value r = Some EmptyString
    /\ Rule.matcherType r = Some "regex"
    /\ Rule.replacerType r = Some "term".
Proof.
  intros Ht Hn He Hs.
  assert (Hp : exists r, parseGraphQLRule freshId item = Some r
                         /\ Rule.name r = Some name
                         /\ Rule.section r = Some "RequestHeader"
                         /\ Rule.matcher r = Some EmptyString
                         /\ Rule.value r = Some EmptyString
                         /\ Rule.matcherType r = Some "regex"
                         /\ Rule.replacerType r = Some "term").
  { unfold parseGraphQLRule, parseSection. rewrite Hn. cbn [Json.stringOr]. rewrite He, Hs.
    eexists. split; [reflexivity|]. repeat split; reflexivity. }
  destruct Hp as [r [Hp Hr]]. exists r. split; [|exact Hr].
  unfold importItem, isHostShaped. rewrite Ht. cbn [orb].
  destruct item; try discriminate Hn; now rewrite Hp.
Qed.

(** ** Rules read from host-shaped items *)

Lemma sectionTypeOf_in (inc : string -> bool) : In (sectionTypeOf inc) sectionNames.
Proof.
  unfold sectionTypeOf, sectionNames.
  repeat match goal with
         | |- context [if ?b then _ else _] => destruct b
         end; cbn; auto 10.
Qed.

Lemma parseRawMatcher_type (raw : json) (x : string * string) :
  parseRawMatcher raw = Some x -> isRawMatcherType (fst x) = true.
Proof.
  unfold parseRawMatcher. destruct (Json.includesMethod _); [|discriminate].
  repeat match goal with
         | |- context [if ?b then _ else _] => destruct b
         end; intros [= <-]; reflexivity.
Qed.

Lemma parseMatcher_type (m : json) (x : string * string) :
  parseMatcher m = Some x -> isRawMatcherType (fst x) = true.
Proof.
  unfold parseMatcher. destruct (Json.includesMethod _); [|discriminate].
  repeat match goal with
         | |- context [if ?b then _ else _] => destruct b
         end; try (intros [= <-]; reflexivity).
  - destruct (Json.asObject _); [apply parseRawMatcher_type | intros [= <-]; reflexivity].
  - destruct (Json.prop m "regex") as [[]|]; try (intros [= <-]; reflexivity);
      destruct (Json.prop m "name") as [[]|]; intros [= <-]; reflexivity.
Qed.

Lemma parseReplacer_shape (p : json) (rt v : string) (w : option string) :
  parseReplacer p = Some (rt, v, w) ->
  (rt = "term" /\ w = None) \/ (rt = "workflow" /\ v = EmptyString).
Proof.
  unfold parseReplacer. destruct (Json.includesMethod _); [|discriminate].
  repeat match goal with
         | |- context [if ?b then _ else _] => destruct b
         end; intros [= <- <- <-]; auto.
Qed.

Lemma parseSection_wellformed (item : json) (p : Parsed) :
  parseSection item = Some p ->
  In (sectionType p) sectionNames
  /\ isRawMatcherType (pMatcherType p) = true
  /\ ((pReplacerType p = "term" /\ pWorkflowId p = None)
      \/ (pReplacerType p = "workflow" /\ pValue p = EmptyString)).
Proof.
  unfold parseSection. destruct (Json.asObject (Json.prop item "section")) as [section|].
  2:{ intros [= <-]. cbn. auto 10. }
  destruct (Json.includesMethod _) as [inc|]; [|discriminate].
  pose proof (sectionTypeOf_in inc) as Hin.
  destruct (Json.asObject (Json.prop section "operation")) as [operation|].
  2:{ intros [= <-]. cbn. auto. }
  destruct (match Json.asObject (Json.prop operation "matcher") with
            | Some matcherObj => parseMatcher matcherObj
            | None => Some ("regex", EmptyString)
            end) as [[mt m]|] eqn:Hm; [|discriminate].
  destruct (match Json.asObject (Json.prop operation "replacer") with
            | Some replacerObj => parseReplacer replacerObj
            | None => Some ("term", EmptyString, None)
            end) as [[[rt v] w]|] eqn:Hr; [|discriminate].
  intros [= <-]. cbn. split; [exact Hin|]. split.
  - destruct (Json.asObject (Json.prop operation "matcher")).
    + exact (parseMatcher_type _ _ Hm).
    + now injection Hm as <- <-.
  - destruct (Json.asObject (Json.prop operation "replacer")).
    + exact (parseReplacer_shape _ _ _ _ Hr).
    + injection Hr as <- <- <-. auto.
Qed.

(** X12. A rule that [parseGraphQLRule] returns is ready for the sync: it
    has a non-empty name, one of the eight section names, a matcher type
    among regex, string and full, and a replacer that is a term without
    workflow reference or a workflow with empty term; so the sync loop
    does not skip it at its checks, and [toSection] translates it. *)
Theorem parseGraphQLRule_wellformed (freshId : string) (item : json) (r : Rule.t) :
  parseGraphQLRule freshId item = Some r ->
  complete r = true
  /\ (exists s, Rule.section r = Some s /\ In s sectionNames)
  /\ (exists mt, Rule.matcherType r = Some mt /\ isRawMatcherType mt = true)
  /\ ((Rule.replacerType r = Some "term" /\ Rule.workflowId r = None)
      \/ (Rule.replacerType r = Some "workflow" /\ Rule.value r = Some EmptyString))
  /\ exists section, toSection r = Returned section /\ validSection section = true.
Proof.
  unfold parseGraphQLRule.
  destruct (JS.isEmpty (Json.stringOr (Json.prop item "name") EmptyString)) eqn:Hn;
    [discriminate|].
  destruct (parseSection item) as [p|] eqn:Hp; [|discriminate].
  destruct (parseSection_wellformed item p Hp) as [Hs [Hm Hr]].
  intros [= <-].
  assert (Hsec : truthyStr (Some (sectionType p)) = true).
  { unfold sectionNames in Hs. cbn in Hs.
    repeat destruct Hs as [<-|Hs]; try reflexivity. contradiction. }
  split.
  - unfold complete. cbn [Rule.section Rule.name]. rewrite Hsec. cbn. now rewrite Hn.
  - split; [exists (sectionType p); split; [reflexivity | exact Hs]|].
    split; [exists (pMatcherType p); split; [reflexivity | exact Hm]|]. split.
    + cbn. destruct Hr as [[Hrt Hw] | [Hrt Hv]]; [left | right]; split; congruence.
    + apply toSection_valid. exact Hsec.
Qed.

Lemma parseGraphQLRule_wellformed_witness :
  let item := JObj [("name", JStr "x"); ("section", JObj [("kind", JStr "SectionRequestPath")])] in
  exists r,
    parseGraphQLRule "1" item = Some r
    /\ complete r = true
    /\ exists section, toSection r = Returned section /\ validSection section = true.
Proof.
  cbv zeta. eexists. split; [reflexivity|].
  match goal with
  | |- complete ?r = true /\ _ =>
      pose proof (parseGraphQLRule_wellformed "1"
                    (JObj [("name", JStr "x");
                           ("section", JObj [("kind", JStr "SectionRequestPath")])])
                    r eq_refl) as [Hc [_ [_ [_ Ht]]]]
  end.
  exact (conj Hc Ht).
Defined.

(** ** Replacers *)

Lemma buildReplacer_cases (replacerType : option string) (t : string) (w : option string) :
  (exists w', w = Some w' /\ strictEq replacerType "workflow" = true /\ JS.blank w' = false
              /\ buildReplacer replacerType t w
                 = JObj [("kind", JStr "ReplacerWorkflow"); ("workflowId", JStr w')])
  \/ buildReplacer replacerType t w = JObj [("kind", JStr "ReplacerTerm"); ("term", JStr t)].
Proof.
  unfold buildReplacer. destruct w as [w|]; [|now right].
  destruct (strictEq replacerType "workflow") eqn:Hrt; cbn [andb]; [|now right].
  destruct (JS.blank w) eqn:Hb; cbn [negb]; [now right|].
  left. exists w. auto.
Qed.

(** The replacer [toSection] puts in the section of a rule. *)
Lemma toSection_replacer (r : Rule.t) (section : json) :
  toSection r = Returned section ->
  operationPart section "replacer"
  = Some (buildReplacer (Some (nullish (Rule.replacerType r) "term"))
                        (nullish (Rule.value r) EmptyString) (Rule.workflowId r)).
Proof.
  unfold toSection. destruct (negb (truthyStr (Rule.section r))); [discriminate|].
  set (replacer := buildReplacer _ _ _).
  unfold headerSection.
  repeat match goal with
         | |- context [if ?b then _ else _] => destruct b
         end; intros [= <-]; reflexivity.
Qed.

(** X13. [toSection] never sends a blank workflow reference: when the
    section it returns has a [ReplacerWorkflow], the reference is the
    rule's own, is not blank, and the rule's replacer type is
    ["workflow"]; otherwise the section has a [ReplacerTerm] with the
    rule's value. *)
Theorem toSection_replacer_safe (r : Rule.t) (section : json) :
  toSection r = Returned section ->
  (exists w, resolvedWorkflowId section = Some w
             /\ resolvedTerm section = None
             /\ Rule.workflowId r = Some w
             /\ JS.blank w = false
             /\ Rule.replacerType r = Some "workflow")
  \/ (resolvedWorkflowId section = None
      /\ resolvedTerm section = Some (nullish (Rule.value r) EmptyString)).
Proof.
  intros Hs. unfold resolvedWorkflowId, resolvedTerm.
  rewrite (toSection_replacer r section Hs).
  destruct (buildReplacer_cases (Some (nullish (Rule.replacerType r) "term"))
              (nullish (Rule.value r) EmptyString) (Rule.workflowId r))
    as [[w [Hw [Hrt [Hb ->]]]] | ->].
  - left. exists w. cbn. repeat split; auto.
    destruct (Rule.replacerType r) as [rt|]; cbn in Hrt; [|discriminate].
    apply String.eqb_eq in Hrt. now subst.
  - right. split; reflexivity.
Qed.

Lemma toSection_replacer_safe_witness :
  let r := Rule.mk "1" (Some "n") (Some "RequestMethod") None (Some "GET") true None
                   (Some "workflow") None (Some "   ") in
  exists section,
    toSection r = Returned section
    /\ resolvedWorkflowId section = None
    /\ resolvedTerm section = Some "GET".
Proof.
  cbv zeta. eexists. split; [reflexivity|].
  match goal with
  | |- resolvedWorkflowId ?s = None /\ _ =>
      destruct (toSection_replacer_safe
                  (Rule.mk "1" (Some "n") (Some "RequestMethod") None (Some "GET") true None
                           (Some "workflow") None (Some "   "))
                  s eq_refl) as [[w [_ [_ [Hw [Hb _]]]]] | H]
  end.
  - injection Hw as <-. discriminate Hb.
  - exact H.
Defined.

(** ** The live read path *)

(** X14. Read with [importProjectRule]'s reader and translated back with
    [toSection], a host rule of the data model keeps its pattern, term
    and workflow reference, request-body rules and [MatcherRawRegex]
    matchers included, provided its pattern is not blank in a header,
    path or query section and its workflow reference is not blank. *)
Theorem live_roundTrip (freshId : string) (h : HostRule) (rule : ProjectRule.t) :
  enumerated h = true ->
  carriedLive h = true ->
  Json.prop (ProjectRule.props rule) "section" = Some (hostSectionValue h) ->
  exists r section,
    readProjectRule freshId rule = Returned r
    /\ toSection r = Returned section
    /\ resolvedPattern section = resolvedPattern (hostSectionValue h)
    /\ resolvedTerm section = resolvedTerm (hostSectionValue h)
    /\ resolvedWorkflowId section = resolvedWorkflowId (hostSectionValue h).
Proof.
  destruct h as [name sec m rep].
  unfold enumerated, carriedLive; cbn [hostSection hostMatcher hostReplacer hostName].
  intros He Hc Hsec. unfold readProjectRule. rewrite Hsec. clear Hsec.
  destruct sec, m as [[p|p| |p]|]; try discriminate; cbn in He; try discriminate.
  all: destruct rep as [t|w].
  all: try (destruct (JS.blank w) eqn:Ew;
            [cbn -[JS.blank] in Hc; rewrite ?Bool.andb_false_r in Hc; discriminate Hc|]).
  all: try (destruct p as [|c' p];
            [|destruct (JS.blank (String c' p)) eqn:Ep;
              [cbn -[JS.blank] in Hc; rewrite ?Ep in Hc; try discriminate Hc|]]).
  all: cbn -[JS.blank toSection].
  all: eexists; eexists; split; [reflexivity|].
  all: cbn -[JS.blank]; rewrite ?Ew, ?Ep; cbn -[JS.blank].
  all: split; [reflexivity|].
  all: cbn; repeat split; try reflexivity.
  all: try rewrite Ep; try reflexivity.
  all: destruct t; reflexivity.
Qed.

Lemma live_roundTrip_witness :
  let h := mkHostRule "Mask token" RequestBody (Some (MatcherRawRegex "token=[a-z]+"))
                      (ReplacerTerm "token=x") in
  let rule := ProjectRule.mk "7" "Mask token"
                (JObj [("section", hostSectionValue h); ("enabled", JBool true)]) in
  enumerated h = true /\ carriedLive h = true
  /\ exists r section,
       readProjectRule "1" rule = Returned r
       /\ toSection r = Returned section
       /\ resolvedPattern section = Some "token=[a-z]+"
       /\ resolvedTerm section = Some "token=x"
       /\ resolvedWorkflowId section = None.
Proof.
  cbv zeta. split; [reflexivity|]. split; [reflexivity|].
  apply (live_roundTrip "1"
           (mkHostRule "Mask token" RequestBody (Some (MatcherRawRegex "token=[a-z]+"))
                       (ReplacerTerm "token=x"))); reflexivity.
Defined.

Lemma buildMatcher_cases (matcherType : option string) (v : string) :
  buildMatcher matcherType v = JObj [("kind", JStr "MatcherRawFull")]
  \/ buildMatcher matcherType v = JObj [("kind", JStr "MatcherRawRegex"); ("regex", JStr v)]
  \/ buildMatcher matcherType v = JObj [("kind", JStr "MatcherRawValue"); ("value", JStr v)].
Proof.
  unfold buildMatcher.
  destruct (strictEq matcherType "full"); [now left|].
  destruct (strictEq matcherType "regex"); [right; now left|].
  destruct (strictEq matcherType "string"); [right; now right | right; now left].
Qed.

Lemma orEmpty_self (x : string) : (if JS.isEmpty x then EmptyString else x) = x.
Proof. now destruct x. Qed.

Lemma matcherValueOf_normal (r : Rule.t) :
  (if JS.blank (matcherValueOf r) then EmptyString else matcherValueOf r) = matcherValueOf r.
Proof.
  unfold matcherValueOf. destruct (Rule.matcher r) as [m|]; [|reflexivity].
  destruct (JS.blank m) eqn:Hb; [reflexivity | now rewrite Hb].
Qed.

(** X15. A rule that was synced and is imported back from the project
    syncs to the same host section again: reading the section that
    [toSection] made of a rule gives a rule that [toSection] maps to that
    very section.  For a header rule the matcher type must be regex,
    string or full (or absent); a name-matched header comes back as a raw
    regex matcher. *)
Theorem toSection_reimport_stable (freshId : string) (r : Rule.t) (section : json)
    (rule : ProjectRule.t) :
  toSection r = Returned section ->
  negb (isHeaderSection (Rule.section r))
  || isRawMatcherType (nullish (Rule.matcherType r) "regex") = true ->
  Json.prop (ProjectRule.props rule) "section" = Some section ->
  exists r', readProjectRule freshId rule = Returned r'
             /\ toSection r' = Returned section.
Proof.
  intros Hs Hraw Hprop. unfold readProjectRule. rewrite Hprop. clear Hprop.
  revert Hs. unfold toSection.
  destruct (truthyStr (Rule.section r)) eqn:Htr; cbn [negb]; [|discriminate].
  destruct (Rule.section r) as [s|]; [|discriminate].
  pose proof (matcherValueOf_normal r) as Hmv.
  pose proof (orEmpty_self (matcherValueOf r)) as Hmv'.
  pose proof (orEmpty_self (strOr (Rule.matcher r) EmptyString)) as Hbm.
  unfold headerSection, isHeaderSection, strictEq in *.
  set (mv := matcherValueOf r) in *. clearbody mv.
  set (bm := strOr (Rule.matcher r) EmptyString) in *. clearbody bm.
  set (mt := nullish (Rule.matcherType r) "regex") in *. clearbody mt.
  destruct (buildReplacer_cases (Some (nullish (Rule.replacerType r) "term"))
              (nullish (Rule.value r) EmptyString) (Rule.workflowId r))
    as [[w [_ [_ [Hb ->]]]] | ->].
  all: set (t := nullish (Rule.value r) EmptyString); clearbody t.
  all: pose proof (orEmpty_self t) as Ht.
  all: assert (Ht' : (if JS.isEmpty t then t else t) = t) by now destruct t.
  all: destruct (String.eqb s "RequestHeader") eqn:E1;
    [cbn [orb negb] in Hraw; rewrite Hraw; cbn [strOr];
     destruct (buildMatcher_cases (Some mt) (if JS.isEmpty mv then EmptyString else mv))
       as [-> | [-> | ->]]
    |destruct (String.eqb s "RequestBody") eqn:E2;
     [destruct (buildMatcher_cases (Some mt) bm) as [-> | [-> | ->]]
     |destruct (String.eqb s "RequestMethod") eqn:E3;
      [|destruct (String.eqb s "RequestPath") eqn:E4;
        [|destruct (String.eqb s "RequestQuery") eqn:E5;
          [|destruct (String.eqb s "ResponseHeader") eqn:E6;
            [cbn [orb negb] in Hraw; rewrite Hraw; cbn [strOr];
             destruct (buildMatcher_cases (Some mt)
                         (if JS.isEmpty mv then EmptyString else mv))
               as [-> | [-> | ->]]
            |destruct (String.eqb s "ResponseBody") eqn:E7;
             [destruct (buildMatcher_cases (Some mt) bm) as [-> | [-> | ->]]|]]]]]]].
  all: intros [= <-].
  all: cbn -[JS.blank toSection].
  all: eexists; (split; [reflexivity|]).
  all: cbn -[JS.blank].
  all: rewrite ?Hb, ?Ht', ?Hmv', ?Hmv, ?Hbm, ?Ht, ?Hmv; cbn -[JS.blank];
    rewrite ?Hb, ?Ht', ?Hmv', ?Hmv, ?Hbm, ?Ht.
  all: reflexivity.
Qed.

Lemma toSection_reimport_stable_witness :
  let r := headerRule "2" (Some "RequestBody") in
  exists section r',
    toSection r = Returned section
    /\ readProjectRule "9" (ProjectRule.mk "h1" "Rule" (JObj [("section", section)]))
       = Returned r'
    /\ toSection r' = Returned section.
Proof.
  cbv zeta. eexists.
  match goal with
  | |- exists r', toSection ?r = Returned ?s /\ _ =>
      let s' := eval vm_compute in (match toSection r with Returned x => x | Threw _ => JNull end) in
      unify s s';
      destruct (toSection_reimport_stable "9" r s'
                  (ProjectRule.mk "h1" "Rule" (JObj [("section", s')]))
                  eq_refl eq_refl eq_refl) as [r' [Hread Hto]];
      exists r'; split; [reflexivity | split; [exact Hread | exact Hto]]
  end.
Defined.

(** ** Rules of the current project *)

Lemma loadProjectRules_listed (collections : list ProjectCollection.t)
    (allRules : list ProjectRule.t) (e : AvailableRule.t) :
  In e (loadProjectRules (Returned collections) (Returned allRules)) ->
  exists rule,
    find (fun r => strictEq (Some (AvailableRule.id e)) (ProjectRule.id r)) allRules
    = Some rule
    /\ ProjectRule.id rule = AvailableRule.id e
    /\ ProjectRule.name rule = AvailableRule.name e.
Proof.
  unfold loadProjectRules.
  intros [c [_ [ruleId [_ Hin]]%in_flat_map]]%in_flat_map.
  destruct (find (projectRuleHasId ruleId) allRules) as [rule|] eqn:Hf; [|contradiction].
  destruct Hin as [<-|[]]. cbn.
  pose proof (find_some _ _ Hf) as [_ Hid]. apply String.eqb_eq in Hid.
  exists rule. split; [|auto].
  rewrite <- Hf. rewrite Hid. clear. induction allRules as [|r t IH]; cbn; [reflexivity|].
  unfold projectRuleHasId at 1. rewrite (String.eqb_sym ruleId).
  now destruct (String.eqb (ProjectRule.id r) ruleId).
Qed.

Section ProjectImport.

Variable B : Type.
Variable saveCollections : list Collection.t -> B -> B * Outcome (Result unit).
Variable saveSelectedCollectionId : string -> B -> B * Outcome (Result unit).

(** X16. A rule that [loadProjectRules] listed is found again by
    [importProjectRule] in the same list of project rules, by its
    identifier if that is not empty: with a collection selected, the
    import appends the rule read from it to the displayed rules and
    clears the choice. *)
Theorem importProjectRule_listed (collections : list ProjectCollection.t)
    (allRules : list ProjectRule.t) (e : AvailableRule.t) (freshId : string)
    (st : Store B) (c : Collection.t) :
  In e (loadProjectRules (Returned collections) (Returned allRules)) ->
  JS.isEmpty (AvailableRule.id e) = false ->
  selectedCollection st = Some c ->
  exists rule,
    In rule allRules
    /\ ProjectRule.id rule = AvailableRule.id e
    /\ ProjectRule.name rule = AvailableRule.name e
    /\ forall r',
         readProjectRule freshId rule = Returned r' ->
         let result :=
           importProjectRule saveCollections saveSelectedCollectionId
             (Returned allRules) (Some (AvailableRule.id e)) freshId st in
         rules (fst result) = (rules st ++ [r'])%list /\ snd result = None.
Proof.
  intros Hin He Hc. destruct (loadProjectRules_listed _ _ _ Hin) as [rule [Hf [Hid Hname]]].
  exists rule. split; [exact (proj1 (find_some _ _ Hf))|]. split; [exact Hid|].
  split; [exact Hname|]. intros r' Hr'. cbv zeta.
  destruct (selectedCollection_some B st c Hc) as [Hsel [Hne _]].
  unfold importProjectRule. cbn [truthyStr]. rewrite He. cbn [negb].
  rewrite Hf, Hr'. unfold truthyStr. rewrite Hsel, Hne. cbn [negb]. rewrite Hc.
  cbn [fst snd]. split; [|reflexivity].
  unfold addRules. rewrite Hc. rewrite (selectedCollection_rules B st c Hc).
  etransitivity; [|exact (rules_replaced B saveCollections saveSelectedCollectionId st c _ Hc)].
  reflexivity.
Qed.

End ProjectImport.

(** ** Loading a saved store *)

Section Restore.

Variable gtZero : json -> bool.

Lemma idOf_collectionValue (c : Collection.t) :
  idOf (Some (collectionValue c)) = Returned (Some (JStr (Collection.id c))).
Proof. reflexivity. Qed.

Lemma findById_collectionValue (sel : string) (cs : list Collection.t) :
  findById sel (map collectionValue cs)
  = Returned (option_map collectionValue (find (hasId sel) cs)).
Proof.
  induction cs as [|c t IH]; [reflexivity|].
  cbn [map findById]. rewrite idOf_collectionValue. cbn [find].
  change (hasId sel c) with (String.eqb (Collection.id c) sel).
  destruct (String.eqb (Collection.id c) sel); [reflexivity | exact IH].
Qed.

(** X17. Whatever the backend answers, [load] leaves a value of positive
    length in [collections.value]: the adopted one or the default list. *)
Theorem load_nonempty (sdk : bool) (now : string)
    (collectionsResult : Outcome (Result json))
    (selectedResult : Outcome (Result (option string))) (selected0 : option json) :
  lengthPositive gtZero
    (loadedCollections (load gtZero sdk now collectionsResult selectedResult selected0))
  = Returned true.
Proof.
  unfold load. destruct sdk; [|reflexivity]. cbn [negb].
  destruct (loadBody gtZero now collectionsResult selectedResult selected0) as [l|e] eqn:Hb;
    [|reflexivity].
  revert Hb. unfold loadBody.
  destruct collectionsResult as [[value|err]|e]; cbn [bind]; [| |discriminate].
  - destruct (lengthPositive gtZero value) as [[|]|e] eqn:Hlen; cbn [bind]; [| |discriminate].
    + destruct (ensureSelected gtZero value selected0) as [s1|e]; cbn [bind]; [|discriminate].
      destruct selectedResult as [sr|e]; cbn [bind]; [|discriminate].
      match goal with
      | |- bind ?x _ = _ -> _ => destruct x as [s2|e]; cbn [bind]; [|discriminate]
      end.
      destruct (ensureSelected gtZero value s2) as [s3|e]; cbn [bind]; [|discriminate].
      intros [= <-]. exact Hlen.
    + destruct (ensureSelected gtZero _ selected0) as [s1|e]; cbn [bind]; [|discriminate].
      destruct selectedResult as [sr|e]; cbn [bind]; [|discriminate].
      match goal with
      | |- bind ?x _ = _ -> _ => destruct x as [s2|e]; cbn [bind]; [|discriminate]
      end.
      destruct (ensureSelected gtZero _ s2) as [s3|e]; cbn [bind]; [|discriminate].
      intros [= <-]. reflexivity.
  - destruct (ensureSelected gtZero _ selected0) as [s1|e]; cbn [bind]; [|discriminate].
    destruct selectedResult as [sr|e]; cbn [bind]; [|discriminate].
    match goal with
    | |- bind ?x _ = _ -> _ => destruct x as [s2|e]; cbn [bind]; [|discriminate]
    end.
    destruct (ensureSelected gtZero _ s2) as [s3|e]; cbn [bind]; [|discriminate].
    intros [= <-]. reflexivity.
Qed.

Lemma ensureSelected_stored_none (c0 : Collection.t) (cs : list Collection.t) :
  ensureSelected gtZero (JArr (map collectionValue (c0 :: cs))) None
  = Returned (Some (JStr (Collection.id c0))).
Proof. reflexivity. Qed.

Lemma ensureSelected_stored_some (c0 : Collection.t) (cs : list Collection.t) (s : string) :
  s = Collection.id c0 \/ JS.isEmpty s = false ->
  ensureSelected gtZero (JArr (map collectionValue (c0 :: cs))) (Some (JStr s))
  = Returned (Some (JStr s)).
Proof.
  unfold ensureSelected. cbn. intros [-> | Hs]; [|now rewrite Hs].
  now destruct (JS.isEmpty (Collection.id c0)).
Qed.

(** X18. A stored list of collections that is well formed and not empty
    is loaded as it is; the selection is the stored identifier when it is
    not blank and names one of the collections, and the first collection
    otherwise. *)
Theorem load_restores (now : string) (cs : list Collection.t) (stored : option string) :
  cs <> [] ->
  load gtZero true now (Returned (Ok (JArr (map collectionValue cs))))
       (Returned (Ok stored)) None
  = mkLoaded (JArr (map collectionValue cs))
             (option_map JStr (restoredSelection cs stored)).
Proof.
  destruct cs as [|c0 cs]; [contradiction|]. intros _.
  unfold load, loadBody. cbn [negb bind].
  change (lengthPositive gtZero (JArr (map collectionValue (c0 :: cs))))
    with (Returned (A := bool) true). cbn [bind].
  rewrite ensureSelected_stored_none. cbn [bind].
  unfold restoredSelection.
  destruct stored as [s|]; cbn [bind].
  2:{ rewrite ensureSelected_stored_some by now left. reflexivity. }
  destruct (JS.blank s) eqn:Hb; cbn [negb andb bind].
  { rewrite ensureSelected_stored_some by now left. reflexivity. }
  unfold findIn. rewrite findById_collectionValue.
  destruct (find (hasId s) (c0 :: cs)) as [c|] eqn:Hf.
  - pose proof (find_some _ _ Hf) as [Hin Hid].
    assert (He : existsb (hasId s) (c0 :: cs) = true) by (apply existsb_exists; eauto).
    rewrite He. apply String.eqb_eq in Hid. cbn [bind option_map].
    rewrite idOf_collectionValue. cbn [bind]. rewrite Hid.
    rewrite ensureSelected_stored_some; [reflexivity|].
    right. destruct s; [discriminate Hb | reflexivity].
  - assert (He : existsb (hasId s) (c0 :: cs) = false).
    { destruct (existsb (hasId s) (c0 :: cs)) eqn:He; [|reflexivity].
      apply existsb_exists in He as [c [Hin Hc]].
      now rewrite (find_none _ _ Hf c Hin) in Hc. }
    rewrite He. cbn [bind option_map].
    change (lengthPositive gtZero (JArr (map collectionValue (c0 :: cs))))
      with (Returned (A := bool) true). cbn [bind].
    change (idOf (first (JArr (map collectionValue (c0 :: cs)))))
      with (Returned (A := option json) (Some (JStr (Collection.id c0)))). cbn [bind].
    rewrite ensureSelected_stored_some by now left. reflexivity.
Qed.

End Restore.

(** ** Saving and reading back *)

Section BackendProperties.

Variable D : Type.
Variable dbRun : string -> string -> D -> Outcome D.
Variable dbGet : string -> D -> Outcome (option string).
Variable JSON_stringify : json -> string.
Variable JSON_parse : string -> Outcome json.

(** X19. On a config table that returns under a key what was last put
    there and keeps the other keys, and with a parser that reads back
    what the serialiser wrote, the collections and the selection that the
    backend saved one after the other, as [persist] asks it to, are what
    its getters return: the second record does not disturb the first. *)
Theorem save_then_get (cs : list Collection.t) (sel : string) (d d1 d2 : D) :
  (forall k v d0 d', dbRun k v d0 = Returned d' ->
                     dbGet k d' = Returned (Some v)
                     /\ forall k', k' <> k -> dbGet k' d' = dbGet k' d0) ->
  JSON_parse (JSON_stringify (JArr (map collectionValue cs)))
  = Returned (JArr (map collectionValue cs)) ->
  Backend.saveCollections D dbRun JSON_stringify cs d = (d1, Ok tt) ->
  Backend.saveSelectedCollectionId D dbRun sel d1 = (d2, Ok tt) ->
  getCollections (fun k => dbGet k d2) JSON_parse = Ok (JArr (map collectionValue cs))
  /\ getSelectedCollectionId (fun k => dbGet k d2) = Ok (Some sel).
Proof.
  intros Hkv Hparse. unfold Backend.saveCollections, Backend.saveSelectedCollectionId.
  destruct (dbRun "global-match-replace-collections" _ d) as [d1'|e] eqn:H1; [|discriminate].
  intros [= ->].
  destruct (dbRun "global-match-replace-selected-collection" sel d1) as [d2'|e] eqn:H2;
    [|discriminate].
  intros [= ->].
  destruct (Hkv _ _ _ _ H1) as [Hget1 _]. destruct (Hkv _ _ _ _ H2) as [Hget2 Hother].
  unfold getCollections, getSelectedCollectionId.
  rewrite Hget2, (Hother "global-match-replace-collections") by discriminate.
  rewrite Hget1, Hparse. split; reflexivity.
Qed.

End BackendProperties.

Lemma save_then_get_witness :
  let d1 := fst (Backend.saveCollections Table tableRun stringifyOne savedOne (fun _ => None)) in
  let d2 := fst (Backend.saveSelectedCollectionId Table tableRun "a" d1) in
  getCollections (fun k => tableGet k d2) parseOne = Ok (JArr (map collectionValue savedOne))
  /\ getSelectedCollectionId (fun k => tableGet k d2) = Ok (Some "a").
Proof.
  cbv zeta.
  apply (save_then_get Table tableRun tableGet stringifyOne parseOne savedOne "a"
           (fun _ => None)
           (fst (Backend.saveCollections Table tableRun stringifyOne savedOne (fun _ => None)))).
  - intros k v d0 d' [= <-]. unfold tableGet. split.
    + now rewrite String.eqb_refl.
    + intros k' Hk. destruct (String.eqb k' k) eqn:E; [|reflexivity].
      apply String.eqb_eq in E. contradiction.
  - reflexivity.
  - reflexivity.
  - reflexivity.
Defined.

(** ** Sync: when and what *)

Section SyncToasts.

Variable H : Type.
Variable hostCreateRule : CreateRule -> H -> H * Outcome string.
Variable hostToggleRule : string -> bool -> H -> H * Outcome unit.

Lemma syncRule_toasts (createdId : string) (r : Rule.t) (st : SyncState H) :
  syncToasts (fst (syncRule hostCreateRule hostToggleRule createdId r st)) = syncToasts st.
Proof.
  unfold syncRule. destruct (_ || _); [reflexivity|].
  destruct (toSection r); [|reflexivity]. destruct (negb _); [reflexivity|].
  unfold call. destruct (hostCreateRule _ _) as [h1 [ruleId|e]]; [|reflexivity].
  cbn. destruct (hostToggleRule _ _ _) as [h2 [u|e]]; reflexivity.
Qed.

Lemma syncRules_toasts (createdId : string) (rules : list Rule.t) (st : SyncState H) (n : nat) :
  syncToasts (fst (syncRules hostCreateRule hostToggleRule createdId rules st n))
  = syncToasts st.
Proof.
  revert st n. induction rules as [|r rest IH]; intros st n; cbn; [reflexivity|].
  pose proof (syncRule_toasts createdId r st) as Ht.
  destruct (syncRule hostCreateRule hostToggleRule createdId r st) as [st1 counted].
  cbn in Ht. now rewrite IH.
Qed.

End SyncToasts.

Section SyncMore.

Variable H : Type.
Variable getCurrentProject : H -> H * Outcome (Result (option Workspace.t)).
Variable projectsApi : ProjectsApi.
Variable switchProject : string -> H -> H * Outcome unit.
Variable setCurrentProject : string -> H -> H * Outcome unit.
Variable hostGetCollections : H -> H * Outcome (list HostCollection.t).
Variable hostDeleteCollection : string -> H -> H * Outcome unit.
Variable hostCreateCollection : string -> H -> H * Outcome string.
Variable hostCreateRule : CreateRule -> H -> H * Outcome string.
Variable hostToggleRule : string -> bool -> H -> H * Outcome unit.

(** What one turn of the collection loop does to the state and the
    counters. *)
Lemma syncCollection_outcome (existing : list HostCollection.t) (c : Collection.t)
    (st : SyncState H) (totals : Totals) :
  let result :=
    syncCollection hostDeleteCollection hostCreateCollection hostCreateRule hostToggleRule
                   existing c (st, totals) in
  (exists l, calls (fst result) = (calls st ++ l)%list /\ syncToasts (fst result) = syncToasts st)
  /\ ((eligible c = false /\ result = (st, totals))
      \/ (eligible c = true
          /\ ((totalCollectionsSynced (snd result) = totalCollectionsSynced totals
               /\ totalRulesSynced (snd result) = totalRulesSynced totals
               /\ failedCollections (snd result)
                  = (failedCollections totals ++ [JS.trim (Collection.name c)])%list)
              \/ (totalCollectionsSynced (snd result) = totalCollectionsSynced totals + 1
                  /\ totalRulesSynced totals <= totalRulesSynced (snd result)
                  /\ totalRulesSynced (snd result)
                     <= totalRulesSynced totals
                        + List.length (filter complete (Collection.rules c))
                  /\ failedCollections (snd result) = failedCollections totals)))).
Proof.
  cbv zeta. unfold syncCollection, eligible.
  destruct (Nat.eqb (List.length (Collection.rules c)) 0); cbn [negb andb].
  { split; [exists []; split; [now rewrite app_nil_r | reflexivity] | now left]. }
  destruct (JS.isEmpty (JS.trim (Collection.name c))); cbn [negb].
  { split; [exists []; split; [now rewrite app_nil_r | reflexivity] | now left]. }
  set (name := JS.trim (Collection.name c)).
  assert (Hrules : forall createdId st1 l1,
             calls st1 = (calls st ++ l1)%list ->
             syncToasts st1 = syncToasts st ->
             let result :=
               let (st2, ruleCount) :=
                 syncRules hostCreateRule hostToggleRule createdId (Collection.rules c) st1 0 in
               (st2, mkTotals (totalCollectionsSynced totals + 1)
                              (totalRulesSynced totals + ruleCount)
                              (failedCollections totals)) in
             (exists l, calls (fst result) = (calls st ++ l)%list
                        /\ syncToasts (fst result) = syncToasts st)
             /\ totalCollectionsSynced (snd result) = totalCollectionsSynced totals + 1
             /\ totalRulesSynced totals <= totalRulesSynced (snd result)
             /\ totalRulesSynced (snd result)
                <= totalRulesSynced totals + List.length (filter complete (Collection.rules c))
             /\ failedCollections (snd result) = failedCollections totals).
  { intros createdId st1 l1 H1 H2. cbv zeta.
    destruct (syncRules_extends H hostCreateRule hostToggleRule createdId
                (Collection.rules c) st1 0) as [l Hl].
    pose proof (syncRules_count_le H hostCreateRule hostToggleRule createdId
                  (Collection.rules c) st1 0) as Hle.
    pose proof (syncRules_toasts H hostCreateRule hostToggleRule createdId (Collection.rules c) st1 0) as Ht.
    destruct (syncRules hostCreateRule hostToggleRule createdId (Collection.rules c) st1 0)
      as [st2 ruleCount].
    cbn in *. split; [exists (l1 ++ l)%list; split; [now rewrite Hl, H1, app_assoc | congruence]|].
    repeat split; lia. }
  unfold call.
  destruct (find (hasName name) existing) as [e|].
  - destruct (hostDeleteCollection (HostCollection.id e) (host st)) as [h1 [u|err]];
      cbn [host calls syncToasts].
    + destruct (hostCreateCollection name h1) as [h2 [createdId|err]].
      * destruct (Hrules createdId
                    (mkSyncState h2 ((calls st ++ [CallDeleteCollection (HostCollection.id e)])
                                     ++ [CallCreateCollection name])%list (syncToasts st))
                    [CallDeleteCollection (HostCollection.id e); CallCreateCollection name])
          as [Hext Hcount]; [cbn; now rewrite <- app_assoc | reflexivity |].
        split; [exact Hext|]. right. split; [reflexivity|]. right. exact Hcount.
      * cbn. split; [eexists; split; [now rewrite <- app_assoc | reflexivity]|].
        right. split; [reflexivity|]. left. auto.
    + cbn. split; [eexists; split; reflexivity|].
      right. split; [reflexivity|]. left. auto.
  - cbn [host calls syncToasts].
    destruct (hostCreateCollection name (host st)) as [h2 [createdId|err]].
    + destruct (Hrules createdId
                  (mkSyncState h2 (calls st ++ [CallCreateCollection name])%list (syncToasts st))
                  [CallCreateCollection name]) as [Hext Hcount]; [reflexivity | reflexivity |].
      split; [exact Hext|]. right. split; [reflexivity|]. right. exact Hcount.
    + cbn. split; [eexists; split; reflexivity|].
      right. split; [reflexivity|]. left. auto.
Qed.

End SyncMore.

Section SyncAccounting.

Variable H : Type.
Variable getCurrentProject : H -> H * Outcome (Result (option Workspace.t)).
Variable projectsApi : ProjectsApi.
Variable switchProject : string -> H -> H * Outcome unit.
Variable setCurrentProject : string -> H -> H * Outcome unit.
Variable hostGetCollections : H -> H * Outcome (list HostCollection.t).
Variable hostDeleteCollection : string -> H -> H * Outcome unit.
Variable hostCreateCollection : string -> H -> H * Outcome string.
Variable hostCreateRule : CreateRule -> H -> H * Outcome string.
Variable hostToggleRule : string -> bool -> H -> H * Outcome unit.

Lemma syncCollections_extends (existing : list HostCollection.t)
    (cs : list Collection.t) (st : SyncState H) (totals : Totals) :
  exists l,
    calls (fst (syncCollections hostDeleteCollection hostCreateCollection hostCreateRule
                                hostToggleRule existing cs (st, totals)))
    = (calls st ++ l)%list.
Proof.
  unfold syncCollections. revert st totals.
  induction cs as [|c rest IH]; intros st totals; cbn [fold_left].
  - exists []. cbn. now rewrite app_nil_r.
  - destruct (syncCollection_outcome H hostDeleteCollection hostCreateCollection
                hostCreateRule hostToggleRule existing c st totals) as [[l1 [Hl1 _]] _].
    destruct (syncCollection hostDeleteCollection hostCreateCollection hostCreateRule
                             hostToggleRule existing c (st, totals)) as [st1 totals1].
    cbn [fst] in Hl1. destruct (IH st1 totals1) as [l2 Hl2].
    exists (l1 ++ l2)%list. now rewrite Hl2, Hl1, app_assoc.
Qed.

(** X20. The loop over the collections accounts for every eligible
    collection, one with rules and a name that is not blank, exactly
    once, as synced or as failed; the rule total grows by at most the
    number of complete rules in the eligible collections; and the loop
    shows no toast of its own. *)
Theorem syncCollections_accounting (existing : list HostCollection.t)
    (cs : list Collection.t) (st : SyncState H) (totals : Totals) :
  let result :=
    syncCollections hostDeleteCollection hostCreateCollection hostCreateRule hostToggleRule
                    existing cs (st, totals) in
  totalCollectionsSynced (snd result) + List.length (failedCollections (snd result))
  = totalCollectionsSynced totals + List.length (failedCollections totals)
    + List.length (filter eligible cs)
  /\ totalRulesSynced totals <= totalRulesSynced (snd result)
  /\ totalRulesSynced (snd result) <= totalRulesSynced totals + completeRules cs
  /\ (exists l, calls (fst result) = (calls st ++ l)%list)
  /\ syncToasts (fst result) = syncToasts st.
Proof.
  cbv zeta. unfold syncCollections, completeRules.
  revert st totals. induction cs as [|c rest IH]; intros st totals.
  - cbn. split; [now rewrite Nat.add_0_r|]. split; [apply Nat.le_refl|].
    split; [apply Nat.le_add_r|].
    split; [exists []; now rewrite app_nil_r | reflexivity].
  - cbn [fold_left].
    pose proof (syncCollection_outcome H hostDeleteCollection hostCreateCollection
                  hostCreateRule hostToggleRule existing c st totals) as Hc.
    cbv zeta in Hc.
    destruct (syncCollection hostDeleteCollection hostCreateCollection hostCreateRule
                             hostToggleRule existing c (st, totals)) as [st1 totals1].
    cbn [fst snd] in Hc. destruct Hc as [[l1 [Hl1 Ht1]] Hcase].
    specialize (IH st1 totals1). destruct IH as [I1 [I2 [I3 [[l2 Hl2] I5]]]].
    cbn [filter].
    assert (Hext : exists l, calls (fst (fold_left
                       (fun acc c0 =>
                          syncCollection hostDeleteCollection hostCreateCollection
                                         hostCreateRule hostToggleRule existing c0 acc)
                       rest (st1, totals1))) = (calls st ++ l)%list).
    { exists (l1 ++ l2)%list. now rewrite Hl2, Hl1, app_assoc. }
    destruct Hcase as [[He [= -> ->]] | [He Hcase]]; rewrite He.
    + split; [exact I1|]. split; [exact I2|]. split; [exact I3|].
      split; [exact Hext | congruence].
    + cbn [map List.length].
      assert (Hsum : forall a l, list_sum (a :: l) = a + list_sum l) by reflexivity.
      rewrite Hsum.
      destruct Hcase as [[C1 [C2 C3]] | [C1 [C2 [C3 C4]]]].
      * rewrite C3, length_app in I1. cbn in I1.
        split; [lia|]. split; [lia|]. split; [lia|]. split; [exact Hext | congruence].
      * rewrite C4 in I1.
        split; [lia|]. split; [lia|]. split; [lia|]. split; [exact Hext | congruence].
Qed.

(** X21. When the Sync button is disabled, that is when [canValidate] is
    false, the loop over the collections would pass over every
    collection: it makes no host call and counts nothing. *)
Theorem canValidate_false_skips_all (existing : list HostCollection.t)
    (cs : list Collection.t) (acc : SyncState H * Totals) :
  canValidate cs = false ->
  syncCollections hostDeleteCollection hostCreateCollection hostCreateRule hostToggleRule
                  existing cs acc = acc.
Proof.
  unfold canValidate, syncCollections. revert acc.
  induction cs as [|c rest IH]; intros acc; cbn [existsb fold_left]; [reflexivity|].
  intros [Hc Hrest]%orb_false_iff. rewrite <- (IH acc Hrest) at 2. f_equal.
  destruct acc as [st totals].
  destruct (syncCollection_outcome H hostDeleteCollection hostCreateCollection
              hostCreateRule hostToggleRule existing c st totals) as [_ [[_ Hs] | [He _]]];
    [exact Hs|].
  unfold eligible, JS.blank in *. congruence.
Qed.

Lemma selectProject_calls (w : Workspace.t) (st : SyncState H) :
  exists rest,
    calls (fst (selectProject getCurrentProject projectsApi switchProject setCurrentProject
                              w st))
    = (calls st ++ CallGetCurrentProject :: rest)%list.
Proof.
  unfold selectProject, call.
  destruct (getCurrentProject (host st)) as [h1 [[current|err]|e]];
    cbn [host calls syncToasts]; try (exists []; reflexivity).
  destruct (_ && _); [|exists []; reflexivity].
  destruct projectsApi; cbn [host calls syncToasts].
  - destruct (switchProject _ h1) as [h2 o]. eexists. cbn. now rewrite <- app_assoc.
  - destruct (setCurrentProject _ h1) as [h2 o]. eexists. cbn. now rewrite <- app_assoc.
  - exists []. reflexivity.
Qed.

(** X22. A sync reaches the host exactly when some collection has rules
    and a project is selected: otherwise it makes no call at all, and in
    that case asking for the current project is its first call. *)
Theorem onSyncToSelected_contacts_host (cs : list Collection.t)
    (selected : option Workspace.t) (st : SyncState H) :
  let st' :=
    onSyncToSelected getCurrentProject projectsApi switchProject setCurrentProject
      hostGetCollections hostDeleteCollection hostCreateCollection hostCreateRule
      hostToggleRule cs selected st in
  (existsb hasRules cs = false \/ selected = None ->
   calls st' = calls st /\ host st' = host st)
  /\ (existsb hasRules cs = true -> selected <> None ->
      exists rest, calls st' = (calls st ++ CallGetCurrentProject :: rest)%list).
Proof.
  cbv zeta. unfold onSyncToSelected. change (fun c => negb (Nat.eqb (List.length (Collection.rules c)) 0))
    with hasRules. split.
  - intros Hpre. destruct (Nat.eqb (List.length cs) 0); [split; reflexivity|].
    destruct (existsb hasRules cs); cbn [negb]; [|split; reflexivity].
    destruct Hpre as [Hpre | ->]; [discriminate | split; reflexivity].
  - intros Hrules Hsel. destruct cs as [|c0 cs0]; [discriminate|]. cbn [List.length Nat.eqb].
    rewrite Hrules. cbn [negb]. destruct selected as [w|]; [|contradiction].
    destruct (selectProject_calls w st) as [r1 Hr1].
    destruct (selectProject getCurrentProject projectsApi switchProject setCurrentProject w st)
      as [st1 [u|e]]; cbn [fst] in Hr1; [|exists r1; exact Hr1].
    unfold call. destruct (hostGetCollections (host st1)) as [h2 [existing|e]].
    + destruct (syncCollections_extends existing (c0 :: cs0)
                  (mkSyncState h2 (calls st1 ++ [CallGetCollections])%list (syncToasts st1))
                  (mkTotals 0 0 [])) as [l Hl].
      destruct (syncCollections _ _ _ _ _ _ _) as [st3 totals3]. cbn [fst calls] in Hl.
      exists (r1 ++ CallGetCollections :: l)%list.
      unfold summary. destruct (failedCollections totals3); cbn [calls syncToast];
        rewrite Hl, Hr1, <- !app_assoc; reflexivity.
    + cbn. exists (r1 ++ [CallGetCollections])%list. now rewrite Hr1, <- app_assoc.
Qed.

(** X23. After [refreshCurrentProject] has taken a backend answer, a sync
    whose own question about the current project gets that same answer
    switches no project: the selected workspace is the current project,
    or the placeholder ["current"], which is never switched to. *)
Theorem refresh_then_sync_no_switch (answer : Result (option Workspace.t))
    (showToast : bool) (ws : WorkspaceState) (st : SyncState H) (w : Workspace.t) :
  snd (getCurrentProject (host st)) = Returned answer ->
  selectedWorkspace (refreshCurrentProject (Returned answer) showToast ws) = Some w ->
  let result :=
    selectProject getCurrentProject projectsApi switchProject setCurrentProject w st in
  calls (fst result) = (calls st ++ [CallGetCurrentProject])%list
  /\ snd result = Returned tt.
Proof.
  intros Hcur Hsel. cbv zeta. unfold selectProject, call.
  destruct (getCurrentProject (host st)) as [h1 o]. cbn [snd] in Hcur. subst o.
  unfold refreshCurrentProject in Hsel.
  destruct answer as [[current|]|err]; cbn in Hsel; injection Hsel as <-.
  - cbn. rewrite String.eqb_refl. cbn. split; reflexivity.
  - cbn. split; reflexivity.
  - cbn. split; reflexivity.
Qed.

End SyncAccounting.

(** ** Instances *)

Lemma create_then_delete_witness :
  JS.blank (newCollectionName namingStore) = false
  /\ ~ In "b" (collectionIds namingStore)
  /\ collections namingStore <> []
  /\ collections (deleteCollection acceptCollections acceptSelected "b"
                    (createCollection acceptCollections acceptSelected "b" namingStore))
     = collections namingStore.
Proof.
  assert (Hfresh : ~ In "b" (collectionIds namingStore)).
  { intros [H|[]]. discriminate H. }
  assert (Hne : collections namingStore <> []) by discriminate.
  split; [reflexivity|]. split; [exact Hfresh|]. split; [exact Hne|].
  exact (proj1 (create_then_delete unit acceptCollections acceptSelected "b" namingStore
                  eq_refl Hfresh Hne)).
Defined.

Lemma saveRuleName_names_witness :
  let renamed := setName "New name" (headerRule "1" (Some "RequestHeader")) in
  In renamed (rules (saveRuleName acceptCollections acceptSelected "1" editingStore))
  /\ (In renamed (rules editingStore)
      \/ exists text,
           editingRuleName editingStore = Some text
           /\ Rule.id renamed = "1"
           /\ Rule.name renamed = Some (JS.trim text)
           /\ JS.blank text = false
           /\ JS.trim (JS.trim text) = JS.trim text).
Proof.
  cbv zeta.
  assert (Hin : In (setName "New name" (headerRule "1" (Some "RequestHeader")))
                   (rules (saveRuleName acceptCollections acceptSelected "1" editingStore)))
    by (left; reflexivity).
  split; [exact Hin|].
  exact (saveRuleName_names unit acceptCollections acceptSelected "1" editingStore _ Hin).
Defined.

Lemma marks_injective (k k' : nat) : marks k = marks k' -> k = k'.
Proof.
  revert k'. induction k as [|k IH]; intros [|k']; cbn; try discriminate; [reflexivity|].
  intros [= Hk]. f_equal. now apply IH.
Qed.

Lemma idByMarks_injective (f k f' k' : nat) :
  idByMarks f k = idByMarks f' k' -> f = f' /\ k = k'.
Proof.
  unfold idByMarks. revert f'. induction f as [|f IH]; intros [|f']; cbn; try discriminate.
  - intros [= Hk]. split; [reflexivity | now apply marks_injective].
  - intros [= Hf]. destruct (IH _ Hf) as [-> ->]. split; reflexivity.
Qed.

Lemma importFiles_distinct_ids_witness :
  (forall f k f' k', idByMarks f k = idByMarks f' k' -> f = f' /\ k = k')
  /\ NoDup (map Rule.id
              (fst (importFiles parseTwoFlatRules idByMarks 0
                                [Returned "two"; Returned "broken"; Returned "two"]))).
Proof.
  split; [exact idByMarks_injective|].
  apply (importFiles_distinct_ids parseTwoFlatRules idByMarks). exact idByMarks_injective.
Defined.

Lemma importFromFile_twice_witness :
  selectedCollection singleStore = Some (Collection.mk "a" "Global Template" [])
  /\ List.length
       (rules (importFromFile parseTwoFlatRules acceptCollections acceptSelected idByMarks
                 (Some [Returned "two"])
                 (importFromFile parseTwoFlatRules acceptCollections acceptSelected idByMarks
                    (Some [Returned "two"]) singleStore)))
     = List.length (rules singleStore)
       + 2 * List.length (fst (importFiles parseTwoFlatRules idByMarks 0 [Returned "two"])).
Proof.
  split; [reflexivity|].
  exact (proj2 (proj2 (importFromFile_twice parseTwoFlatRules unit acceptCollections
                         acceptSelected idByMarks idByMarks [Returned "two"] singleStore
                         (Collection.mk "a" "Global Template" []) eq_refl))).
Defined.

Lemma importItem_typename_flat_witness :
  let item := JObj [("__typename", JStr "Rule"); ("name", JStr "A");
                    ("section", JStr "ResponseBody"); ("matcher", JStr "a");
                    ("value", JStr "b")] in
  Json.truthy (Json.prop item "__typename") = true
  /\ exists r,
       importItem "1" item = Some r
       /\ Rule.name r = Some "A"
       /\ Rule.section r = Some "RequestHeader"
       /\ Rule.matcher r = Some EmptyString
       /\ Rule.value r = Some EmptyString
       /\ Rule.matcherType r = Some "regex"
       /\ Rule.replacerType r = Some "term".
Proof.
  cbv zeta. split; [reflexivity|].
  apply (importItem_typename_flat "1" _ "A"); reflexivity.
Defined.

Lemma importProjectRule_listed_witness :
  let listed := AvailableRule.mk "r7" "Strip server" "Responses" in
  In listed (loadProjectRules (Returned [ProjectCollection.mk "Responses" (Some ["r0"; "r7"])])
                              (Returned [listedRule]))
  /\ exists rule,
       In rule [listedRule]
       /\ ProjectRule.id rule = "r7"
       /\ ProjectRule.name rule = "Strip server"
       /\ forall r',
            readProjectRule "1" rule = Returned r' ->
            let result :=
              importProjectRule acceptCollections acceptSelected (Returned [listedRule])
                                (Some "r7") "1" singleStore in
            rules (fst result) = (rules singleStore ++ [r'])%list /\ snd result = None.
Proof.
  cbv zeta.
  assert (Hin : In (AvailableRule.mk "r7" "Strip server" "Responses")
                   (loadProjectRules
                      (Returned [ProjectCollection.mk "Responses" (Some ["r0"; "r7"])])
                      (Returned [listedRule]))) by (left; reflexivity).
  split; [exact Hin|].
  exact (importProjectRule_listed unit acceptCollections acceptSelected _ _ _ "1" singleStore
           (Collection.mk "a" "Global Template" []) Hin eq_refl eq_refl).
Defined.

Lemma load_restores_witness :
  savedOne <> []
  /\ load (fun _ => false) true "1700000000000"
          (Returned (Ok (JArr (map collectionValue savedOne))))
          (Returned (Ok (Some "gone"))) None
     = mkLoaded (JArr (map collectionValue savedOne)) (Some (JStr "a")).
Proof.
  assert (Hne : savedOne <> []) by discriminate.
  split; [exact Hne|].
  exact (load_restores (fun _ => false) "1700000000000" savedOne (Some "gone") Hne).
Defined.

Lemma canValidate_false_skips_all_witness :
  let cs := [Collection.mk "a" "   " fiveRules; Collection.mk "b" "Global Empty" []] in
  canValidate cs = false
  /\ syncCollections QuietHost.deleteCollection QuietHost.createCollection
                     QuietHost.createRule QuietHost.toggleRule
                     [HostCollection.mk "c0" "Global Template"] cs
                     (mkSyncState tt [] [], mkTotals 0 0 [])
     = (mkSyncState tt [] [], mkTotals 0 0 []).
Proof.
  cbv zeta. split; [reflexivity|].
  apply (canValidate_false_skips_all unit). reflexivity.
Defined.

Lemma onSyncToSelected_contacts_host_witness :
  calls (quietSync [Collection.mk "b" "Global Empty" []]) = []
  /\ exists rest,
       calls (quietSync [Collection.mk "a" "Global Template" fiveRules])
       = CallGetCurrentProject :: rest.
Proof.
  split.
  - apply (proj1 (onSyncToSelected_contacts_host unit QuietHost.getCurrentProject HasSwitch
                    QuietHost.switchProject QuietHost.switchProject QuietHost.getCollections
                    QuietHost.deleteCollection QuietHost.createCollection QuietHost.createRule
                    QuietHost.toggleRule [Collection.mk "b" "Global Empty" []]
                    (Some (Workspace.mk "p2" "Target")) (mkSyncState tt [] []))).
    left. reflexivity.
  - apply (proj2 (onSyncToSelected_contacts_host unit QuietHost.getCurrentProject HasSwitch
                    QuietHost.switchProject QuietHost.switchProject QuietHost.getCollections
                    QuietHost.deleteCollection QuietHost.createCollection QuietHost.createRule
                    QuietHost.toggleRule [Collection.mk "a" "Global Template" fiveRules]
                    (Some (Workspace.mk "p2" "Target")) (mkSyncState tt [] []))).
    + reflexivity.
    + discriminate.
Defined.

Lemma refresh_then_sync_no_switch_witness :
  let answer := Ok (Some (Workspace.mk "p1" "Project")) in
  let ws := refreshCurrentProject (Returned answer) false (mkWorkspaceState [] None []) in
  snd (QuietHost.getCurrentProject tt) = Returned answer
  /\ selectedWorkspace ws = Some (Workspace.mk "p1" "Project")
  /\ calls (fst (selectProject QuietHost.getCurrentProject HasSwitch QuietHost.switchProject
                               QuietHost.switchProject (Workspace.mk "p1" "Project")
                               (mkSyncState tt [] [])))
     = [CallGetCurrentProject].
Proof.
  cbv zeta. split; [reflexivity|]. split; [reflexivity|].
  exact (proj1 (refresh_then_sync_no_switch unit QuietHost.getCurrentProject HasSwitch
                  QuietHost.switchProject QuietHost.switchProject
                  (Ok (Some (Workspace.mk "p1" "Project"))) false
                  (mkWorkspaceState [] None []) (mkSyncState tt [] [])
                  (Workspace.mk "p1" "Project") eq_refl eq_refl)).
Defined.
